(** * Agentic AI pipeline: the orchestration core

    A shallow embedding of [agentic_ai/core/state.py],
    [agentic_ai/agents/*.py], [agentic_ai/utils/monitoring.py] (its call
    interface, and its metrics store), [agentic_ai/core/orchestrator.py]
    and [agentic_ai/core/pipeline.py] (the run and its result), followed
    by the properties of the run state, the stages, the router, the graph
    walk, the pipeline and the metrics store.

    Python objects are mutated in place; here the one [PipelineState] of a
    run lives in a [World] that every operation threads, and a raised
    exception carries the world as it was mutated up to the raise. *)

From Stdlib Require Import String Ascii List ZArith Floats Bool Lia.
From stdpp Require Import gmap strings list pretty.
Import ListNotations.
Local Open Scope string_scope.
Local Open Scope list_scope.

(** ** Python dictionaries whose iteration order is observed

    [dict_set] keeps the position of an existing key and appends a new one,
    as assignment to a Python [dict] does. *)
Section PyDict.
Context {K V : Type} `{EqDecision K}.

Fixpoint dict_get (k : K) (d : list (K * V)) : option V :=
  match d with
  | [] => None
  | (k', v) :: d' => if decide (k = k') then Some v else dict_get k d'
  end.

Fixpoint dict_set (k : K) (v : V) (d : list (K * V)) : list (K * V) :=
  match d with
  | [] => [(k, v)]
  | (k', v') :: d' =>
      if decide (k = k') then (k, v) :: d' else (k', v') :: dict_set k v d'
  end.

Definition dict_keys (d : list (K * V)) : list K := map fst d.

End PyDict.

(** ** JSON values, as [json.loads] and the caller's [context] provide them *)
#[local] Unset Elimination Schemes.
Inductive Json : Type :=
  | JNull
  | JBool (b : bool)
  | JInt (z : Z)
  | JFloat (f : float)
  | JStr (s : string)
  | JArr (l : list Json)
  | JObj (o : list (string * Json)).
#[local] Set Elimination Schemes.

(** [len(x)]: defined on strings, lists and dicts, a [TypeError] otherwise. *)
Definition py_len (x : Json) : option nat :=
  match x with
  | JStr s => Some (String.length s)
  | JArr l => Some (List.length l)
  | JObj o => Some (List.length o)
  | _ => None
  end.

(** Readings of [datetime.utcnow()] are ticks of the world's clock. *)
Definition Timestamp := nat.

(** ** core/state.py *)
Module State.

Inductive AgentStatus := PENDING | RUNNING | COMPLETED | FAILED | SKIPPED.

Inductive AgentType :=
  PLANNER | RESEARCHER | ANALYZER | SYNTHESIZER | VALIDATOR | EXECUTOR | REVIEWER.

#[export] Instance AgentStatus_eq_dec : EqDecision AgentStatus.
Proof. solve_decision. Defined.

#[export] Instance AgentType_eq_dec : EqDecision AgentType.
Proof. solve_decision. Defined.

(** The [str] value of the enum member. *)
Definition agent_value (t : AgentType) : string :=
  match t with
  | PLANNER => "planner"
  | RESEARCHER => "researcher"
  | ANALYZER => "analyzer"
  | SYNTHESIZER => "synthesizer"
  | VALIDATOR => "validator"
  | EXECUTOR => "executor"
  | REVIEWER => "reviewer"
  end.

(** *** Stage output payloads

    The dictionaries the stages build.  Fields that only carry text to a
    later prompt are kept; the internal timestamps of the payloads of the
    text-structuring helpers are not. *)
Record Findings := {
  f_summary : string;
  key_points : list string;
  full_research : string
}.

Record Analysis := {
  insights : list string;
  recommendations : list string;
  full_analysis : string
}.

Record Synthesis := {
  summary : string;
  key_takeaways : list string;
  actionable_items : list string;
  next_steps_items : list string;      (* key "next_steps" *)
  full_synthesis : string;
  sources : list AgentType
}.

Record Issue := {
  description : string;
  severity : string
}.

Record Validation := {
  overall_score : float;
  criteria_scores : list (string * float);
  issues : list Issue;
  suggestions : list string;
  critical_errors : list Issue;
  passed : bool;
  full_validation : string;
  v_timestamp : Timestamp;
  validated_components : list AgentType
}.

Record ActionResult := {
  ar_action : string;
  ar_type : option string;
  ar_status : string;
  ar_result : option string;
  ar_error : option string;
  ar_timestamp : Timestamp
}.

Inductive Execution :=
  | ExecSkipped (reason : string)
  | ExecDone (actions_executed : nat) (results : list ActionResult)
             (success_rate : float) (e_timestamp : Timestamp).

Record Review := {
  quality_score : float;
  strengths : list string;
  r_recommendations : list string;
  task_completed : bool;
  full_review : string
}.

Record FinalResult := {
  fr_summary : string;
  fr_key_takeaways : list string;
  fr_detailed_output : string;
  fr_quality_score : float;
  fr_task_completed : bool;
  fr_strengths : list string;
  fr_recommendations : list string;
  fr_timestamp : Timestamp
}.

(** A value stored under a key of [intermediate_results], of an agent's
    [output_data] or of a message's [metadata]. *)
Inductive Payload :=
  | PPlan (p : list (string * Json))
  | PFindings (f : Findings)
  | PAnalysis (a : Analysis)
  | PSynthesis (s : Synthesis)
  | PValidation (v : Validation)
  | PBool (b : bool)
  | PExecution (e : Execution)
  | PReview (r : Review)
  | PFinal (r : FinalResult).

Record Message := {
  role : string;
  content : string;
  timestamp : Timestamp;
  msg_agent_type : option string;
  metadata : list (string * Payload)
}.

(** [input_data] and [metadata] of an agent state are always the empty
    dict and are left out. *)
Record AgentState := {
  agent_id : string;
  agent_type : AgentType;
  as_status : AgentStatus;
  output_data : option (list (string * Payload));
  as_error : option string;
  as_start_time : option Timestamp;
  as_end_time : option Timestamp
}.

Record ErrorEntry := {
  err_agent : string;
  err_error : string;
  err_timestamp : Timestamp
}.

(** *** Configuration

    A typed view of the configuration dict: one optional field per key
    that the code reads or that the shipped configurations set. *)
Record AgentConfig := {
  enabled : option bool;
  min_score : option float
}.

Record PipelineSection := {
  pl_max_retries : option Z;
  pl_timeout_seconds : option Z
}.

Record MonitoringSection := {
  mon_enabled : option bool
}.

Record Config := {
  max_retries : option Z;                          (* top-level "max_retries" *)
  agents : option (list (string * AgentConfig));   (* "agents" *)
  pipeline : option PipelineSection;               (* "pipeline" *)
  monitoring : option MonitoringSection            (* "monitoring" *)
}.

Definition empty_config : Config :=
  {| max_retries := None; agents := None; pipeline := None; monitoring := None |}.

(** [{**a, **b}]: a top-level key of [b] replaces the one of [a]. *)
Definition merge_config (a b : Config) : Config :=
  {| max_retries := match max_retries b with Some x => Some x | None => max_retries a end;
     agents := match agents b with Some x => Some x | None => agents a end;
     pipeline := match pipeline b with Some x => Some x | None => pipeline a end;
     monitoring := match monitoring b with Some x => Some x | None => monitoring a end |}.

Record PipelineState := {
  task : string;
  context : list (string * Json);
  messages : list Message;
  agent_states : list (string * AgentState);
  current_step : string;
  next_steps : Json;
  completed_steps : list string;
  intermediate_results : gmap string Payload;
  final_result : option FinalResult;
  pipeline_id : string;
  start_time : Timestamp;
  status : AgentStatus;
  errors : list ErrorEntry;
  retry_count : Z;
  config : Config
}.

Definition create_initial_state (uuid : string) (now : Timestamp)
    (task0 : string) (context0 : option (list (string * Json)))
    (config0 : option Config) : PipelineState :=
  {| task := task0;
     context := match context0 with Some c => c | None => [] end;
     messages := [];
     agent_states := [];
     current_step := "start";
     next_steps := JArr [JStr "planner"];
     completed_steps := [];
     intermediate_results := ∅;
     final_result := None;
     pipeline_id := uuid;
     start_time := now;
     status := PENDING;
     errors := [];
     retry_count := 0%Z;
     config := match config0 with Some c => c | None => empty_config end |}.

(** Assignments to one key of the state dict. *)
Definition set_messages (v : list Message) (s : PipelineState) : PipelineState :=
  {| task := task s; context := context s; messages := v;
     agent_states := agent_states s; current_step := current_step s;
     next_steps := next_steps s; completed_steps := completed_steps s;
     intermediate_results := intermediate_results s; final_result := final_result s;
     pipeline_id := pipeline_id s; start_time := start_time s; status := status s;
     errors := errors s; retry_count := retry_count s; config := config s |}.

Definition set_agent_states (v : list (string * AgentState)) (s : PipelineState) : PipelineState :=
  {| task := task s; context := context s; messages := messages s;
     agent_states := v; current_step := current_step s;
     next_steps := next_steps s; completed_steps := completed_steps s;
     intermediate_results := intermediate_results s; final_result := final_result s;
     pipeline_id := pipeline_id s; start_time := start_time s; status := status s;
     errors := errors s; retry_count := retry_count s; config := config s |}.

Definition set_current_step (v : string) (s : PipelineState) : PipelineState :=
  {| task := task s; context := context s; messages := messages s;
     agent_states := agent_states s; current_step := v;
     next_steps := next_steps s; completed_steps := completed_steps s;
     intermediate_results := intermediate_results s; final_result := final_result s;
     pipeline_id := pipeline_id s; start_time := start_time s; status := status s;
     errors := errors s; retry_count := retry_count s; config := config s |}.

Definition set_next_steps (v : Json) (s : PipelineState) : PipelineState :=
  {| task := task s; context := context s; messages := messages s;
     agent_states := agent_states s; current_step := current_step s;
     next_steps := v; completed_steps := completed_steps s;
     intermediate_results := intermediate_results s; final_result := final_result s;
     pipeline_id := pipeline_id s; start_time := start_time s; status := status s;
     errors := errors s; retry_count := retry_count s; config := config s |}.

Definition set_completed_steps (v : list string) (s : PipelineState) : PipelineState :=
  {| task := task s; context := context s; messages := messages s;
     agent_states := agent_states s; current_step := current_step s;
     next_steps := next_steps s; completed_steps := v;
     intermediate_results := intermediate_results s; final_result := final_result s;
     pipeline_id := pipeline_id s; start_time := start_time s; status := status s;
     errors := errors s; retry_count := retry_count s; config := config s |}.

Definition set_intermediate_results (v : gmap string Payload) (s : PipelineState) : PipelineState :=
  {| task := task s; context := context s; messages := messages s;
     agent_states := agent_states s; current_step := current_step s;
     next_steps := next_steps s; completed_steps := completed_steps s;
     intermediate_results := v; final_result := final_result s;
     pipeline_id := pipeline_id s; start_time := start_time s; status := status s;
     errors := errors s; retry_count := retry_count s; config := config s |}.

Definition set_final_result (v : option FinalResult) (s : PipelineState) : PipelineState :=
  {| task := task s; context := context s; messages := messages s;
     agent_states := agent_states s; current_step := current_step s;
     next_steps := next_steps s; completed_steps := completed_steps s;
     intermediate_results := intermediate_results s; final_result := v;
     pipeline_id := pipeline_id s; start_time := start_time s; status := status s;
     errors := errors s; retry_count := retry_count s; config := config s |}.

Definition set_status (v : AgentStatus) (s : PipelineState) : PipelineState :=
  {| task := task s; context := context s; messages := messages s;
     agent_states := agent_states s; current_step := current_step s;
     next_steps := next_steps s; completed_steps := completed_steps s;
     intermediate_results := intermediate_results s; final_result := final_result s;
     pipeline_id := pipeline_id s; start_time := start_time s; status := v;
     errors := errors s; retry_count := retry_count s; config := config s |}.

Definition set_errors (v : list ErrorEntry) (s : PipelineState) : PipelineState :=
  {| task := task s; context := context s; messages := messages s;
     agent_states := agent_states s; current_step := current_step s;
     next_steps := next_steps s; completed_steps := completed_steps s;
     intermediate_results := intermediate_results s; final_result := final_result s;
     pipeline_id := pipeline_id s; start_time := start_time s; status := status s;
     errors := v; retry_count := retry_count s; config := config s |}.

Definition set_retry_count (v : Z) (s : PipelineState) : PipelineState :=
  {| task := task s; context := context s; messages := messages s;
     agent_states := agent_states s; current_step := current_step s;
     next_steps := next_steps s; completed_steps := completed_steps s;
     intermediate_results := intermediate_results s; final_result := final_result s;
     pipeline_id := pipeline_id s; start_time := start_time s; status := status s;
     errors := errors s; retry_count := v; config := config s |}.

(** [add_message] only builds the message; the caller appends it. *)
Definition add_message (now : Timestamp) (role0 content0 : string)
    (agent_type0 : option string) (metadata0 : option (list (string * Payload))) : Message :=
  {| role := role0;
     content := content0;
     timestamp := now;
     msg_agent_type := agent_type0;
     metadata := match metadata0 with Some m => m | None => [] end |}.

(** Truthiness of an optional dict or string argument. *)
Definition truthy_dict {A} (o : option (list A)) : bool :=
  match o with Some (_ :: _) => true | _ => false end.

Definition truthy_str (o : option string) : bool :=
  match o with Some (String _ _) => true | _ => false end.

(** The entry [update_agent_state] leaves for an agent: a new one when the
    agent has none, else the old one updated in place. *)
Definition updated_entry (now : Timestamp) (aid : string) (ty : AgentType)
    (st : AgentStatus) (out : option (list (string * Payload)))
    (err : option string) (old : option AgentState) : AgentState :=
  match old with
  | None =>
      {| agent_id := aid;
         agent_type := ty;
         as_status := st;
         output_data := out;
         as_error := err;
         as_start_time := if decide (st = RUNNING) then Some now else None;
         as_end_time := None |}
  | Some a =>
      {| agent_id := agent_id a;
         agent_type := agent_type a;
         as_status := st;
         output_data := if truthy_dict out then out else output_data a;
         as_error := if truthy_str err then err else as_error a;
         as_start_time := as_start_time a;
         as_end_time :=
           if decide (st = COMPLETED \/ st = FAILED) then Some now
           else as_end_time a |}
  end.

(** [update_agent_state]; [now] is the reading of the clock the call
    takes when it needs one. *)
Definition update_agent_state (now : Timestamp) (aid : string) (ty : AgentType)
    (st : AgentStatus) (out : option (list (string * Payload)))
    (err : option string) (s : PipelineState) : PipelineState :=
  set_agent_states
    (dict_set aid
       (updated_entry now aid ty st out err (dict_get aid (agent_states s)))
       (agent_states s))
    s.

End State.

Import State.

(** ** Effects: the world of a run, and exceptions *)

(** What the language model collaborator answers to one call. *)
Inductive LlmReply :=
  | Reply (text : string)
  | LlmError (msg : string).

Record World := {
  pstate : PipelineState;     (* the state dict of the run, mutated in place *)
  clock : nat;                (* next reading of [datetime.utcnow()] *)
  llm_calls : nat             (* calls made to the language model so far *)
}.

(** A call either returns, or raises with the message [str(e)]; both leave
    the world as mutated so far. *)
Inductive Result (A : Type) :=
  | Returned (a : A) (w : World)
  | Raised (e : string) (w : World).
Arguments Returned {A} a w.
Arguments Raised {A} e w.

Definition M (A : Type) : Type := World -> Result A.

#[export] Instance M_ret : MRet M := fun A a w => Returned a w.

#[export] Instance M_bind : MBind M := fun A B f m w =>
  match m w with
  | Returned a w' => f a w'
  | Raised e w' => Raised e w'
  end.

Definition raise {A} (e : string) : M A := fun w => Raised e w.

(** [try: body except Exception as e: handler(str(e))] *)
Definition try_except {A} (body : M A) (handler : string -> M A) : M A := fun w =>
  match body w with
  | Returned a w' => Returned a w'
  | Raised e w' => handler e w'
  end.

Definition get_state : M PipelineState := fun w => Returned (pstate w) w.

Definition modify_state (f : PipelineState -> PipelineState) : M unit := fun w =>
  Returned tt {| pstate := f (pstate w); clock := clock w; llm_calls := llm_calls w |}.

Definition utcnow : M Timestamp := fun w =>
  Returned (clock w) {| pstate := pstate w; clock := S (clock w); llm_calls := llm_calls w |}.

(** [state["errors"].append({"agent": .., "error": .., "timestamp": ..})] *)
Definition append_error (agent_name msg : string) : M unit :=
  now ← utcnow;
  modify_state (fun s =>
    set_errors (errors s ++ [{| err_agent := agent_name; err_error := msg;
                                err_timestamp := now |}]) s).

(** [state["intermediate_results"][key] = value] *)
Definition write_result (key : string) (value : Payload) : M unit :=
  modify_state (fun s =>
    set_intermediate_results (<[key := value]> (intermediate_results s)) s).

(** Whether [update_agent_state] evaluates [datetime.utcnow()]: it does for
    a new entry created RUNNING and for an existing entry set COMPLETED or
    FAILED. *)
Definition reads_clock (aid : string) (st : AgentStatus) (s : PipelineState) : bool :=
  match dict_get aid (agent_states s) with
  | None => bool_decide (st = RUNNING)
  | Some _ => bool_decide (st = COMPLETED \/ st = FAILED)
  end.

(** [update_agent_state] as a call. *)
Definition update_agent_state_call (aid : string) (ty : AgentType) (st : AgentStatus)
    (out : option (list (string * Payload))) (err : option string) : M unit := fun w =>
  Returned tt {| pstate := update_agent_state (clock w) aid ty st out err (pstate w);
                 clock := if reads_clock aid st (pstate w) then S (clock w) else clock w;
                 llm_calls := llm_calls w |}.

(** ** Text helpers used by the stages

    A Python [str] is a sequence of Unicode characters; a [string] here
    holds its UTF-8 encoding.  The regular expressions and the string
    methods of the stages work on the characters, so the helpers decode
    first.  The character classes are those of Unicode 14.0 (Python
    3.11). *)

Definition is_continuation (n : N) : bool := (128 <=? n)%N && (n <? 192)%N.

(** A byte that is not part of a well-formed sequence stands for a
    character of its own, outside every class used below. *)
Definition stray (b : ascii) : N * string :=
  (56320 + N_of_ascii b, String b EmptyString)%N.

(** The characters of a text, each with the bytes that encode it. *)
Fixpoint code_points (s : string) : list (N * string) :=
  match s with
  | EmptyString => []
  | String b0 s1 =>
      let n0 := N_of_ascii b0 in
      if (n0 <? 128)%N then (n0, String b0 EmptyString) :: code_points s1
      else
        match s1 with
        | EmptyString => stray b0 :: code_points s1
        | String b1 s2 =>
            let n1 := N_of_ascii b1 in
            if negb (is_continuation n1) then stray b0 :: code_points s1
            else if (194 <=? n0)%N && (n0 <? 224)%N then
              (((n0 - 192) * 64 + (n1 - 128))%N, String b0 (String b1 EmptyString))
                :: code_points s2
            else
              match s2 with
              | EmptyString => stray b0 :: code_points s1
              | String b2 s3 =>
                  let n2 := N_of_ascii b2 in
                  if negb (is_continuation n2) then stray b0 :: code_points s1
                  else if (224 <=? n0)%N && (n0 <? 240)%N then
                    let c := ((n0 - 224) * 4096 + (n1 - 128) * 64 + (n2 - 128))%N in
                    if (2048 <=? c)%N && negb ((55296 <=? c)%N && (c <? 57344)%N)
                    then (c, String b0 (String b1 (String b2 EmptyString)))
                           :: code_points s3
                    else stray b0 :: code_points s1
                  else
                    match s3 with
                    | EmptyString => stray b0 :: code_points s1
                    | String b3 s4 =>
                        let n3 := N_of_ascii b3 in
                        let c := ((n0 - 240) * 262144 + (n1 - 128) * 4096
                                  + (n2 - 128) * 64 + (n3 - 128))%N in
                        if is_continuation n3 && (240 <=? n0)%N && (n0 <? 245)%N
                           && (65536 <=? c)%N && (c <? 1114112)%N
                        then (c, String b0 (String b1 (String b2 (String b3 EmptyString))))
                               :: code_points s4
                        else stray b0 :: code_points s1
                    end
              end
        end
  end.

(** The first digit of each run of ten decimal digits (category Nd). *)
Definition decimal_zeros : list N :=
  [48; 1632; 1776; 1984; 2406; 2534; 2662; 2790; 2918; 3046; 3174; 3302; 3430; 3558;
   3664; 3792; 3872; 4160; 4240; 6112; 6160; 6470; 6608; 6784; 6800; 6992; 7088; 7232;
   7248; 42528; 43216; 43264; 43472; 43504; 43600; 44016; 65296; 66720; 68912; 69734;
   69872; 69942; 70096; 70384; 70736; 70864; 71248; 71360; 71472; 71904; 72016; 72784;
   73040; 73120; 92768; 92864; 93008; 120782; 120792; 120802; 120812; 120822; 123200;
   123632; 125264; 130032]%N.

(** The class [\d] on [str]: the decimal digits of every script, which
    are also the digits [float] reads. *)
Definition is_digit (c : N) : bool :=
  existsb (fun zero => (zero <=? c)%N && (c <? zero + 10)%N) decimal_zeros.

(** The class [\s] on [str]. *)
Definition is_space (c : N) : bool :=
  ((9 <=? c)%N && (c <=? 13)%N) || ((28 <=? c)%N && (c <=? 32)%N)
  || (c =? 133)%N || (c =? 160)%N || (c =? 5760)%N
  || ((8192 <=? c)%N && (c <=? 8202)%N)
  || (c =? 8232)%N || (c =? 8233)%N || (c =? 8239)%N || (c =? 8287)%N
  || (c =? 12288)%N.

(** The class of colon, hyphen and [\s]. *)
Definition is_separator (c : N) : bool :=
  (c =? 58)%N || (c =? 45)%N || is_space c.

(** The lower case of an ASCII capital; every other character as it is. *)
Definition ascii_lower (c : N) : N :=
  if (65 <=? c)%N && (c <=? 90)%N then (c + 32)%N else c.

(** Whether the character [c] matches the ASCII pattern character [p]
    under [re.IGNORECASE]: the two cases of a letter match each other,
    and beside them dotted capital I (U+0130) and dotless i (U+0131)
    match [i], long s (U+017F) matches [s] and the Kelvin sign (U+212A)
    matches [k]. *)
Definition matches_ignoring_case (p : ascii) (c : N) : bool :=
  let l := ascii_lower (N_of_ascii p) in
  (ascii_lower c =? l)%N
  || ((l =? 105)%N && ((c =? 304)%N || (c =? 305)%N))
  || ((l =? 115)%N && (c =? 383)%N)
  || ((l =? 107)%N && (c =? 8490)%N).

(** The lower case of a character, exact on every character whose lower
    case holds an ASCII character: the capitals A to Z, dotted capital I
    (U+0130), which gives [i] followed by a combining dot, and the Kelvin
    sign (U+212A), which gives [k].  Every other character has a lower
    case without ASCII characters and is left as it is; the one caller,
    [parse_action], looks for ASCII words in the result, and the UTF-8
    encoding of a non-ASCII character holds no ASCII byte, so the answers
    are those of [str.lower]. *)
Definition lower_char (ch : N * string) : string :=
  let c := fst ch in
  if (65 <=? c)%N && (c <=? 90)%N then String (ascii_of_N (c + 32)) EmptyString
  else if (c =? 304)%N
    then String "i" (String (ascii_of_N 204) (String (ascii_of_N 135) EmptyString))
  else if (c =? 8490)%N then "k"
  else snd ch.

(** [s.lower()], up to the non-ASCII characters it leaves as they are. *)
Definition py_lower (s : string) : string :=
  String.concat "" (map lower_char (code_points s)).

(** [sub in s] *)
Fixpoint py_contains (sub s : string) : bool :=
  String.prefix sub s ||
  match s with
  | EmptyString => false
  | String _ s' => py_contains sub s'
  end.

(** Match the literal [pat] at the head of [s] ignoring case and return
    the rest of [s]. *)
Fixpoint match_literal (pat : string) (s : list (N * string)) : option (list (N * string)) :=
  match pat with
  | EmptyString => Some s
  | String p pat' =>
      match s with
      | [] => None
      | (c, _) :: s' =>
          if matches_ignoring_case p c then match_literal pat' s' else None
      end
  end.

(** The longest prefix of characters in a class, as text, and the rest. *)
Fixpoint span (p : N -> bool) (s : list (N * string)) : string * list (N * string) :=
  match s with
  | [] => (EmptyString, [])
  | (c, bytes) :: s' =>
      if p c then let '(a, b) := span p s' in (bytes +:+ a, b)
      else (EmptyString, s)
  end.

(** The pattern of [_extract_criteria_scores] anchored at the head of [s],
    with [re.IGNORECASE]: the criterion, one or more separators, then the
    group: one or more digits, an optional dot, any digits.  The result is
    the group.  Every quantifier is greedy and what follows each matches
    the empty string or a disjoint class, so the first greedy attempt
    decides. *)
Definition match_score_at (criterion : string) (s : list (N * string)) : option string :=
  match match_literal criterion s with
  | None => None
  | Some rest =>
      let '(seps, rest1) := span is_separator rest in
      match seps with
      | EmptyString => None
      | _ =>
          let '(d1, rest2) := span is_digit rest1 in
          match d1 with
          | EmptyString => None
          | _ =>
              match rest2 with
              | (46%N, _) :: rest3 =>
                  let '(d2, _) := span is_digit rest3 in Some (d1 +:+ "." +:+ d2)
              | _ => Some d1
              end
          end
      end
  end.

(** The leftmost match in a text. *)
Fixpoint search_score (criterion : string) (s : list (N * string)) : option string :=
  match match_score_at criterion s with
  | Some g => Some g
  | None =>
      match s with
      | [] => None
      | _ :: s' => search_score criterion s'
      end
  end.

(** [re.search(pattern, text, re.IGNORECASE)] *)
Definition re_search_score (criterion text : string) : option string :=
  search_score criterion (code_points text).

#[local] Set Warnings "-inexact-float".

Definition float_of_nat (n : nat) : float :=
  PrimFloat.of_uint63 (Uint63.of_Z (Z.of_nat n)).

(** [sum(xs)] over floats: left to right from the integer [0]. *)
Definition py_sum (xs : list float) : float :=
  fold_left PrimFloat.add xs 0%float.

(** [min(a, b)]: [b] only when [b < a]. *)
Definition py_min (a b : float) : float :=
  if PrimFloat.ltb b a then b else a.

(** [a >= b] on floats. *)
Definition float_ge (a b : float) : bool := PrimFloat.leb b a.

(** ** agents/base.py *)

(** The attributes of an agent object that its methods read. *)
Record Agent := {
  self_type : AgentType;
  self_id : string;            (* [agent_id], fixed when the agent is built *)
  self_config : AgentConfig
}.

Definition Context := list (AgentType * list (string * Payload)).

(** [context.get(agent_type, {}).get(key, {})] *)
Definition context_get (ty : AgentType) (key : string) (ctx : Context) : option Payload :=
  match dict_get ty ctx with
  | Some d => dict_get key d
  | None => None
  end.

Definition context_synthesis (ctx : Context) : option Synthesis :=
  match context_get SYNTHESIZER "synthesis" ctx with
  | Some (PSynthesis s) => Some s
  | _ => None
  end.

Definition context_validation (ctx : Context) : option Validation :=
  match context_get VALIDATOR "validation" ctx with
  | Some (PValidation v) => Some v
  | _ => None
  end.

Definition log_execution_start (self : Agent) : M unit :=
  update_agent_state_call (self_id self) (self_type self) RUNNING None None.

Definition log_execution_end (self : Agent) (success : bool) (error : option string) : M unit :=
  let status := if success then COMPLETED else FAILED in
  update_agent_state_call (self_id self) (self_type self) status None error.

Definition add_message_call (self : Agent) (content0 : string)
    (metadata0 : option (list (string * Payload))) : M unit :=
  now ← utcnow;
  modify_state (fun s =>
    set_messages
      (messages s ++ [add_message now "agent" content0
                        (Some (agent_value (self_type self))) metadata0]) s).

Definition get_context_from_previous_agents (s : PipelineState) : Context :=
  fold_left
    (fun ctx entry =>
       let a := snd entry in
       if bool_decide (as_status a = COMPLETED) && truthy_dict (output_data a)
       then dict_set (agent_type a) (default [] (output_data a)) ctx
       else ctx)
    (agent_states s) [].

(** The handler every [execute] ends with. *)
Definition record_failure (self : Agent) (e : string) : M unit :=
  append_error (agent_value (self_type self)) e;;
  log_execution_end self false (Some e).

(** ** What the stages are given: the language model, the builtins of the
    language and the text-structuring heuristics of the stages (total
    functions of the text they are given). *)
Record Collaborators := {
  (** the language model: its answer to the n-th call of the run *)
  llm : nat -> LlmReply;
  (** [float(s)] on the text of a matched group *)
  py_float : string -> float;
  (** [format(x, spec)] *)
  format_float : string -> float -> string;
  (** the outermost brace-delimited span of the response handed to
      [json.loads]: [None] when there is no such span, [Some None] when
      decoding raises [JSONDecodeError] *)
  json_object_in : string -> option (option (list (string * Json)));
  structure_findings : string -> Findings;
  (** [None] when the researcher has no tools; otherwise what
      [_use_research_tools] returns for the task (it catches the failures
      of the tools itself) *)
  research_tools : option (string -> string);
  structure_analysis : string -> Analysis;
  structure_synthesis : string -> Context -> Synthesis;
  extract_issues : string -> list Issue;
  extract_suggestions : string -> list string;
  (** the result of the first tool that answers a query, if any does *)
  run_query_tools : string -> option string;
  structure_review : string -> Context -> PipelineState -> Review
}.

Section Stages.

Variable env : Collaborators.

(** [_invoke_llm]: logs and re-raises what the model raises. *)
Definition invoke_llm : M string := fun w =>
  let w' := {| pstate := pstate w; clock := clock w; llm_calls := S (llm_calls w) |} in
  match llm env (llm_calls w) with
  | Reply t => Returned t w'
  | LlmError e => Raised e w'
  end.

(** *** agents/validator.py *)

Definition criteria : list string :=
  ["accuracy"; "completeness"; "coherence"; "relevance"; "quality"].

Definition extract_criteria_scores (text : string) : list (string * float) :=
  map (fun criterion =>
         match re_search_score criterion text with
         | Some g =>
             let score := py_float env g in
             (* normalise to 0-1 if it looks like it is out of 10 *)
             let score := if PrimFloat.ltb 1 score then (score / 10)%float else score in
             (criterion, py_min score 1)
         | None =>
             (* default score if not found *)
             (criterion, 0.7%float)
         end)
      criteria.

Definition structure_validation (validation_response : string) (ctx : Context)
    : M Validation :=
  let scores := extract_criteria_scores validation_response in
  let found := extract_issues env validation_response in
  let sugg := extract_suggestions env validation_response in
  let overall :=
    match scores with
    | [] => 0.5%float
    | _ => (py_sum (map snd scores) / float_of_nat (List.length scores))%float
    end in
  now ← utcnow;
  mret {| overall_score := overall;
          criteria_scores := scores;
          issues := found;
          suggestions := sugg;
          critical_errors :=
            filter (fun i => bool_decide (severity i = "critical")) found;
          passed := float_ge overall 0.7;
          full_validation := validation_response;
          v_timestamp := now;
          validated_components := dict_keys ctx |}.

Definition validator_execute (self : Agent) : M unit :=
  log_execution_start self;;
  try_except
    (s0 ← get_state;
     let ctx := get_context_from_previous_agents s0 in
     validation_response ← invoke_llm;
     validation ← structure_validation validation_response ctx;
     write_result "validation" (PValidation validation);;
     let ok :=
       float_ge (overall_score validation)
                (default 0.7%float (min_score (self_config self))) in
     add_message_call self
       ("Validation " +:+ (if ok then "passed" else "failed") +:+ ": Score "
          +:+ format_float env ".2f" (overall_score validation))
       (Some [("validation", PValidation validation)]);;
     update_agent_state_call (self_id self) (self_type self) COMPLETED
       (Some [("validation", PValidation validation)]) None;;
     s ← get_state;
     (if negb ok && (retry_count s <? default 3 (max_retries (config s)))%Z
      then modify_state (fun s => set_retry_count (retry_count s + 1)%Z s);;
           write_result "needs_retry" (PBool true)
      else mret tt);;
     log_execution_end self true None)
    (record_failure self).

(** *** agents/planner.py *)

Definition fallback_plan (analysis : string) : list (string * Json) :=
  [("task_analysis", JStr analysis);
   ("complexity", JStr "medium");
   ("agent_sequence",
      JArr [JStr "researcher"; JStr "analyzer"; JStr "synthesizer"; JStr "validator"]);
   ("steps", JArr []);
   ("success_criteria", JArr [])].

Definition parse_plan (plan_response : string) : list (string * Json) :=
  match json_object_in env plan_response with
  | Some (Some plan) => plan
  | None => fallback_plan (substring 0 200 plan_response)
  | Some None => fallback_plan "Plan created"
  end.

(** [type(x).__name__] *)
Definition py_type_name (x : Json) : string :=
  match x with
  | JNull => "NoneType"
  | JBool _ => "bool"
  | JInt _ => "int"
  | JFloat _ => "float"
  | JStr _ => "str"
  | JArr _ => "list"
  | JObj _ => "dict"
  end.

(** [len(x)] as a call: a [TypeError] on a value without a length. *)
Definition py_len_call (x : Json) : M nat :=
  match py_len x with
  | Some n => mret n
  | None => raise ("object of type '" +:+ py_type_name x +:+ "' has no len()")
  end.

Definition planner_execute (self : Agent) : M unit :=
  log_execution_start self;;
  try_except
    (plan_response ← invoke_llm;
     let execution_plan := parse_plan plan_response in
     write_result "execution_plan" (PPlan execution_plan);;
     modify_state
       (set_next_steps (default (JArr []) (dict_get "agent_sequence" execution_plan)));;
     s ← get_state;
     n ← py_len_call (next_steps s);
     add_message_call self
       ("Created execution plan with " +:+ pretty n +:+ " steps")
       (Some [("plan", PPlan execution_plan)]);;
     update_agent_state_call (self_id self) (self_type self) COMPLETED
       (Some [("execution_plan", PPlan execution_plan)]) None;;
     log_execution_end self true None)
    (record_failure self).

(** *** agents/researcher.py *)

Definition researcher_execute (self : Agent) : M unit :=
  log_execution_start self;;
  try_except
    (s0 ← get_state;
     research_response ← invoke_llm;
     let research_response :=
       match research_tools env with
       | Some use_tools =>
           research_response +:+ "

Tool Results:
" +:+ use_tools (task s0)
       | None => research_response
       end in
     let findings := structure_findings env research_response in
     write_result "research_findings" (PFindings findings);;
     add_message_call self
       ("Research completed: Found " +:+ pretty (List.length (key_points findings))
          +:+ " key points")
       (Some [("findings", PFindings findings)]);;
     update_agent_state_call (self_id self) (self_type self) COMPLETED
       (Some [("findings", PFindings findings)]) None;;
     log_execution_end self true None)
    (record_failure self).

(** *** agents/analyzer.py *)

Definition analyzer_execute (self : Agent) : M unit :=
  log_execution_start self;;
  try_except
    (analysis_response ← invoke_llm;
     let analysis := structure_analysis env analysis_response in
     write_result "analysis" (PAnalysis analysis);;
     add_message_call self
       ("Analysis completed: " +:+ pretty (List.length (insights analysis))
          +:+ " insights identified")
       (Some [("analysis", PAnalysis analysis)]);;
     update_agent_state_call (self_id self) (self_type self) COMPLETED
       (Some [("analysis", PAnalysis analysis)]) None;;
     log_execution_end self true None)
    (record_failure self).

(** *** agents/synthesizer.py *)

Definition synthesizer_execute (self : Agent) : M unit :=
  log_execution_start self;;
  try_except
    (s0 ← get_state;
     let ctx := get_context_from_previous_agents s0 in
     synthesis_response ← invoke_llm;
     let synthesis := structure_synthesis env synthesis_response ctx in
     write_result "synthesis" (PSynthesis synthesis);;
     add_message_call self
       "Synthesis completed: Combined insights from all agents"
       (Some [("synthesis", PSynthesis synthesis)]);;
     update_agent_state_call (self_id self) (self_type self) COMPLETED
       (Some [("synthesis", PSynthesis synthesis)]) None;;
     log_execution_end self true None)
    (record_failure self).

(** *** agents/executor.py *)

Record Action := {
  act_type : string;
  act_description : string;
  act_status : string
}.

Definition parse_action (action_text : string) : Action :=
  let l := py_lower action_text in
  let ty :=
    if py_contains "api" l || py_contains "call" l then "api_call"
    else if py_contains "file" l || py_contains "save" l then "file_operation"
    else if py_contains "query" l || py_contains "search" l then "query"
    else "general" in
  {| act_type := ty; act_description := action_text; act_status := "pending" |}.

Definition identify_actions (ctx : Context) : list Action :=
  map parse_action
      (match context_synthesis ctx with Some syn => actionable_items syn | None => [] end)
  ++ map parse_action
      (match context_validation ctx with Some v => suggestions v | None => [] end).

Definition execute_single_action (action : Action) : M ActionResult :=
  let result :=
    if String.eqb (act_type action) "api_call" then "API call simulated successfully"
    else if String.eqb (act_type action) "file_operation"
      then "File operation simulated successfully"
    else if String.eqb (act_type action) "query"
      then default "Query executed successfully" (run_query_tools env (act_description action))
    else "Action executed successfully" in
  now ← utcnow;
  mret {| ar_action := act_description action;
          ar_type := Some (act_type action);
          ar_status := "completed";
          ar_result := Some result;
          ar_error := None;
          ar_timestamp := now |}.

Fixpoint execute_actions (actions : list Action) : M (list ActionResult) :=
  match actions with
  | [] => mret []
  | action :: rest =>
      r ← try_except (execute_single_action action)
            (fun e =>
               now ← utcnow;
               mret {| ar_action := act_description action;
                       ar_type := None;
                       ar_status := "failed";
                       ar_result := None;
                       ar_error := Some e;
                       ar_timestamp := now |});
      rs ← execute_actions rest;
      mret (r :: rs)
  end.

Definition calculate_success_rate (results : list ActionResult) : float :=
  match results with
  | [] => 0%float
  | _ =>
      let successful :=
        List.length (filter (fun r => String.eqb (ar_status r) "completed") results) in
      (float_of_nat successful / float_of_nat (List.length results))%float
  end.

Definition executor_execute (self : Agent) : M unit :=
  log_execution_start self;;
  try_except
    (s0 ← get_state;
     let ctx := get_context_from_previous_agents s0 in
     let actions := identify_actions ctx in
     match actions with
     | [] =>
         write_result "execution" (PExecution (ExecSkipped "No actions identified"));;
         update_agent_state_call (self_id self) (self_type self) SKIPPED None None
     | _ :: _ =>
         execution_results ← execute_actions actions;
         now ← utcnow;
         let rate := calculate_success_rate execution_results in
         let execution :=
           ExecDone (List.length execution_results) execution_results rate now in
         write_result "execution" (PExecution execution);;
         add_message_call self
           ("Executed " +:+ pretty (List.length execution_results) +:+ " actions with "
              +:+ format_float env ".1%" rate +:+ " success rate")
           (Some [("execution", PExecution execution)]);;
         update_agent_state_call (self_id self) (self_type self) COMPLETED
           (Some [("execution", PExecution execution)]) None;;
         log_execution_end self true None
     end)
    (record_failure self).

(** *** agents/reviewer.py *)

Definition create_final_result (ctx : Context) (review : Review) : M FinalResult :=
  let synthesis := context_synthesis ctx in
  now ← utcnow;
  mret {| fr_summary :=
            match synthesis with Some syn => summary syn | None => "Task completed" end;
          fr_key_takeaways :=
            match synthesis with Some syn => key_takeaways syn | None => [] end;
          fr_detailed_output :=
            match synthesis with Some syn => full_synthesis syn | None => "" end;
          fr_quality_score := quality_score review;
          fr_task_completed := task_completed review;
          fr_strengths := strengths review;
          fr_recommendations := r_recommendations review;
          fr_timestamp := now |}.

Definition reviewer_execute (self : Agent) : M unit :=
  log_execution_start self;;
  try_except
    (s0 ← get_state;
     let ctx := get_context_from_previous_agents s0 in
     review_response ← invoke_llm;
     s1 ← get_state;
     let review := structure_review env review_response ctx s1 in
     final ← create_final_result ctx review;
     write_result "review" (PReview review);;
     modify_state (set_final_result (Some final));;
     add_message_call self
       ("Review completed: Overall quality score "
          +:+ format_float env ".2f" (quality_score review))
       (Some [("review", PReview review)]);;
     update_agent_state_call (self_id self) (self_type self) COMPLETED
       (Some [("review", PReview review); ("final_result", PFinal final)]) None;;
     log_execution_end self true None)
    (record_failure self).

(** The [execute] of the agent of each type. *)
Definition execute (self : Agent) : M unit :=
  match self_type self with
  | PLANNER => planner_execute self
  | RESEARCHER => researcher_execute self
  | ANALYZER => analyzer_execute self
  | SYNTHESIZER => synthesizer_execute self
  | VALIDATOR => validator_execute self
  | EXECUTOR => executor_execute self
  | REVIEWER => reviewer_execute self
  end.

End Stages.

(** ** utils/monitoring.py: the recording interface

    The metrics a [PipelineMonitor] stores never flow back into the run
    state, so a recording call is modelled by what the caller can observe
    of it: it returns, or its body raises.  The recording methods have no
    handler of their own; a disabled monitor returns before doing
    anything. *)
Inductive MonitorCall :=
  | RecordPipelineStart
  | RecordPipelineCompletion (success : bool)
  | RecordAgentStart (agent_name : string)
  | RecordAgentCompletion (agent_name : string)
  | RecordAgentError (agent_name : string).

Record PipelineMonitor := {
  monitor_enabled : bool;
  (** the exception, if any, that the body of a recording method raises *)
  monitor_fault : MonitorCall -> option string
}.

Definition record_call (monitor : PipelineMonitor) (c : MonitorCall) : M unit :=
  if monitor_enabled monitor then
    match monitor_fault monitor c with
    | Some e => raise e
    | None => mret tt
    end
  else mret tt.

(** ** core/orchestrator.py *)

(** The attributes of the orchestrator object: [self.config],
    [self.monitor], and for each agent of [self.agents] its [execute]. *)
Record AgentOrchestrator := {
  orch_config : Config;
  orch_monitor : PipelineMonitor;
  orch_agents : AgentType -> M unit
}.

(** [agent_config.get(name, {})] *)
Definition agent_config_of (cfg : Config) (name : string) : AgentConfig :=
  default {| enabled := None; min_score := None |}
          (dict_get name (default [] (agents cfg))).

(** [self.config.get("monitoring", {}).get("enabled", True)] *)
Definition monitoring_enabled (cfg : Config) : bool :=
  match monitoring cfg with
  | Some m => default true (mon_enabled m)
  | None => true
  end.

(** [__init__] with [_initialize_agents]: the seven agents over one
    language model; [built t] is the construction time that ends the
    [agent_id] of the agent of type [t]. *)
Definition initialize_agent (cfg : Config) (built : AgentType -> string) (t : AgentType) : Agent :=
  {| self_type := t;
     self_id := agent_value t +:+ "_" +:+ built t;
     self_config := agent_config_of cfg (agent_value t) |}.

Definition new_orchestrator (env : Collaborators) (built : AgentType -> string)
    (fault : MonitorCall -> option string) (cfg : Config) : AgentOrchestrator :=
  {| orch_config := cfg;
     orch_monitor := {| monitor_enabled := monitoring_enabled cfg; monitor_fault := fault |};
     orch_agents := fun t => execute env (initialize_agent cfg built t) |}.

(** The nodes of the graph built by [_build_graph]. *)
Inductive Node :=
  | AgentNode (t : AgentType)
  | RouterNode
  | END.

#[export] Instance Node_eq_dec : EqDecision Node.
Proof. solve_decision. Defined.

(** [graph.add_edge]: the edge leaving each agent node. *)
Definition edge (t : AgentType) : Node :=
  match t with
  | PLANNER => RouterNode
  | RESEARCHER => AgentNode ANALYZER
  | ANALYZER => AgentNode SYNTHESIZER
  | SYNTHESIZER => AgentNode VALIDATOR
  | VALIDATOR => RouterNode
  | EXECUTOR => AgentNode REVIEWER
  | REVIEWER => END
  end.

(** [graph.add_conditional_edges]: the path map of the router. *)
Definition conditional_edge (label : string) : option Node :=
  if String.eqb label "researcher" then Some (AgentNode RESEARCHER)
  else if String.eqb label "executor" then Some (AgentNode EXECUTOR)
  else if String.eqb label "end" then Some END
  else None.

(** Truthiness of a stored payload: a flag is its value, a dict is true
    when it has a key (every payload dict a stage builds has). *)
Definition payload_truthy (p : Payload) : bool :=
  match p with
  | PBool b => b
  | PPlan [] => false
  | _ => true
  end.

(** [d.get(key)] is truthy. *)
Definition get_truthy (key : string) (d : gmap string Payload) : bool :=
  match d !! key with
  | Some p => payload_truthy p
  | None => false
  end.

(** [validation.get("passed", True)] for
    [validation = intermediate_results.get("validation", {})]; the key is
    written by the Validator alone, with a validation payload. *)
Definition validation_passed (d : gmap string Payload) : bool :=
  match d !! "validation" with
  | Some (PValidation v) => passed v
  | _ => true
  end.

(** [synthesis.get("actionable_items") or synthesis.get("next_steps")] for
    [synthesis = intermediate_results.get("synthesis", {})]. *)
Definition synthesis_has_work (d : gmap string Payload) : bool :=
  match d !! "synthesis" with
  | Some (PSynthesis syn) =>
      match actionable_items syn, next_steps_items syn with
      | [], [] => false
      | _, _ => true
      end
  | _ => false
  end.

Section Orchestrator.

Variable self : AgentOrchestrator.

(** The node function [_create_agent_node] returns for an agent. *)
Definition agent_node (t : AgentType) : M unit :=
  let agent_name := agent_value t in
  record_call (orch_monitor self) (RecordAgentStart agent_name);;
  try_except
    (orch_agents self t;;
     modify_state (set_current_step agent_name);;
     modify_state (fun s => set_completed_steps (completed_steps s ++ [agent_name]) s);;
     record_call (orch_monitor self) (RecordAgentCompletion agent_name))
    (fun e =>
       record_call (orch_monitor self) (RecordAgentError agent_name);;
       append_error agent_name e;;
       modify_state (set_status FAILED)).

(** [_router]: returns the state as it is. *)
Definition router : M unit := mret tt.

Definition route_after_validation (s : PipelineState) : string :=
  if get_truthy "needs_retry" (intermediate_results s)
     && (retry_count s <? default 3 (max_retries (orch_config self)))%Z
  then "researcher"
  else if validation_passed (intermediate_results s)
          && synthesis_has_work (intermediate_results s)
  then "executor"
  else "end".

(** What the engine does with the state a node returns.  Every key takes
    the value returned, which is the object the engine holds already;
    only [messages] is declared with a reducer, [operator.add], and the
    engine adds the list returned to the list it holds.  The stages
    append to that very list in place and return it, so both operands
    are the list as the node left it: the messages are doubled. *)
Definition apply_update (w : World) : World :=
  {| pstate := set_messages (messages (pstate w) ++ messages (pstate w)) (pstate w);
     clock := clock w;
     llm_calls := llm_calls w |}.

(** What the engine raises when its recursion limit is used up before the
    walk has reached END. *)
Definition GraphRecursionError : string :=
  "Recursion limit reached without hitting a stop condition".

(** The walk of the compiled graph from [node].  [fuel] is the number of
    node visits that the recursion limit of the engine allows (the engine
    allows 25 steps unless the caller asks otherwise, and [run] does
    not): when they are used up before END, the engine raises.  The
    result of a finished walk is the list of the nodes visited, in
    order. *)
Fixpoint walk (fuel : nat) (node : Node) (visited : list Node) (w : World)
    : option (Result (list Node)) :=
  match fuel, node with
  | _, END => Some (Returned visited w)
  | O, _ => Some (Raised GraphRecursionError w)
  | S fuel', AgentNode t =>
      match agent_node t w with
      | Returned _ w' => walk fuel' (edge t) (visited ++ [node]) (apply_update w')
      | Raised e w' => Some (Raised e w')
      end
  | S fuel', RouterNode =>
      match router w with
      | Returned _ w' =>
          let w'' := apply_update w' in
          match conditional_edge (route_after_validation (pstate w'')) with
          | Some next => walk fuel' next (visited ++ [node]) w''
          | None => Some (Raised "unknown branch" w'')
          end
      | Raised e w' => Some (Raised e w')
      end
  end.

(** [self.app.ainvoke(initial_state)]: the walk from the entry point. *)
Definition ainvoke (fuel : nat) (w : World) : option (Result (list Node)) :=
  walk fuel (AgentNode PLANNER) [] w.

(** The end of [run]: after a finished walk the status is set and the
    completion recorded, inside the [try]; the handler records the failure
    and re-raises. *)
Definition finish_run (r : Result (list Node)) : Result (list Node) :=
  let handler e :=
    record_call (orch_monitor self) (RecordPipelineCompletion false);;
    raise e in
  match r with
  | Returned visited w =>
      try_except
        (modify_state (set_status COMPLETED);;
         record_call (orch_monitor self) (RecordPipelineCompletion true);;
         mret visited)
        handler w
  | Raised e w => handler e w
  end.

(** [run]; [uuid] is the identifier [uuid4()] draws.  The state returned
    is the [pstate] of the final world. *)
Definition run (fuel : nat) (uuid : string) (task0 : string)
    (context0 : option (list (string * Json))) (config0 : option Config)
    : option (Result (list Node)) :=
  let initial_state :=
    create_initial_state uuid 0 task0 context0
      (Some (merge_config (orch_config self) (default empty_config config0))) in
  let w0 := {| pstate := initial_state; clock := 1; llm_calls := 0 |} in
  match record_call (orch_monitor self) RecordPipelineStart w0 with
  | Raised e w => Some (Raised e w)
  | Returned _ w1 => finish_run <$> ainvoke fuel w1
  end.

End Orchestrator.

(** ** core/pipeline.py *)

(** The dict [_extract_result] builds; [res_start_time],
    [res_completed_steps] and [res_retry_count] are its "metadata". *)
Record RunResult := {
  res_success : bool;
  res_pipeline_id : string;
  res_task : string;
  res_result : FinalResult;
  res_summary : string;
  res_detailed_output : string;
  res_quality_score : float;
  res_key_takeaways : list string;
  res_recommendations : list string;
  res_agents_executed : nat;
  res_errors : list ErrorEntry;
  res_start_time : Timestamp;
  res_completed_steps : list string;
  res_retry_count : Z
}.

(** [status.value == "completed"] *)
Definition status_is_completed (st : AgentStatus) : bool :=
  match st with COMPLETED => true | _ => false end.

(** [_extract_result].  The key "final_result" is always in the state, so
    [state.get("final_result", {})] is its value and the default is never
    used: on [None] the first [final_result.get] raises an
    [AttributeError]. *)
Definition extract_result (s : PipelineState) : M RunResult :=
  match final_result s with
  | None => raise "'NoneType' object has no attribute 'get'"
  | Some fr =>
      mret {| res_success := status_is_completed (status s);
              res_pipeline_id := pipeline_id s;
              res_task := task s;
              res_result := fr;
              res_summary := fr_summary fr;
              res_detailed_output := fr_detailed_output fr;
              res_quality_score := fr_quality_score fr;
              res_key_takeaways := fr_key_takeaways fr;
              res_recommendations := fr_recommendations fr;
              res_agents_executed := List.length (completed_steps s);
              res_errors := errors s;
              res_start_time := start_time s;
              res_completed_steps := completed_steps s;
              res_retry_count := retry_count s |}
  end.

(** [AgenticPipeline.run] of the pipeline that owns the orchestrator
    [o]: the configuration of the pipeline is the one its orchestrator was
    built with, [kwargs] are the options of the call.  The handler logs
    and re-raises. *)
Definition pipeline_run (o : AgentOrchestrator) (fuel : nat) (uuid : string)
    (task0 : string) (context0 : option (list (string * Json))) (kwargs : Config)
    : option (Result RunResult) :=
  let run_config := merge_config (orch_config o) kwargs in
  match run o fuel uuid task0 context0 (Some run_config) with
  | None => None
  | Some (Returned _ w) => Some (extract_result (pstate w) w)
  | Some (Raised e w) => Some (Raised e w)
  end.

(** ** utils/monitoring.py: the metrics store

    The store of a [PipelineMonitor] as its methods read and write it.
    Readings of [datetime.utcnow()] are ticks of the monitor's own clock,
    and [(end - start).total_seconds()] is the difference of two readings
    as a float.  Counters are Python integers; [a / b] on two of them is
    the float quotient. *)

(** An entry of [pipeline["agents"]]. *)
Record AgentRun := {
  ag_start_time : Timestamp;
  ag_end_time : option Timestamp;
  ag_status : string;
  ag_duration : option float;      (* key "duration", set on completion *)
  ag_error : option string         (* key "error", set on failure *)
}.

(** An entry of [metrics["pipelines"]]. *)
Record PipelineRun := {
  pr_start_time : Timestamp;
  pr_end_time : option Timestamp;
  pr_status : string;
  pr_agents : list (string * AgentRun);
  pr_errors : list (string * Timestamp);
  pr_duration : option float       (* key "duration", set on completion *)
}.

(** An entry of [metrics["agents"]]. *)
Record AgentTotals := {
  executions : nat;
  successes : nat;
  failures : nat;
  total_duration : float;
  avg_duration : option float;     (* the two keys [get_agent_metrics] adds *)
  success_rate : option float
}.

Record Metrics := {
  m_pipelines : list (string * PipelineRun);
  m_agents : list (string * AgentTotals);
  total_pipelines : nat;
  total_successes : nat;
  total_failures : nat
}.

(** The attributes of a [PipelineMonitor] its methods use, and the clock
    they read. *)
Record MetricsMonitor := {
  mm_enabled : bool;
  mm_metrics : Metrics;
  mm_clock : nat
}.

Definition empty_metrics : Metrics :=
  {| m_pipelines := []; m_agents := [];
     total_pipelines := 0; total_successes := 0; total_failures := 0 |}.

(** The value the [defaultdict] makes for a missing agent. *)
Definition default_totals : AgentTotals :=
  {| executions := 0; successes := 0; failures := 0; total_duration := 0%float;
     avg_duration := None; success_rate := None |}.

(** [PipelineMonitor(config)], built when the clock reads [now] (the
    export directory it makes is not part of the store). *)
Definition new_monitor (cfg : option MonitoringSection) (now : nat) : MetricsMonitor :=
  {| mm_enabled := match cfg with Some m => default true (mon_enabled m) | None => true end;
     mm_metrics := empty_metrics;
     mm_clock := now |}.

(** [(end - start).total_seconds()] *)
Definition total_seconds (start end_ : Timestamp) : float :=
  (float_of_nat end_ - float_of_nat start)%float.

(** [self.metrics["agents"][agent_name]]: the entry, made when missing. *)
Definition agent_totals (agent_name : string) (ms : Metrics) : AgentTotals :=
  default default_totals (dict_get agent_name (m_agents ms)).

(** [self.metrics["agents"][agent_name][...] = ...] *)
Definition update_totals (agent_name : string) (f : AgentTotals -> AgentTotals)
    (ms : Metrics) : Metrics :=
  {| m_pipelines := m_pipelines ms;
     m_agents := dict_set agent_name (f (agent_totals agent_name ms)) (m_agents ms);
     total_pipelines := total_pipelines ms;
     total_successes := total_successes ms;
     total_failures := total_failures ms |}.

Definition set_pipeline (pipeline_id : string) (p : PipelineRun) (ms : Metrics) : Metrics :=
  {| m_pipelines := dict_set pipeline_id p (m_pipelines ms);
     m_agents := m_agents ms;
     total_pipelines := total_pipelines ms;
     total_successes := total_successes ms;
     total_failures := total_failures ms |}.

Definition set_run (agent_name : string) (a : AgentRun) (p : PipelineRun) : PipelineRun :=
  {| pr_start_time := pr_start_time p;
     pr_end_time := pr_end_time p;
     pr_status := pr_status p;
     pr_agents := dict_set agent_name a (pr_agents p);
     pr_errors := pr_errors p;
     pr_duration := pr_duration p |}.

Definition record_pipeline_start (pipeline_id : string) (m : MetricsMonitor) : MetricsMonitor :=
  if negb (mm_enabled m) then m
  else
    let ms := mm_metrics m in
    let fresh :=
      {| pr_start_time := mm_clock m; pr_end_time := None; pr_status := "running";
         pr_agents := []; pr_errors := []; pr_duration := None |} in
    {| mm_enabled := mm_enabled m;
       mm_metrics :=
         {| m_pipelines := dict_set pipeline_id fresh (m_pipelines ms);
            m_agents := m_agents ms;
            total_pipelines := total_pipelines ms + 1;
            total_successes := total_successes ms;
            total_failures := total_failures ms |};
       mm_clock := S (mm_clock m) |}.

Definition record_pipeline_completion (pipeline_id : string) (success : bool)
    (error : option string) (m : MetricsMonitor) : MetricsMonitor :=
  if negb (mm_enabled m) then m
  else
    let ms := mm_metrics m in
    match dict_get pipeline_id (m_pipelines ms) with
    | None => m
    | Some p =>
        let now := mm_clock m in
        let reported := truthy_str error in
        let p' :=
          {| pr_start_time := pr_start_time p;
             pr_end_time := Some now;
             pr_status := if success then "success" else "failed";
             pr_agents := pr_agents p;
             pr_errors :=
               if reported then pr_errors p ++ [(default "" error, S now)]
               else pr_errors p;
             pr_duration := Some (total_seconds (pr_start_time p) now) |} in
        {| mm_enabled := mm_enabled m;
           mm_metrics :=
             {| m_pipelines := dict_set pipeline_id p' (m_pipelines ms);
                m_agents := m_agents ms;
                total_pipelines := total_pipelines ms;
                total_successes :=
                  if success then total_successes ms + 1 else total_successes ms;
                total_failures :=
                  if success then total_failures ms else total_failures ms + 1 |};
           mm_clock := if reported then S (S now) else S now |}
    end.

Definition add_execution (t : AgentTotals) : AgentTotals :=
  {| executions := executions t + 1; successes := successes t; failures := failures t;
     total_duration := total_duration t;
     avg_duration := avg_duration t; success_rate := success_rate t |}.

Definition add_success (t : AgentTotals) : AgentTotals :=
  {| executions := executions t; successes := successes t + 1; failures := failures t;
     total_duration := total_duration t;
     avg_duration := avg_duration t; success_rate := success_rate t |}.

Definition add_failure (t : AgentTotals) : AgentTotals :=
  {| executions := executions t; successes := successes t; failures := failures t + 1;
     total_duration := total_duration t;
     avg_duration := avg_duration t; success_rate := success_rate t |}.

Definition add_duration (d : float) (t : AgentTotals) : AgentTotals :=
  {| executions := executions t; successes := successes t; failures := failures t;
     total_duration := (total_duration t + d)%float;
     avg_duration := avg_duration t; success_rate := success_rate t |}.

Definition record_agent_start (agent_name pipeline_id : string) (m : MetricsMonitor)
    : MetricsMonitor :=
  if negb (mm_enabled m) then m
  else
    let ms := mm_metrics m in
    match dict_get pipeline_id (m_pipelines ms) with
    | Some p =>
        let started :=
          {| ag_start_time := mm_clock m; ag_end_time := None; ag_status := "running";
             ag_duration := None; ag_error := None |} in
        {| mm_enabled := mm_enabled m;
           mm_metrics :=
             update_totals agent_name add_execution
               (set_pipeline pipeline_id (set_run agent_name started p) ms);
           mm_clock := S (mm_clock m) |}
    | None =>
        {| mm_enabled := mm_enabled m;
           mm_metrics := update_totals agent_name add_execution ms;
           mm_clock := mm_clock m |}
    end.

Definition record_agent_completion (agent_name pipeline_id : string) (m : MetricsMonitor)
    : MetricsMonitor :=
  if negb (mm_enabled m) then m
  else
    let ms := mm_metrics m in
    match dict_get pipeline_id (m_pipelines ms) with
    | Some p =>
        match dict_get agent_name (pr_agents p) with
        | Some a =>
            let now := mm_clock m in
            let duration := total_seconds (ag_start_time a) now in
            let a' :=
              {| ag_start_time := ag_start_time a; ag_end_time := Some now;
                 ag_status := "completed"; ag_duration := Some duration;
                 ag_error := ag_error a |} in
            {| mm_enabled := mm_enabled m;
               mm_metrics :=
                 update_totals agent_name add_success
                   (update_totals agent_name (add_duration duration)
                      (set_pipeline pipeline_id (set_run agent_name a' p) ms));
               mm_clock := S now |}
        | None =>
            {| mm_enabled := mm_enabled m;
               mm_metrics := update_totals agent_name add_success ms;
               mm_clock := mm_clock m |}
        end
    | None =>
        {| mm_enabled := mm_enabled m;
           mm_metrics := update_totals agent_name add_success ms;
           mm_clock := mm_clock m |}
    end.

Definition record_agent_error (agent_name pipeline_id error : string) (m : MetricsMonitor)
    : MetricsMonitor :=
  if negb (mm_enabled m) then m
  else
    let ms := mm_metrics m in
    match dict_get pipeline_id (m_pipelines ms) with
    | Some p =>
        match dict_get agent_name (pr_agents p) with
        | Some a =>
            let now := mm_clock m in
            let a' :=
              {| ag_start_time := ag_start_time a; ag_end_time := Some now;
                 ag_status := "failed"; ag_duration := ag_duration a;
                 ag_error := Some error |} in
            {| mm_enabled := mm_enabled m;
               mm_metrics :=
                 update_totals agent_name add_failure
                   (set_pipeline pipeline_id (set_run agent_name a' p) ms);
               mm_clock := S now |}
        | None =>
            {| mm_enabled := mm_enabled m;
               mm_metrics := update_totals agent_name add_failure ms;
               mm_clock := mm_clock m |}
        end
    | None =>
        {| mm_enabled := mm_enabled m;
           mm_metrics := update_totals agent_name add_failure ms;
           mm_clock := mm_clock m |}
    end.

(** [get_agent_metrics]: writes the two rates into the stored entry (which
    the lookup makes when it is missing) and returns a copy of it. *)
Definition with_rates (t : AgentTotals) : AgentTotals :=
  {| executions := executions t; successes := successes t; failures := failures t;
     total_duration := total_duration t;
     avg_duration :=
       Some (if (0 <? executions t)%nat
             then (total_duration t / float_of_nat (executions t))%float else 0%float);
     success_rate :=
       Some (if (0 <? executions t)%nat
             then (float_of_nat (successes t) / float_of_nat (executions t))%float
             else 0%float) |}.

Definition get_agent_metrics (agent_name : string) (m : MetricsMonitor)
    : AgentTotals * MetricsMonitor :=
  let ms := update_totals agent_name with_rates (mm_metrics m) in
  (agent_totals agent_name ms,
   {| mm_enabled := mm_enabled m; mm_metrics := ms; mm_clock := mm_clock m |}).

Definition get_pipeline_metrics (pipeline_id : string) (m : MetricsMonitor)
    : option PipelineRun :=
  dict_get pipeline_id (m_pipelines (mm_metrics m)).

Record AgentSummary := {
  as_executions : nat;
  as_success_rate : float;
  as_avg_duration : float
}.

Record Summary := {
  sum_total_pipelines : nat;
  sum_total_successes : nat;
  sum_total_failures : nat;
  sum_success_rate : float;
  sum_agents : list (string * AgentSummary)
}.

Definition summarise (entry : string * AgentTotals) : option (string * AgentSummary) :=
  let t := snd entry in
  if (0 <? executions t)%nat
  then Some (fst entry,
             {| as_executions := executions t;
                as_success_rate :=
                  (float_of_nat (successes t) / float_of_nat (executions t))%float;
                as_avg_duration := (total_duration t / float_of_nat (executions t))%float |})
  else None.

Definition get_summary (m : MetricsMonitor) : Summary :=
  let ms := mm_metrics m in
  {| sum_total_pipelines := total_pipelines ms;
     sum_total_successes := total_successes ms;
     sum_total_failures := total_failures ms;
     sum_success_rate :=
       if (0 <? total_pipelines ms)%nat
       then (float_of_nat (total_successes ms) / float_of_nat (total_pipelines ms))%float
       else 0%float;
     sum_agents := omap summarise (m_agents ms) |}.

Definition reset_metrics (m : MetricsMonitor) : MetricsMonitor :=
  {| mm_enabled := mm_enabled m; mm_metrics := empty_metrics; mm_clock := mm_clock m |}.

(** A call of one of the recording methods, with its arguments. *)
Inductive Recording :=
  | PipelineStart (pipeline_id : string)
  | PipelineCompletion (pipeline_id : string) (success : bool) (error : option string)
  | AgentStart (agent_name pipeline_id : string)
  | AgentCompletion (agent_name pipeline_id : string)
  | AgentError (agent_name pipeline_id error : string).

Definition apply_recording (m : MetricsMonitor) (c : Recording) : MetricsMonitor :=
  match c with
  | PipelineStart pid => record_pipeline_start pid m
  | PipelineCompletion pid success error => record_pipeline_completion pid success error m
  | AgentStart name pid => record_agent_start name pid m
  | AgentCompletion name pid => record_agent_completion name pid m
  | AgentError name pid error => record_agent_error name pid error m
  end.

(** The monitor after a sequence of recording calls. *)
Definition record_all (cs : list Recording) (m : MetricsMonitor) : MetricsMonitor :=
  fold_left apply_recording cs m.

(** How many calls of a sequence satisfy [p]. *)
Definition count_calls (p : Recording -> bool) (cs : list Recording) : nat :=
  List.length (List.filter p cs).

Definition is_pipeline_start (c : Recording) : bool :=
  match c with PipelineStart _ => true | _ => false end.
Definition is_pipeline_completion (c : Recording) : bool :=
  match c with PipelineCompletion _ _ _ => true | _ => false end.
Definition is_agent_start (name : string) (c : Recording) : bool :=
  match c with AgentStart n _ => String.eqb n name | _ => false end.
Definition is_agent_completion (name : string) (c : Recording) : bool :=
  match c with AgentCompletion n _ => String.eqb n name | _ => false end.
Definition is_agent_error (name : string) (c : Recording) : bool :=
  match c with AgentError n _ _ => String.eqb n name | _ => false end.

(** The pipeline a recording call is about. *)
Definition recording_pipeline (c : Recording) : string :=
  match c with
  | PipelineStart pid | PipelineCompletion pid _ _ | AgentStart _ pid
  | AgentCompletion _ pid | AgentError _ pid _ => pid
  end.

(** The counters of the store that the recording calls move, for one
    agent. *)
Definition counters (name : string) (m : MetricsMonitor) : nat * nat * nat * nat :=
  let ms := mm_metrics m in
  (total_pipelines ms, executions (agent_totals name ms),
   successes (agent_totals name ms), failures (agent_totals name ms)).

(** ** Sample collaborators and inputs *)

(** [float(s)] on the literals that occur in the sample responses. *)
Definition sample_float (g : string) : float :=
  if String.eqb g "0.1" then 0.1%float
  else if String.eqb g "0.9" then 0.9%float
  else if String.eqb g "1" then 1%float
  else 0%float.

(** [format(x, spec)] on the values that occur in the sample runs. *)
Definition sample_format (spec : string) (x : float) : string :=
  if String.eqb spec ".2f" then
    if PrimFloat.eqb x 0.1 then "0.10"
    else if PrimFloat.eqb x 0.7 then "0.70"
    else if PrimFloat.eqb x 0.9 then "0.90"
    else "?"
  else if PrimFloat.eqb x 1 then "100.0%" else "?".

(** The collaborators on the sample responses, which are texts of one
    line without braces, bullets or keywords of the heuristics: the plan
    falls back, nothing is extracted, and a review without a score gets
    the default quality 0.7.  [replies] is the language model. *)
Definition sample_env (replies : nat -> LlmReply) : Collaborators :=
  {| llm := replies;
     py_float := sample_float;
     format_float := sample_format;
     json_object_in := fun _ => None;
     structure_findings := fun text =>
       {| f_summary := text; key_points := []; full_research := text |};
     research_tools := None;
     structure_analysis := fun text =>
       {| insights := []; recommendations := []; full_analysis := text |};
     structure_synthesis := fun text ctx =>
       {| summary := text; key_takeaways := []; actionable_items := [];
          next_steps_items := []; full_synthesis := text; sources := dict_keys ctx |};
     extract_issues := fun _ => [];
     extract_suggestions := fun _ => [];
     run_query_tools := fun _ => None;
     structure_review := fun text _ _ =>
       {| quality_score := 0.7%float; strengths := []; r_recommendations := [];
          task_completed := true; full_review := text |} |}.

Definition built_at_zero (t : AgentType) : string := "0".

Definition no_fault (c : MonitorCall) : option string := None.

(** A language model that answers every call with the same text. *)
Definition always_reply (text : string) (n : nat) : LlmReply := Reply text.

(** A language model that is down. *)
Definition always_down (n : nat) : LlmReply := LlmError "connection refused".

Definition sample_orchestrator (replies : nat -> LlmReply) (cfg : Config) : AgentOrchestrator :=
  new_orchestrator (sample_env replies) built_at_zero no_fault cfg.

(** The world [run] starts the walk in. *)
Definition sample_world (cfg : Config) : World :=
  {| pstate := create_initial_state "run-1" 0 "summarise the report" None (Some cfg);
     clock := 1;
     llm_calls := 0 |}.

Definition with_results (d : gmap string Payload) (w : World) : World :=
  {| pstate := set_intermediate_results d (pstate w);
     clock := clock w;
     llm_calls := llm_calls w |}.

Definition with_retry_count (n : Z) (w : World) : World :=
  {| pstate := set_retry_count n (pstate w);
     clock := clock w;
     llm_calls := llm_calls w |}.

Definition sample_validator (cfg : Config) : Agent :=
  initialize_agent cfg built_at_zero VALIDATOR.

(** A validation response that scores every criterion 0.1. *)
Definition low_scores_text : string :=
  "Accuracy: 0.1 Completeness: 0.1 Coherence: 0.1 Relevance: 0.1 Quality: 0.1".

(** A validation response that scores every criterion 0.9. *)
Definition high_scores_text : string :=
  "Accuracy: 0.9 Completeness: 0.9 Coherence: 0.9 Relevance: 0.9 Quality: 0.9".

(** A synthesis with one actionable item. *)
Definition sample_synthesis : Synthesis :=
  {| summary := "s"; key_takeaways := []; actionable_items := ["do X"];
     next_steps_items := []; full_synthesis := "s"; sources := [] |}.

(** The shipped custom configuration, as far as the core is concerned:
    the executor disabled, [pipeline.max_retries] set to 2. *)
Definition custom_config : Config :=
  {| max_retries := None;
     agents := Some [("validator", {| enabled := Some true; min_score := Some 0.75%float |});
                     ("executor", {| enabled := Some false; min_score := None |})];
     pipeline := Some {| pl_max_retries := Some 2%Z; pl_timeout_seconds := Some 300%Z |};
     monitoring := Some {| mon_enabled := Some true |} |}.

(** An orchestrator one of whose stages is defective: the planner's
    [execute] raises. *)
Definition defective_orchestrator : AgentOrchestrator :=
  {| orch_config := empty_config;
     orch_monitor := {| monitor_enabled := true; monitor_fault := no_fault |};
     orch_agents := fun t =>
       match t with
       | PLANNER => raise "defect"
       | _ => execute (sample_env (always_reply "ok"))
                (initialize_agent empty_config built_at_zero t)
       end |}.

(** A monitor whose [record_agent_start] raises. *)
Definition start_fault (c : MonitorCall) : option string :=
  match c with
  | RecordAgentStart _ => Some "metrics store down"
  | _ => None
  end.

Definition faulty_monitor_orchestrator : AgentOrchestrator :=
  new_orchestrator (sample_env (always_reply "ok")) built_at_zero start_fault
    empty_config.

(** The same orchestrator with a monitor that records nothing. *)
Definition silence (o : AgentOrchestrator) : AgentOrchestrator :=
  {| orch_config := orch_config o;
     orch_monitor := {| monitor_enabled := false; monitor_fault := no_fault |};
     orch_agents := orch_agents o |}.

(** ** Vocabulary of the properties *)

(** The key of [intermediate_results] under which a stage stores its
    result. *)
Definition result_key (t : AgentType) : string :=
  match t with
  | PLANNER => "execution_plan"
  | RESEARCHER => "research_findings"
  | ANALYZER => "analysis"
  | SYNTHESIZER => "synthesis"
  | VALIDATOR => "validation"
  | EXECUTOR => "execution"
  | REVIEWER => "review"
  end.

(** The keys a stage may write: its result key, and for the Validator
    the retry flag. *)
Definition owned_keys (t : AgentType) : list string :=
  match t with
  | VALIDATOR => ["validation"; "needs_retry"]
  | _ => [result_key t]
  end.

(** A recording call of the monitor that returns. *)
Definition quiet (monitor : PipelineMonitor) (c : MonitorCall) : Prop :=
  monitor_enabled monitor = false \/ monitor_fault monitor c = None.

(** [pipeline.max_retries] of the configuration surface, default 3. *)
Definition configured_max_retries (cfg : Config) : Z :=
  default 3%Z (pipeline cfg ≫= pl_max_retries).

(** [agents.<name>.enabled] of the configuration surface, default true. *)
Definition configured_enabled (cfg : Config) (name : string) : bool :=
  default true (enabled (agent_config_of cfg name)).

(** The recorded validation is absent, or its [passed] flag is true. *)
Definition validation_absent_or_passed (d : gmap string Payload) : Prop :=
  d !! "validation" = None
  \/ exists v, d !! "validation" = Some (PValidation v) /\ passed v = true.

(** The recorded synthesis has actionable items or next steps. *)
Definition synthesis_has_items (d : gmap string Payload) : Prop :=
  exists syn, d !! "synthesis" = Some (PSynthesis syn)
    /\ (actionable_items syn <> [] \/ next_steps_items syn <> []).

(** What the key "validation" holds, if anything, is a validation. *)
Definition validation_typed (s : PipelineState) : Prop :=
  forall p, intermediate_results s !! "validation" = Some p -> exists v, p = PValidation v.

Definition world_after {A} (r : Result A) : World :=
  match r with Returned _ w | Raised _ w => w end.

(** Whether [m] returns or raises, the state it leaves is related to the
    state it found. *)
Definition respects (R : relation PipelineState) {A} (m : M A) : Prop :=
  forall w, R (pstate w) (pstate (world_after (m w))).

(** [m] cannot raise. *)
Definition never_raises {A} (m : M A) : Prop :=
  forall w, exists a w', m w = Returned a w'.

(** The relation "field [f] is unchanged". *)
Definition same_field {A} (f : PipelineState -> A) : relation PipelineState :=
  fun s s' => f s' = f s.

(** The relation "[intermediate_results] agree outside the keys [keys]". *)
Definition same_outside (keys : list string) : relation PipelineState :=
  fun s s' => forall k, k ∉ keys ->
    intermediate_results s' !! k = intermediate_results s !! k.

(** The relation "a typed validation stays typed". *)
Definition keeps_validation_typed : relation PipelineState :=
  fun s s' => validation_typed s -> validation_typed s'.

(** The retry rule of the router fires in this world, under the default
    maximum of 3. *)
Definition retry_pending (w : World) : Prop :=
  intermediate_results (pstate w) !! "needs_retry" = Some (PBool true)
  /\ (retry_count (pstate w) < 3)%Z.

(** The nodes of the cycle researcher, analyzer, synthesizer, validator,
    router. *)
Definition in_retry_loop (node : Node) : Prop :=
  node = RouterNode
  \/ exists t, node = AgentNode t /\ t <> EXECUTOR /\ t <> REVIEWER /\ t <> PLANNER.

(** ** Vocabulary of the properties of the stages, the walk and the store *)

(** The inputs of a run: what [create_initial_state] receives or draws. *)
Definition run_inputs (s : PipelineState)
    : string * list (string * Json) * string * Timestamp * Config :=
  (task s, context s, pipeline_id s, start_time s, config s).

(** The relation "[messages] and [errors] only grew, at the end". *)
Definition logs_extended : relation PipelineState :=
  fun s s' => (exists l, messages s' = messages s ++ l)
              /\ (exists l, errors s' = errors s ++ l).

(** The maximum the Validator reads: top-level "max_retries" of the
    configuration in the state, default 3. *)
Definition retry_limit (s : PipelineState) : Z := default 3%Z (max_retries (config s)).

(** The relation "the retry count did not decrease, and did not pass the
    limit the Validator reads unless it was beyond it already". *)
Definition retry_bounded : relation PipelineState :=
  fun s s' => config s' = config s
              /\ (retry_count s <= retry_count s')%Z
              /\ (retry_count s' <= Z.max (retry_count s) (retry_limit s))%Z.

(** The relation "a set retry flag stays set". *)
Definition keeps_retry_flag : relation PipelineState :=
  fun s s' => intermediate_results s !! "needs_retry" = Some (PBool true) ->
              intermediate_results s' !! "needs_retry" = Some (PBool true).




(** The entries of [agent_states] in the second state are of type [ty],
    or entries of that type under that id in the first. *)
Definition agent_types_from (ty : AgentType) : relation PipelineState :=
  fun s s' =>
    forall aid a, (aid, a) ∈ agent_states s' ->
      agent_type a = ty
      \/ exists a0, (aid, a0) ∈ agent_states s /\ agent_type a0 = agent_type a.


(** No agent of type [ty] has completed with output. *)
Definition none_completed (ty : AgentType) (s : PipelineState) : Prop :=
  forall aid a, (aid, a) ∈ agent_states s -> agent_type a = ty ->
    as_status a = COMPLETED -> truthy_dict (output_data a) = false.

(** ** Further sample inputs *)

(** The world after the synthesizer has run once on the sample world. *)
Definition after_synthesizer : World :=
  world_after
    (execute (sample_env (always_reply "ok"))
       (initialize_agent empty_config built_at_zero SYNTHESIZER)
       (sample_world empty_config)).

(** The sample world with the retry flag set. *)
Definition retrying_world (cfg : Config) : World :=
  with_results {["needs_retry" := PBool true]} (sample_world cfg).

(** A configuration that sets the top-level "max_retries" and nothing
    else. *)
Definition with_max_retries (n : Z) : Config :=
  {| max_retries := Some n; agents := None; pipeline := None; monitoring := None |}.

(** Collaborators whose language model answers with a plan, a JSON object
    whose "agent_sequence" is a number. *)
Definition numbered_plan : list (string * Json) := [("agent_sequence", JInt 4)].

Definition double_quote : string := String (ascii_of_nat 34) EmptyString.

Definition numbered_plan_text : string :=
  "{" +:+ double_quote +:+ "agent_sequence" +:+ double_quote +:+ ": 4}".

Definition sample_env_with_plan : Collaborators :=
  let base := sample_env (always_reply numbered_plan_text) in
  {| llm := llm base;
     py_float := py_float base;
     format_float := format_float base;
     json_object_in := fun _ => Some (Some numbered_plan);
     structure_findings := structure_findings base;
     research_tools := research_tools base;
     structure_analysis := structure_analysis base;
     structure_synthesis := structure_synthesis base;
     extract_issues := extract_issues base;
     extract_suggestions := extract_suggestions base;
     run_query_tools := run_query_tools base;
     structure_review := structure_review base |}.

(** A monitor that has recorded nothing, and the calls of one run of one
    pipeline with a planner that completes. *)
Definition sample_monitor (on : bool) : MetricsMonitor :=
  {| mm_enabled := on; mm_metrics := empty_metrics; mm_clock := 0 |}.

Definition sample_recordings : list Recording :=
  [PipelineStart "run-1"; AgentStart "planner" "run-1";
   AgentCompletion "planner" "run-1"; PipelineCompletion "run-1" true None].

(** Characters outside ASCII, in UTF-8: the Arabic-Indic digit three
    (U+0663), the no-break space (U+00A0) and the dotless i (U+0131). *)
Definition arabic_indic_three : string :=
  String (ascii_of_N 217) (String (ascii_of_N 163) EmptyString).

Definition no_break_space : string :=
  String (ascii_of_N 194) (String (ascii_of_N 160) EmptyString).

Definition dotless_i : string :=
  String (ascii_of_N 196) (String (ascii_of_N 177) EmptyString).

(** * Properties *)

(** ** Dictionaries *)
Section PyDictFacts.
Context {K V : Type} `{EqDecision K}.

Lemma dict_get_set_eq (k : K) (v : V) d : dict_get k (dict_set k v d) = Some v.
Proof.
  induction d as [|[k' v'] d IH]; simpl.
  - destruct (decide (k = k)); congruence.
  - destruct (decide (k = k')) as [->|Hne]; simpl.
    + destruct (decide (k' = k')); congruence.
    + destruct (decide (k = k')); [contradiction|exact IH].
Qed.

Lemma dict_get_set_ne (k k' : K) (v : V) d :
  k <> k' -> dict_get k' (dict_set k v d) = dict_get k' d.
Proof.
  intros Hne. induction d as [|[k0 v0] d IH]; simpl.
  - destruct (decide (k' = k)); congruence.
  - destruct (decide (k = k0)) as [->|Hk]; simpl.
    + destruct (decide (k' = k0)); congruence.
    + destruct (decide (k' = k0)); [reflexivity|exact IH].
Qed.
End PyDictFacts.

Lemma as_status_updated_entry now aid ty st out err old :
  as_status (updated_entry now aid ty st out err old) = st.
Proof. destruct old; reflexivity. Qed.

(** ** The score pattern on sample texts *)

Example search_score_colon : re_search_score "accuracy" "Accuracy: 0.8" = Some "0.8".
Proof. reflexivity. Qed.

Example search_score_out_of_ten :
  re_search_score "accuracy" "xx ACCURACY - 8/10" = Some "8".
Proof. reflexivity. Qed.

Example search_score_trailing_dot :
  re_search_score "accuracy" "accuracy 8. foo" = Some "8.".
Proof. reflexivity. Qed.

Example search_score_needs_separator : re_search_score "accuracy" "accuracy8" = None.
Proof. reflexivity. Qed.

Example search_score_needs_leading_digit :
  re_search_score "accuracy" "accuracy: .5" = None.
Proof. reflexivity. Qed.

Example search_score_leftmost :
  re_search_score "accuracy" "accuracy: x accuracy:: -  12.34.5" = Some "12.34".
Proof. reflexivity. Qed.

(** The classes are those of Unicode: a digit of another script is a
    digit, a no-break space is a separator, and under [re.IGNORECASE] a
    dotless i matches the [i] of a criterion. *)
Example search_score_unicode_digit :
  re_search_score "accuracy" ("accuracy: " +:+ arabic_indic_three)
  = Some arabic_indic_three.
Proof. reflexivity. Qed.

Example search_score_unicode_separator :
  re_search_score "accuracy" ("accuracy" +:+ no_break_space +:+ "7") = Some "7".
Proof. reflexivity. Qed.

Example search_score_unicode_case :
  re_search_score "quality" ("QUAL" +:+ dotless_i +:+ "TY - 9/10") = Some "9".
Proof. reflexivity. Qed.

Example criteria_scores_of_low_scores_text :
  map snd (extract_criteria_scores (sample_env (always_reply "")) low_scores_text)
  = [0.1; 0.1; 0.1; 0.1; 0.1]%float.
Proof. vm_compute. reflexivity. Qed.

(** ** Calls that keep a relation between the state before and after *)

#[local] Instance same_field_preorder {A} (f : PipelineState -> A) : PreOrder (same_field f).
Proof.
  split; [intros s; reflexivity|].
  intros a b c H1 H2. unfold same_field in *. congruence.
Qed.

#[local] Instance same_outside_preorder keys : PreOrder (same_outside keys).
Proof.
  split; [intros s k _; reflexivity|].
  intros a b c H1 H2 k Hk. rewrite (H2 k Hk). apply H1, Hk.
Qed.

#[local] Instance keeps_validation_typed_preorder : PreOrder keeps_validation_typed.
Proof.
  split; [intros s H; exact H|].
  intros a b c H1 H2 H. apply H2, H1, H.
Qed.

Section Respects.
Context (R : relation PipelineState) `{!PreOrder R}.

Lemma respects_mret {A} (a : A) : respects R (mret a).
Proof. intros w. cbn. reflexivity. Qed.

Lemma respects_raise {A} e : respects R (@raise A e).
Proof. intros w. cbn. reflexivity. Qed.

Lemma respects_bind {A B} (m : M A) (f : A -> M B) :
  respects R m -> (forall a, respects R (f a)) -> respects R (m ≫= f).
Proof.
  intros Hm Hf w. specialize (Hm w). unfold mbind, M_bind.
  destruct (m w) as [a w'|e w']; cbn in *; [|exact Hm].
  etransitivity; [exact Hm|apply Hf].
Qed.

Lemma respects_try_except {A} (m : M A) (h : string -> M A) :
  respects R m -> (forall e, respects R (h e)) -> respects R (try_except m h).
Proof.
  intros Hm Hh w. specialize (Hm w). unfold try_except.
  destruct (m w) as [a w'|e w']; cbn in *; [exact Hm|].
  etransitivity; [exact Hm|apply Hh].
Qed.

Lemma respects_get_state : respects R get_state.
Proof. intros w. cbn. reflexivity. Qed.

Lemma respects_utcnow : respects R utcnow.
Proof. intros w. cbn. reflexivity. Qed.

Lemma respects_modify_state f : (forall s, R s (f s)) -> respects R (modify_state f).
Proof. intros Hf w. cbn. apply Hf. Qed.

Lemma respects_invoke_llm env : respects R (invoke_llm env).
Proof.
  intros w. unfold invoke_llm. destruct (llm env (llm_calls w)); cbn; reflexivity.
Qed.

Lemma respects_update_agent_state_call aid ty st out err :
  (forall v s, R s (set_agent_states v s)) ->
  respects R (update_agent_state_call aid ty st out err).
Proof. intros Hf w. cbn. apply Hf. Qed.

Lemma respects_record_call monitor c : respects R (record_call monitor c).
Proof.
  intros w. unfold record_call.
  destruct (monitor_enabled monitor); [destruct (monitor_fault monitor c)|]; cbn; reflexivity.
Qed.
End Respects.

Ltac respects_step :=
  lazymatch goal with
  | |- respects _ (mret _) => apply respects_mret; tc_solve
  | |- respects _ (raise _) => apply respects_raise; tc_solve
  | |- respects _ (mbind _ _) => apply respects_bind; try tc_solve; [|intros ?]
  | |- respects _ (try_except _ _) => apply respects_try_except; try tc_solve; [|intros ?]
  | |- respects _ get_state => apply respects_get_state; tc_solve
  | |- respects _ utcnow => apply respects_utcnow; tc_solve
  | |- respects _ (invoke_llm _) => apply respects_invoke_llm; tc_solve
  | |- respects _ (record_call _ _) => apply respects_record_call; tc_solve
  | |- respects _ (modify_state _) => apply respects_modify_state; try tc_solve
  | |- respects _ (update_agent_state_call _ _ _ _ _) =>
      apply respects_update_agent_state_call; try tc_solve
  | |- respects _ (match ?x with _ => _ end) => destruct x
  | |- respects _ (py_len_call _) => unfold py_len_call
  | |- respects _ (log_execution_start _) => unfold log_execution_start
  | |- respects _ (log_execution_end _ _ _) => unfold log_execution_end
  | |- respects _ (record_failure _ _) => unfold record_failure
  | |- respects _ (append_error _ _) => unfold append_error
  | |- respects _ (add_message_call _ _ _) => unfold add_message_call
  | |- respects _ (write_result _ _) => unfold write_result
  | |- respects _ (structure_validation _ _ _) => unfold structure_validation
  | |- respects _ (create_final_result _ _) => unfold create_final_result
  | |- respects _ (execute_single_action _ _) => unfold execute_single_action
  end.

(** Unfold the calls of a stage down to functions of the world, and
    reduce the reads and writes of the state. *)
Ltac unfold_calls :=
  unfold log_execution_start, log_execution_end, record_failure, append_error,
    add_message_call, write_result, structure_validation, create_final_result,
    invoke_llm, py_len_call, try_except, raise, get_state, modify_state, utcnow,
    update_agent_state_call, record_call, mbind, M_bind, mret, M_ret.

Ltac simpl_state :=
  cbn [pstate clock llm_calls world_after
       task context messages agent_states current_step next_steps completed_steps
       intermediate_results final_result pipeline_id start_time status errors
       retry_count config
       set_messages set_agent_states set_current_step set_next_steps
       set_completed_steps set_intermediate_results set_final_result set_status
       set_errors set_retry_count update_agent_state
       overall_score criteria_scores passed].

(** ** The stages *)

Ltac unfold_stage :=
  unfold execute;
  unfold planner_execute, researcher_execute, analyzer_execute, synthesizer_execute,
    validator_execute, executor_execute, reviewer_execute.

Section StageFacts.
Variable env : Collaborators.

Lemma execute_actions_respects R `{!PreOrder R} actions :
  respects R (execute_actions env actions).
Proof.
  induction actions as [|action rest IH]; cbn [execute_actions].
  - respects_step.
  - repeat respects_step. exact IH.
Qed.

Lemma never_raises_bind {A B} (m : M A) (f : A -> M B) :
  never_raises m -> (forall a, never_raises (f a)) -> never_raises (m ≫= f).
Proof.
  intros Hm Hf w. destruct (Hm w) as (a & w' & Ha).
  unfold mbind, M_bind. rewrite Ha. apply Hf.
Qed.

Lemma try_except_never_raises {A} (m : M A) h :
  (forall e, never_raises (h e)) -> never_raises (try_except m h).
Proof.
  intros Hh w. unfold try_except. destruct (m w) as [a w'|e w']; [eauto|apply Hh].
Qed.

(** Every [execute] ends in its own handler, which cannot raise: no
    exception leaves a stage of the pipeline. *)
Lemma record_failure_never_raises self e : never_raises (record_failure self e).
Proof. intros w. cbn. eauto. Qed.

Lemma execute_never_raises self : never_raises (execute env self).
Proof.
  intros w. unfold_stage.
  destruct (self_type self); unfold log_execution_start;
    cbn [mbind M_bind update_agent_state_call];
    apply try_except_never_raises; intros e; apply record_failure_never_raises.
Qed.

Lemma execute_returns self w : exists w', execute env self w = Returned tt w'.
Proof. destruct (execute_never_raises self w) as ([] & w' & H). eauto. Qed.

(** The actions of the executor change nothing of the run state. *)
Lemma execute_actions_returns actions w :
  exists rs n, execute_actions env actions w
    = Returned rs {| pstate := pstate w; clock := clock w + n; llm_calls := llm_calls w |}.
Proof.
  revert w. induction actions as [|action rest IH]; intros w; cbn [execute_actions].
  - exists [], 0. unfold mret, M_ret. rewrite Nat.add_0_r. destruct w; reflexivity.
  - unfold execute_single_action. unfold_calls. simpl_state.
    destruct (IH {| pstate := pstate w; clock := S (clock w); llm_calls := llm_calls w |})
      as (rs & n & Hrs).
    rewrite Hrs. simpl_state. eexists _, (S n). do 2 f_equal. lia.
Qed.

Ltac respects_stage :=
  repeat first [respects_step | apply execute_actions_respects; tc_solve].

(** A stage writes no key of [intermediate_results] but its own. *)
Lemma execute_same_outside self :
  respects (same_outside (owned_keys (self_type self))) (execute env self).
Proof.
  unfold_stage. destruct (self_type self); respects_stage.
  all: intros; intros k Hk; cbn in Hk |- *; try reflexivity.
  all: apply lookup_insert_ne; intros Heq; subst k; apply Hk; set_solver.
Qed.


(** Only the Reviewer sets [final_result]. *)
Lemma execute_same_final_result self :
  self_type self <> REVIEWER -> respects (same_field final_result) (execute env self).
Proof.
  intros Ht. unfold_stage. destruct (self_type self); try contradiction; respects_stage.
  all: intros; unfold same_field; reflexivity.
Qed.

(** Under the key "validation" the stages store validations only. *)
Lemma execute_keeps_validation_typed self :
  respects keeps_validation_typed (execute env self).
Proof.
  unfold_stage. destruct (self_type self); respects_stage.
  all: intros; intros Hty; try exact Hty.
  all: intros p; cbn; rewrite lookup_insert; case_decide; try discriminate.
  all: try (intros Hp; apply Hty, Hp).
  all: intros [= <-]; eauto.
Qed.

End StageFacts.

(** The path of a stage whose language model call raises: the handler of
    the stage records the failure and the stage returns. *)
Lemma execute_llm_error env self w msg :
  self_type self <> EXECUTOR ->
  llm env (llm_calls w) = LlmError msg ->
  exists w1 now a,
    execute env self w = Returned tt w1
    /\ status (pstate w1) = status (pstate w)
    /\ errors (pstate w1)
       = errors (pstate w)
           ++ [{| err_agent := agent_value (self_type self); err_error := msg;
                  err_timestamp := now |}]
    /\ dict_get (self_id self) (agent_states (pstate w1)) = Some a
    /\ as_status a = FAILED
    /\ messages (pstate w1) = messages (pstate w)
    /\ intermediate_results (pstate w1) = intermediate_results (pstate w)
    /\ retry_count (pstate w1) = retry_count (pstate w).
Proof.
  intros Ht Hllm. unfold_stage.
  destruct (self_type self) eqn:Hty; try contradiction; rewrite <- Hty;
    unfold_calls; simpl_state; rewrite Hllm; simpl_state;
    (eexists _, _, _; split; [reflexivity|]; simpl_state;
     repeat split; try reflexivity;
     [apply dict_get_set_eq|apply as_status_updated_entry]).
Qed.

(** ** The node wrapper and the walk *)

Lemma record_call_quiet monitor c w :
  quiet monitor c -> record_call monitor c w = Returned tt w.
Proof.
  intros [Hq|Hq]; unfold record_call; rewrite Hq; [reflexivity|].
  destruct (monitor_enabled monitor); reflexivity.
Qed.

Section OrchestratorFacts.
Variable o : AgentOrchestrator.

(** The wrapper around a stage that returns. *)
Lemma agent_node_returned t w w1 :
  orch_agents o t w = Returned tt w1 ->
  quiet (orch_monitor o) (RecordAgentStart (agent_value t)) ->
  quiet (orch_monitor o) (RecordAgentCompletion (agent_value t)) ->
  agent_node o t w
  = Returned tt
      {| pstate :=
           set_completed_steps (completed_steps (pstate w1) ++ [agent_value t])
             (set_current_step (agent_value t) (pstate w1));
         clock := clock w1;
         llm_calls := llm_calls w1 |}.
Proof.
  intros Hrun Hstart Hdone. unfold agent_node.
  unfold mbind at 1. unfold M_bind at 1. rewrite (record_call_quiet _ _ _ Hstart).
  unfold try_except, mbind, M_bind. rewrite Hrun.
  unfold modify_state. simpl_state. rewrite (record_call_quiet _ _ _ Hdone).
  reflexivity.
Qed.

(** The wrapper around a stage that raises. *)
Lemma agent_node_raised t w e w1 :
  orch_agents o t w = Raised e w1 ->
  quiet (orch_monitor o) (RecordAgentStart (agent_value t)) ->
  quiet (orch_monitor o) (RecordAgentError (agent_value t)) ->
  agent_node o t w
  = Returned tt
      {| pstate :=
           set_status FAILED
             (set_errors
                (errors (pstate w1)
                   ++ [{| err_agent := agent_value t; err_error := e;
                          err_timestamp := clock w1 |}])
                (pstate w1));
         clock := S (clock w1);
         llm_calls := llm_calls w1 |}.
Proof.
  intros Hrun Hstart Herr. unfold agent_node.
  unfold mbind at 1. unfold M_bind at 1. rewrite (record_call_quiet _ _ _ Hstart).
  unfold try_except. unfold mbind at 1. unfold M_bind at 1. rewrite Hrun.
  unfold mbind at 1. unfold M_bind at 1. rewrite (record_call_quiet _ _ _ Herr).
  reflexivity.
Qed.

(** After a node function returns, the walk takes the edge that leaves
    the node. *)
Lemma walk_agent_step t w w' fuel visited :
  agent_node o t w = Returned tt w' ->
  walk o (S fuel) (AgentNode t) visited w
  = walk o fuel (edge t) (visited ++ [AgentNode t]) (apply_update w').
Proof. intros H. cbn [walk]. rewrite H. reflexivity. Qed.

(** The router reads nothing the engine's update changes. *)
Lemma route_after_update w :
  route_after_validation o (pstate (apply_update w)) = route_after_validation o (pstate w).
Proof. reflexivity. Qed.

(** A walk gives a result whatever the limit. *)
Lemma walk_gives_result fuel :
  forall node visited w, exists r, walk o fuel node visited w = Some r.
Proof.
  induction fuel as [|fuel IH]; intros node visited w; destruct node as [t| |];
    cbn [walk]; eauto.
  - destruct (agent_node o t w) as [[] w1|e w1]; eauto.
  - unfold router, mret, M_ret. destruct (conditional_edge _) as [next|]; eauto.
Qed.

Lemma agent_node_respects R `{!PreOrder R} t :
  respects R (orch_agents o t) ->
  (forall v s, R s (set_current_step v s)) ->
  (forall v s, R s (set_completed_steps v s)) ->
  (forall v s, R s (set_errors v s)) ->
  (forall v s, R s (set_status v s)) ->
  respects R (agent_node o t).
Proof.
  intros Hagent H1 H2 H3 H4. unfold agent_node.
  repeat first [respects_step | exact Hagent]; auto.
Qed.

End OrchestratorFacts.

(** ** Failures of a stage *)

(** C2, as the code has it.  When the [execute] of a stage raises, the
    node wrapper catches the exception, appends exactly one entry to
    [errors] and sets the status of the run to FAILED; it then returns,
    and the walk goes on along the edge that leaves the node. *)
Theorem defect_is_caught_and_walk_continues o t w e w1 :
  orch_agents o t w = Raised e w1 ->
  quiet (orch_monitor o) (RecordAgentStart (agent_value t)) ->
  quiet (orch_monitor o) (RecordAgentError (agent_value t)) ->
  exists w2 now,
    agent_node o t w = Returned tt w2
    /\ errors (pstate w2)
       = errors (pstate w1)
           ++ [{| err_agent := agent_value t; err_error := e; err_timestamp := now |}]
    /\ status (pstate w2) = FAILED
    /\ forall fuel visited,
         walk o (S fuel) (AgentNode t) visited w
         = walk o fuel (edge t) (visited ++ [AgentNode t]) (apply_update w2).
Proof.
  intros Hrun Hstart Herr.
  pose proof (agent_node_raised o t w e w1 Hrun Hstart Herr) as Hnode.
  eexists _, _. split; [exact Hnode|].
  split; [reflexivity|]. split; [reflexivity|].
  intros fuel visited. apply walk_agent_step, Hnode.
Qed.

Lemma defect_is_caught_and_walk_continues_witness :
  exists w2 now,
    agent_node defective_orchestrator PLANNER (sample_world empty_config) = Returned tt w2
    /\ errors (pstate w2)
       = errors (pstate (sample_world empty_config))
           ++ [{| err_agent := "planner"; err_error := "defect"; err_timestamp := now |}]
    /\ status (pstate w2) = FAILED
    /\ forall fuel visited,
         walk defective_orchestrator (S fuel) (AgentNode PLANNER) visited
           (sample_world empty_config)
         = walk defective_orchestrator fuel RouterNode (visited ++ [AgentNode PLANNER])
             (apply_update w2).
Proof.
  apply (defect_is_caught_and_walk_continues defective_orchestrator PLANNER
           (sample_world empty_config) "defect" (sample_world empty_config)).
  - reflexivity.
  - right. reflexivity.
  - right. reflexivity.
Defined.

(** C2, as claimed, fails: after the planner of this orchestrator raised,
    the walk still visits the router (and ends there only because the
    router sends it to END). *)
Lemma defect_does_not_halt_walk :
  orch_agents defective_orchestrator PLANNER (sample_world empty_config)
    = Raised "defect" (sample_world empty_config)
  /\ exists w',
       walk defective_orchestrator 3 (AgentNode PLANNER) [] (sample_world empty_config)
         = Some (Returned [AgentNode PLANNER; RouterNode] w')
       /\ status (pstate w') = FAILED
       /\ List.length (errors (pstate w')) = 1.
Proof.
  split; [reflexivity|].
  eexists. split; [vm_compute; reflexivity|]. split; reflexivity.
Qed.

(** ** What one invocation of a stage writes *)

Ltac stage_done :=
  eexists _, _, _; split; [reflexivity|]; simpl_state;
  split; [intros k Hk; cbn in Hk;
          repeat (rewrite lookup_insert_ne
                    by (intros Heq; apply Hk; rewrite <- Heq; set_solver));
          reflexivity|];
  split; [first [reflexivity | symmetry; apply app_nil_r]|];
  split; [simpl; lia|];
  split; [apply dict_get_set_eq|];
  rewrite as_status_updated_entry;
  first [discriminate
        | intros _; split; [|reflexivity];
          repeat (rewrite lookup_insert_ne by done); rewrite lookup_insert_eq; eauto].

(** C8, as the code has it.  An invocation of a stage returns; it writes
    no key of [intermediate_results] other than the result key of the
    stage and, for the Validator, the retry flag; it appends at most one
    message; and when it leaves the agent state COMPLETED it has written
    its result key and appended exactly one message. *)
Theorem stage_writes_own_keys_and_one_message env self w :
  exists w' l a,
    execute env self w = Returned tt w'
    /\ (forall k, k ∉ owned_keys (self_type self) ->
          intermediate_results (pstate w') !! k = intermediate_results (pstate w) !! k)
    /\ messages (pstate w') = messages (pstate w) ++ l
    /\ List.length l <= 1
    /\ dict_get (self_id self) (agent_states (pstate w')) = Some a
    /\ (as_status a = COMPLETED ->
          is_Some (intermediate_results (pstate w') !! result_key (self_type self))
          /\ List.length l = 1).
Proof.
  unfold_stage.
  destruct (self_type self) eqn:Ht; unfold_calls; simpl_state.
  - destruct (llm env (llm_calls w)) as [text|msg]; simpl_state; [|stage_done].
    destruct (py_len _); simpl_state; stage_done.
  - destruct (llm env (llm_calls w)) as [text|msg]; simpl_state; stage_done.
  - destruct (llm env (llm_calls w)) as [text|msg]; simpl_state; stage_done.
  - destruct (llm env (llm_calls w)) as [text|msg]; simpl_state; stage_done.
  - destruct (llm env (llm_calls w)) as [text|msg]; simpl_state; [|stage_done].
    match goal with |- context [if ?b then _ else _] => destruct b end; simpl_state;
      stage_done.
  - destruct (identify_actions _) as [|action actions]; simpl_state.
    + stage_done.
    + match goal with |- context [execute_actions env ?l ?w0] =>
        destruct (execute_actions_returns env l w0) as (rs & n & Hrs); rewrite Hrs end.
      simpl_state. stage_done.
  - destruct (llm env (llm_calls w)) as [text|msg]; simpl_state; stage_done.
Qed.

(** C8, as claimed, fails: on a failed validation with retries left, one
    invocation of the Validator writes two keys, "validation" and
    "needs_retry". *)
Lemma validator_writes_two_keys :
  let env := sample_env (always_reply low_scores_text) in
  let w := sample_world empty_config in
  let w' := world_after (execute env (sample_validator empty_config) w) in
  intermediate_results (pstate w) !! "validation" = None
  /\ intermediate_results (pstate w) !! "needs_retry" = None
  /\ is_Some (intermediate_results (pstate w') !! "validation")
  /\ intermediate_results (pstate w') !! "needs_retry" = Some (PBool true)
  /\ retry_count (pstate w') = 1%Z.
Proof.
  cbv zeta. split; [reflexivity|]. split; [reflexivity|].
  split; [vm_compute; eauto|]. split; vm_compute; reflexivity.
Qed.

(** ** The router *)

Lemma get_truthy_absent key (d : gmap string Payload) :
  d !! key = None -> get_truthy key d = false.
Proof. intros H. unfold get_truthy. rewrite H. reflexivity. Qed.

(** When the retry rule does not fire, the router decides between the
    executor and the end. *)
Lemma route_without_retry_eq o s :
  intermediate_results s !! "needs_retry" = None
  \/ (default 3 (max_retries (orch_config o)) <= retry_count s)%Z ->
  route_after_validation o s
  = if validation_passed (intermediate_results s)
       && synthesis_has_work (intermediate_results s)
    then "executor" else "end".
Proof.
  intros Hrule. unfold route_after_validation.
  destruct Hrule as [Hunset|Hmax].
  - rewrite (get_truthy_absent _ _ Hunset). reflexivity.
  - replace (retry_count s <? default 3 (max_retries (orch_config o)))%Z with false
      by (symmetry; apply Z.ltb_ge; exact Hmax).
    rewrite andb_false_r. reflexivity.
Qed.

Lemma validation_passed_spec s :
  validation_typed s ->
  validation_passed (intermediate_results s) = true
  <-> validation_absent_or_passed (intermediate_results s).
Proof.
  intros Hty. unfold validation_passed, validation_absent_or_passed.
  destruct (intermediate_results s !! "validation") as [p|] eqn:Hv.
  - destruct (Hty p Hv) as [v ->]. split.
    + intros Hp. right. eauto.
    + intros [Hnone|(v' & Heq & Hp)]; [discriminate|]. congruence.
  - split; [left; reflexivity|reflexivity].
Qed.

Lemma synthesis_has_work_spec (d : gmap string Payload) :
  synthesis_has_work d = true <-> synthesis_has_items d.
Proof.
  unfold synthesis_has_work, synthesis_has_items.
  destruct (d !! "synthesis") as [p|].
  - destruct p; try (split; [discriminate|intros (syn & Heq & _); discriminate]).
    destruct (actionable_items s) eqn:Ha, (next_steps_items s) eqn:Hn; split;
      try discriminate; try reflexivity.
    + intros (syn & [= <-] & [H|H]); congruence.
    + intros _. exists s. split; [reflexivity|]. right. rewrite Hn. discriminate.
    + intros _. exists s. split; [reflexivity|]. left. rewrite Ha. discriminate.
    + intros _. exists s. split; [reflexivity|]. left. rewrite Ha. discriminate.
  - split; [discriminate|intros (syn & Heq & _); discriminate].
Qed.

(** C6.  In a state in which the retry rule does not fire (the retry flag
    is unset, or the retry count has reached the maximum the router
    reads), the router returns "executor" exactly when the recorded
    validation is absent or passed and the synthesis has actionable items
    or next steps, and "end" in every other such state. *)
Theorem route_without_retry o s :
  validation_typed s ->
  intermediate_results s !! "needs_retry" = None
  \/ (default 3 (max_retries (orch_config o)) <= retry_count s)%Z ->
  (validation_absent_or_passed (intermediate_results s)
   /\ synthesis_has_items (intermediate_results s) ->
   route_after_validation o s = "executor")
  /\ (~ (validation_absent_or_passed (intermediate_results s)
         /\ synthesis_has_items (intermediate_results s)) ->
      route_after_validation o s = "end").
Proof.
  intros Hty Hrule. rewrite (route_without_retry_eq o s Hrule).
  pose proof (validation_passed_spec s Hty) as Hv.
  pose proof (synthesis_has_work_spec (intermediate_results s)) as Hs.
  destruct (validation_passed (intermediate_results s));
    destruct (synthesis_has_work (intermediate_results s)); cbn [andb]; split;
    try reflexivity.
  - intros Hnot. exfalso. apply Hnot. split; [apply Hv|apply Hs]; reflexivity.
  - intros [_ H]. apply Hs in H. discriminate.
  - intros [H _]. apply Hv in H. discriminate.
  - intros [H _]. apply Hv in H. discriminate.
Qed.

Lemma route_without_retry_witness :
  let o := sample_orchestrator (always_reply "ok") empty_config in
  let s := pstate (with_results {["synthesis" := PSynthesis sample_synthesis]}
                     (sample_world empty_config)) in
  (validation_absent_or_passed (intermediate_results s)
   /\ synthesis_has_items (intermediate_results s) ->
   route_after_validation o s = "executor")
  /\ (~ (validation_absent_or_passed (intermediate_results s)
         /\ synthesis_has_items (intermediate_results s)) ->
      route_after_validation o s = "end").
Proof.
  apply (route_without_retry
           (sample_orchestrator (always_reply "ok") empty_config)
           (pstate (with_results {["synthesis" := PSynthesis sample_synthesis]}
                      (sample_world empty_config)))).
  - intros p Hp. vm_compute in Hp. discriminate.
  - left. reflexivity.
Defined.

(** C4: where the code departs from the claim.  With the shipped custom
    configuration, [pipeline.max_retries] is 2, but the router and the
    Validator read the top-level key "max_retries", which is absent, and
    fall back to 3: at a retry count of 2 the router still returns
    "researcher", and a failed validation raises the retry count to 3. *)
Theorem retry_bound_ignores_pipeline_max_retries :
  let o := sample_orchestrator (always_reply low_scores_text) custom_config in
  let w := with_retry_count 2
             (with_results {["needs_retry" := PBool true]} (sample_world custom_config)) in
  let w' := world_after (execute (sample_env (always_reply low_scores_text))
                           (sample_validator custom_config) w) in
  configured_max_retries (orch_config o) = 2%Z
  /\ retry_count (pstate w) = 2%Z
  /\ route_after_validation o (pstate w) = "researcher"
  /\ retry_count (pstate w') = 3%Z.
Proof. cbv zeta. repeat split; vm_compute; reflexivity. Qed.

(** X30.  Nothing reads the [enabled] flag of a stage.  With the shipped
    custom configuration the executor is disabled, and yet, in a state
    that holds a synthesis with an actionable item, the router returns
    "executor" and the walk from the router visits the executor and the
    reviewer.  No run reaches such a state at the router: the walk of a
    run ends at the router's first decision, before any synthesis. *)
Theorem router_ignores_disabled_executor :
  let o := sample_orchestrator (always_reply "ok") custom_config in
  let w := with_results {["synthesis" := PSynthesis sample_synthesis]}
             (sample_world custom_config) in
  configured_enabled (orch_config o) "executor" = false
  /\ route_after_validation o (pstate w) = "executor"
  /\ exists w',
       walk o 4 RouterNode [] w
       = Some (Returned [RouterNode; AgentNode EXECUTOR; AgentNode REVIEWER] w').
Proof.
  cbv zeta. split; [vm_compute; reflexivity|]. split; [vm_compute; reflexivity|].
  eexists. vm_compute. reflexivity.
Qed.

(** The decision of the router depends on the configuration through the
    top-level key "max_retries" alone. *)
Lemma route_after_validation_reads_max_retries_only o o' s :
  max_retries (orch_config o) = max_retries (orch_config o') ->
  route_after_validation o s = route_after_validation o' s.
Proof. intros H. unfold route_after_validation. rewrite H. reflexivity. Qed.

(** ** The Validator on a response without scores *)

Lemma extract_criteria_scores_default env text :
  (forall c, c ∈ criteria -> re_search_score c text = None) ->
  extract_criteria_scores env text = map (fun c => (c, 0.7%float)) criteria.
Proof.
  intros Hnone. unfold extract_criteria_scores, criteria in *. cbn [map].
  rewrite !Hnone by set_solver. reflexivity.
Qed.

(** C10.  When no criterion score can be parsed from the response of the
    language model, the Validator gives each of the five criteria the
    score 0.7; the overall score is exactly 0.7; the validation is
    recorded as passed; and under the default minimum score the retry
    count and the retry flag are left as they were. *)
Theorem unparseable_validation_passes env self w text :
  llm env (llm_calls w) = Reply text ->
  (forall c, c ∈ criteria -> re_search_score c text = None) ->
  default 0.7%float (min_score (self_config self)) = 0.7%float ->
  exists w' v,
    validator_execute env self w = Returned tt w'
    /\ intermediate_results (pstate w') !! "validation" = Some (PValidation v)
    /\ criteria_scores v = map (fun c => (c, 0.7%float)) criteria
    /\ overall_score v = 0.7%float
    /\ passed v = true
    /\ retry_count (pstate w') = retry_count (pstate w)
    /\ intermediate_results (pstate w') !! "needs_retry"
       = intermediate_results (pstate w) !! "needs_retry".
Proof.
  intros Hllm Hnone Hmin. unfold validator_execute. unfold_calls. simpl_state.
  rewrite Hllm. simpl_state. rewrite Hmin.
  rewrite (extract_criteria_scores_default env text Hnone).
  change (float_ge
            (py_sum (map snd (map (fun c => (c, 0.7%float)) criteria))
               / float_of_nat (List.length (map (fun c => (c, 0.7%float)) criteria)))
            0.7)%float with true.
  cbn [negb andb]. simpl_state.
  eexists _, _. split; [reflexivity|]. simpl_state.
  split; [apply lookup_insert_eq|]. simpl_state.
  split; [reflexivity|]. split; [vm_compute; reflexivity|].
  split; [vm_compute; reflexivity|]. split; [reflexivity|].
  apply lookup_insert_ne. discriminate.
Qed.

Lemma unparseable_validation_passes_witness :
  exists w' v,
    validator_execute (sample_env (always_reply ""))
      (sample_validator empty_config) (sample_world empty_config) = Returned tt w'
    /\ intermediate_results (pstate w') !! "validation" = Some (PValidation v)
    /\ criteria_scores v = map (fun c => (c, 0.7%float)) criteria
    /\ overall_score v = 0.7%float
    /\ passed v = true
    /\ retry_count (pstate w') = 0%Z
    /\ intermediate_results (pstate w') !! "needs_retry" = None.
Proof.
  apply (unparseable_validation_passes (sample_env (always_reply ""))
           (sample_validator empty_config) (sample_world empty_config) "").
  - reflexivity.
  - intros c Hc. unfold criteria in Hc.
    repeat (apply elem_of_cons in Hc as [->|Hc]; [vm_compute; reflexivity|]).
    apply elem_of_nil in Hc. contradiction.
  - reflexivity.
Defined.

(** ** The walk of a run *)

Lemma record_call_world monitor c w :
  world_after (record_call monitor c w) = w.
Proof.
  unfold record_call.
  destruct (monitor_enabled monitor); [destruct (monitor_fault monitor c)|]; reflexivity.
Qed.

(** With nothing recorded but a plan, the router sends the walk to END. *)
Lemma route_end_after_planner o s :
  (forall k, k ∉ ["execution_plan"] -> intermediate_results s !! k = None) ->
  route_after_validation o s = "end".
Proof.
  intros Hframe. unfold route_after_validation.
  rewrite (get_truthy_absent "needs_retry")
    by (apply Hframe; rewrite list_elem_of_singleton; discriminate).
  unfold synthesis_has_work.
  rewrite (Hframe "synthesis") by (rewrite list_elem_of_singleton; discriminate).
  rewrite andb_false_r. reflexivity.
Qed.

(** The end of [run] keeps the list of visited nodes, and sets the status
    when it returns. *)
Lemma finish_run_returned o r visited w :
  finish_run o r = Returned visited w ->
  exists w2, r = Returned visited w2
    /\ pstate w = set_status COMPLETED (pstate w2).
Proof.
  unfold finish_run. destruct r as [visited2 w2|e w2].
  - unfold_calls. simpl_state.
    destruct (monitor_enabled (orch_monitor o)); [|intros [= <- <-]; eauto].
    destruct (monitor_fault (orch_monitor o) (RecordPipelineCompletion true)).
    + destruct (monitor_fault (orch_monitor o) (RecordPipelineCompletion false));
        discriminate.
    + intros [= <- <-]. eauto.
  - unfold_calls.
    destruct (monitor_enabled (orch_monitor o)); [|discriminate].
    destruct (monitor_fault (orch_monitor o) (RecordPipelineCompletion false));
      discriminate.
Qed.

Lemma planner_node_same_outside env built fault cfg :
  respects (same_outside ["execution_plan"])
    (agent_node (new_orchestrator env built fault cfg) PLANNER).
Proof.
  apply agent_node_respects; try tc_solve.
  - apply (execute_same_outside env (initialize_agent cfg built PLANNER)).
  - intros v s k Hk. reflexivity.
  - intros v s k Hk. reflexivity.
  - intros v s k Hk. reflexivity.
  - intros v s k Hk. reflexivity.
Qed.

(** From a state with no intermediate results, the walk visits the
    planner and the router and reaches END. *)
Lemma walk_from_empty_results env built fault cfg fuel w :
  intermediate_results (pstate w) = ∅ ->
  let o := new_orchestrator env built fault cfg in
  (exists e w', ainvoke o (3 + fuel) w = Some (Raised e w'))
  \/ (exists w', ainvoke o (3 + fuel) w
                 = Some (Returned [AgentNode PLANNER; RouterNode] w')).
Proof.
  intros Hempty o. unfold ainvoke. cbn [Nat.add walk edge].
  pose proof (planner_node_same_outside env built fault cfg w) as Hframe.
  fold o in Hframe.
  destruct (agent_node o PLANNER w) as [[] w1|e w1]; [|left; eauto].
  cbn [world_after] in Hframe. right. unfold router, mret, M_ret. cbn zeta.
  rewrite !route_after_update, (route_end_after_planner o (pstate w1)).
  - cbn. eauto.
  - intros k Hk. rewrite (Hframe k Hk), Hempty. apply lookup_empty.
Qed.

Lemma walk_visited_extends o fuel :
  forall node visited w visited' w',
    walk o fuel node visited w = Some (Returned visited' w') ->
    exists l, visited' = visited ++ l.
Proof.
  induction fuel as [|fuel IH]; intros node visited w visited' w' Hwalk;
    destruct node as [t| |]; cbn [walk] in Hwalk; try discriminate;
    try (injection Hwalk as <- <-; exists []; symmetry; apply app_nil_r).
  - destruct (agent_node o t w) as [[] w1|e w1]; [|discriminate].
    apply IH in Hwalk as [l ->]. exists ([AgentNode t] ++ l). symmetry. apply app_assoc.
  - unfold router, mret, M_ret in Hwalk. cbn zeta in Hwalk.
    destruct (conditional_edge _) as [next|]; [|discriminate].
    apply IH in Hwalk as [l ->]. exists ([RouterNode] ++ l). symmetry. apply app_assoc.
Qed.

(** Along a walk that does not visit the reviewer, [final_result] stays
    as it was. *)
Lemma walk_keeps_final_result o :
  (forall t, t <> REVIEWER -> respects (same_field final_result) (orch_agents o t)) ->
  forall fuel node visited w visited' w',
    walk o fuel node visited w = Some (Returned visited' w') ->
    AgentNode REVIEWER ∉ visited' ->
    final_result (pstate w') = final_result (pstate w).
Proof.
  intros Hagents. induction fuel as [|fuel IH];
    intros node visited w visited' w' Hwalk Hnot;
    destruct node as [t| |]; cbn [walk] in Hwalk; try discriminate;
    try (injection Hwalk as <- <-; reflexivity).
  - assert (t <> REVIEWER) as Ht.
    { intros ->. destruct (agent_node o REVIEWER w) as [[] w1|e w1]; [|discriminate].
      apply walk_visited_extends in Hwalk as [l ->]. apply Hnot.
      apply elem_of_app. left. apply elem_of_app. right. apply list_elem_of_singleton.
      reflexivity. }
    assert (respects (same_field final_result) (agent_node o t)) as Hnode.
    { apply agent_node_respects; try tc_solve; [apply Hagents, Ht|..];
        intros v s; reflexivity. }
    specialize (Hnode w).
    destruct (agent_node o t w) as [[] w1|e w1]; [|discriminate].
    cbn [world_after] in Hnode. unfold same_field in Hnode. rewrite <- Hnode.
    exact (IH _ _ _ _ _ Hwalk Hnot).
  - unfold router, mret, M_ret in Hwalk. cbn zeta in Hwalk.
    destruct (conditional_edge _) as [next|]; [|discriminate].
    exact (IH _ _ _ _ _ Hwalk Hnot).
Qed.

(** C3, as the code has it.  Every state [run] returns has the status
    COMPLETED, which [run] sets after the walk whatever happened in it;
    [final_result] is set only if the walk visited the reviewer. *)
Theorem returned_state_is_completed env built fault cfg fuel uuid task0 context0 config0
    visited w :
  run (new_orchestrator env built fault cfg) fuel uuid task0 context0 config0
    = Some (Returned visited w) ->
  status (pstate w) = COMPLETED
  /\ (final_result (pstate w) <> None -> AgentNode REVIEWER ∈ visited).
Proof.
  set (o := new_orchestrator env built fault cfg). unfold run.
  match goal with |- context [record_call ?m ?c ?w0] =>
    pose proof (record_call_world m c w0) as Hw;
    destruct (record_call m c w0) as [[] w1|e w1] end; [|discriminate].
  cbn [world_after] in Hw. subst w1.
  unfold ainvoke.
  match goal with |- context [walk o fuel ?n ?v ?w0] =>
    destruct (walk o fuel n v w0) as [r|] eqn:Hwalk end; [|discriminate].
  cbn [fmap option_fmap option_map]. intros [= Hfinish].
  apply finish_run_returned in Hfinish as (w2 & -> & Hstate).
  rewrite Hstate. split; [reflexivity|]. simpl_state. intros Hset.
  destruct (decide (AgentNode REVIEWER ∈ visited)) as [Hin|Hnot]; [exact Hin|].
  exfalso. apply Hset.
  assert (forall t, t <> REVIEWER ->
            respects (same_field final_result) (orch_agents o t)) as Hagents.
  { intros t Ht.
    apply (execute_same_final_result env (initialize_agent cfg built t)), Ht. }
  rewrite (walk_keeps_final_result o Hagents _ _ _ _ _ _ Hwalk Hnot). reflexivity.
Qed.

Lemma returned_state_is_completed_witness :
  exists visited w,
    run (sample_orchestrator (always_reply "ok") empty_config) 3 "run-1"
      "summarise the report" None None = Some (Returned visited w)
    /\ status (pstate w) = COMPLETED
    /\ (final_result (pstate w) <> None -> AgentNode REVIEWER ∈ visited).
Proof.
  eexists _, _. split; [vm_compute; reflexivity|].
  apply (returned_state_is_completed (sample_env (always_reply "ok"))
           built_at_zero no_fault empty_config 3 "run-1" "summarise the report"
           None None).
  vm_compute. reflexivity.
Defined.

(** C3, as claimed, fails: this run returns a state whose status is
    COMPLETED and whose [final_result] is null. *)
Lemma completed_without_final_result :
  exists visited w,
    run (sample_orchestrator (always_reply "ok") empty_config) 3 "run-1"
      "summarise the report" None None = Some (Returned visited w)
    /\ status (pstate w) = COMPLETED
    /\ final_result (pstate w) = None.
Proof.
  eexists _, _. split; [vm_compute; reflexivity|]. split; reflexivity.
Qed.

(** ** The monitor *)

Lemma silence_is_quiet o c : quiet (orch_monitor (silence o)) c.
Proof. left. reflexivity. Qed.

Lemma agent_node_silence o t w :
  (forall c, quiet (orch_monitor o) c) ->
  agent_node o t w = agent_node (silence o) t w.
Proof.
  intros Hq. destruct (orch_agents o t w) as [[] w1|e w1] eqn:Hrun.
  - rewrite (agent_node_returned o t w w1 Hrun (Hq _) (Hq _)).
    rewrite (agent_node_returned (silence o) t w w1 Hrun
               (silence_is_quiet o _) (silence_is_quiet o _)).
    reflexivity.
  - rewrite (agent_node_raised o t w e w1 Hrun (Hq _) (Hq _)).
    rewrite (agent_node_raised (silence o) t w e w1 Hrun
               (silence_is_quiet o _) (silence_is_quiet o _)).
    reflexivity.
Qed.

Lemma agent_node_start_fault o t w e :
  monitor_enabled (orch_monitor o) = true ->
  monitor_fault (orch_monitor o) (RecordAgentStart (agent_value t)) = Some e ->
  agent_node o t w = Raised e w.
Proof.
  intros Hon He. unfold agent_node, mbind, M_bind, record_call.
  rewrite Hon, He. reflexivity.
Qed.

Lemma walk_silence o :
  (forall c, quiet (orch_monitor o) c) ->
  forall fuel node visited w,
    walk o fuel node visited w = walk (silence o) fuel node visited w.
Proof.
  intros Hq. induction fuel as [|fuel IH]; intros node visited w; [reflexivity|].
  cbn [walk]. destruct node as [t| |]; [| |reflexivity].
  - rewrite <- (agent_node_silence o t w Hq).
    destruct (agent_node o t w) as [[] w1|e w1]; [apply IH|reflexivity].
  - unfold router, mret, M_ret.
    change (route_after_validation (silence o) (pstate w))
      with (route_after_validation o (pstate w)).
    destruct (conditional_edge _); [apply IH|reflexivity].
Qed.

Lemma finish_run_silence o r :
  (forall c, quiet (orch_monitor o) c) ->
  finish_run o r = finish_run (silence o) r.
Proof.
  intros Hq. unfold finish_run, try_except, mbind, M_bind, modify_state.
  destruct r as [visited w|e w].
  - rewrite (record_call_quiet _ _ _ (Hq _)).
    rewrite (record_call_quiet _ _ _ (silence_is_quiet o _)).
    reflexivity.
  - rewrite (record_call_quiet _ _ _ (Hq _)).
    rewrite (record_call_quiet _ _ _ (silence_is_quiet o _)).
    reflexivity.
Qed.

(** C9, as the code has it.  A recording call that raises is not
    swallowed: when [record_pipeline_start], or [record_agent_start] for
    the planner, raises, [run] raises.  The monitor leaves the outcome of
    the run alone only when its recording calls return, as those of a
    disabled monitor do: the run is then the one of the orchestrator with
    recording switched off. *)
Theorem monitor_failure_is_not_swallowed o fuel uuid task0 context0 config0 :
  ((forall c, quiet (orch_monitor o) c) ->
   run o fuel uuid task0 context0 config0
   = run (silence o) fuel uuid task0 context0 config0)
  /\ (monitor_enabled (orch_monitor o) = true ->
      monitor_fault (orch_monitor o) RecordPipelineStart <> None
      \/ monitor_fault (orch_monitor o) (RecordAgentStart "planner") <> None ->
      exists e w, run o (S fuel) uuid task0 context0 config0 = Some (Raised e w)).
Proof.
  split.
  - intros Hq. unfold run.
    rewrite (record_call_quiet _ _ _ (Hq _)).
    rewrite (record_call_quiet _ _ _ (silence_is_quiet o _)).
    unfold ainvoke. cbn [orch_config silence].
    rewrite <- (walk_silence o Hq).
    destruct (walk o fuel _ _ _) as [r|]; [|reflexivity].
    cbn [fmap option_fmap option_map]. rewrite (finish_run_silence o r Hq). reflexivity.
  - intros Hon Hfault. unfold run.
    unfold record_call at 1. rewrite Hon.
    destruct (monitor_fault (orch_monitor o) RecordPipelineStart) as [e|] eqn:Hstart.
    + cbn. eauto.
    + destruct Hfault as [Hfault|Hfault]; [contradiction|].
      destruct (monitor_fault (orch_monitor o) (RecordAgentStart "planner")) as [e|] eqn:He;
        [|contradiction].
      unfold mret, M_ret, ainvoke. cbn [walk].
      rewrite (agent_node_start_fault o PLANNER _ e Hon He).
      cbn [fmap option_fmap option_map finish_run].
      unfold mbind, M_bind, raise.
      destruct (record_call _ _ _); eauto.
Qed.

Lemma monitor_failure_is_not_swallowed_witness :
  exists e w,
    run faulty_monitor_orchestrator 3 "run-1" "summarise the report" None None
    = Some (Raised e w).
Proof.
  apply (monitor_failure_is_not_swallowed faulty_monitor_orchestrator 2 "run-1"
           "summarise the report" None None).
  - reflexivity.
  - right. discriminate.
Defined.

(** C9, as claimed, fails: the same run returns under a monitor that
    records without fault, and raises under a monitor whose
    [record_agent_start] raises. *)
Lemma monitor_failure_fails_run :
  (exists visited w,
     run (sample_orchestrator (always_reply "ok") empty_config) 3 "run-1"
       "summarise the report" None None = Some (Returned visited w))
  /\ (exists w,
        run faulty_monitor_orchestrator 3 "run-1" "summarise the report" None None
        = Some (Raised "metrics store down" w)).
Proof.
  split; [eexists _, _|eexists]; vm_compute; reflexivity.
Qed.

(** ** The retry loop on its own

    [run] never enters the loop from researcher to validator, because the
    router's first decision is "end".  Entered with the retry flag set,
    the loop is not bounded by the retry count: the flag is never cleared
    and the count moves only on a failed validation.  With the language
    model down, each stage of the loop records its failure and the router
    returns "researcher" again, until the recursion limit of the engine
    ends the walk. *)

Lemma retry_loop_node_step built t w :
  let o := new_orchestrator (sample_env always_down) built no_fault empty_config in
  t <> EXECUTOR ->
  retry_pending w ->
  exists w', agent_node o t w = Returned tt w' /\ retry_pending w'.
Proof.
  intros o Ht [Hflag Hcount].
  destruct (execute_llm_error (sample_env always_down)
              (initialize_agent empty_config built t) w "connection refused" Ht eq_refl)
    as (w1 & now & a & Hrun & _ & _ & _ & _ & _ & Hresults & Hretry).
  eexists. split.
  - apply (agent_node_returned o t w w1 Hrun); right; reflexivity.
  - split; simpl_state; congruence.
Qed.

Lemma retry_loop_hits_recursion_limit built fuel :
  let o := new_orchestrator (sample_env always_down) built no_fault empty_config in
  forall node visited w,
    in_retry_loop node -> retry_pending w ->
    exists w', walk o fuel node visited w = Some (Raised GraphRecursionError w').
Proof.
  intros o. induction fuel as [|fuel IH]; intros node visited w Hloop Hpending.
  - destruct Hloop as [->|(t & -> & _)]; cbn [walk]; eauto.
  - destruct Hloop as [->|(t & -> & Hex & Hrev & Hplan)]; cbn [walk].
    + unfold router, mret, M_ret. cbn zeta. rewrite route_after_update.
      unfold route_after_validation, get_truthy.
      destruct Hpending as [Hflag Hcount]. rewrite Hflag.
      cbn [payload_truthy orch_config o new_orchestrator max_retries empty_config default
           from_option].
      replace (retry_count (pstate w) <? 3)%Z with true
        by (symmetry; apply Z.ltb_lt, Hcount).
      cbn [andb conditional_edge]. change (conditional_edge "researcher")
        with (Some (AgentNode RESEARCHER)). cbn iota.
      apply IH; [|split; assumption].
      right. exists RESEARCHER. repeat split; discriminate.
    + destruct (retry_loop_node_step built t w Hex Hpending) as (w' & Hnode & Hpending').
      fold o in Hnode. rewrite Hnode. apply IH; [|exact Hpending'].
      destruct t; try contradiction; cbn [edge];
        [right; exists ANALYZER|right; exists SYNTHESIZER|right; exists VALIDATOR|left];
        try reflexivity; repeat split; discriminate.
Qed.

(** * Further properties of the state, the stages, the walk, the pipeline
    and the metrics store *)

#[local] Instance logs_extended_preorder : PreOrder logs_extended.
Proof.
  split.
  - intros s. split; exists []; symmetry; apply app_nil_r.
  - intros a b c [[l1 H1] [m1 G1]] [[l2 H2] [m2 G2]]. split.
    + exists (l1 ++ l2). rewrite H2, H1. symmetry. apply app_assoc.
    + exists (m1 ++ m2). rewrite G2, G1. symmetry. apply app_assoc.
Qed.

#[local] Instance retry_bounded_preorder : PreOrder retry_bounded.
Proof.
  split.
  - intros s. unfold retry_bounded. repeat split; lia.
  - intros a b c (Hc1 & Hm1 & Hb1) (Hc2 & Hm2 & Hb2). unfold retry_bounded, retry_limit in *.
    rewrite Hc1 in *. repeat split; [congruence|lia|lia].
Qed.

#[local] Instance keeps_retry_flag_preorder : PreOrder keeps_retry_flag.
Proof.
  split; [intros s H; exact H|].
  intros a b c H1 H2 H. apply H2, H1, H.
Qed.

Ltac respects_any_stage :=
  repeat first [respects_step | apply execute_actions_respects; tc_solve].

(** ** The agent states *)

(** X1.  After [update_agent_state] the agent has an entry with the status
    given, and the entry of every other agent is as it was. *)
Theorem update_agent_state_lookup now aid ty st out err s :
  (exists a, dict_get aid (agent_states (update_agent_state now aid ty st out err s)) = Some a
     /\ as_status a = st)
  /\ forall other, other <> aid ->
       dict_get other (agent_states (update_agent_state now aid ty st out err s))
       = dict_get other (agent_states s).
Proof.
  split.
  - eexists. split; [apply dict_get_set_eq|apply as_status_updated_entry].
  - intros other Hne. cbn. apply dict_get_set_ne. congruence.
Qed.

(** X2.  An update without output (none, or an empty dict) keeps the
    output, the type and the start time the agent's entry had, and the
    error too when the update carries none. *)
Theorem update_agent_state_keeps_output now aid ty st err s a :
  dict_get aid (agent_states s) = Some a ->
  forall out, truthy_dict out = false ->
  exists a', dict_get aid (agent_states (update_agent_state now aid ty st out err s)) = Some a'
    /\ output_data a' = output_data a
    /\ agent_type a' = agent_type a
    /\ as_start_time a' = as_start_time a
    /\ (truthy_str err = false -> as_error a' = as_error a).
Proof.
  intros Hget out Hout. eexists. split; [apply dict_get_set_eq|].
  rewrite Hget. cbn. rewrite Hout. repeat split. intros ->. reflexivity.
Qed.

Lemma update_agent_state_keeps_output_witness :
  exists a a',
    dict_get "synthesizer_0" (agent_states (pstate after_synthesizer)) = Some a
    /\ dict_get "synthesizer_0"
         (agent_states
            (update_agent_state 9 "synthesizer_0" SYNTHESIZER RUNNING (Some []) None
               (pstate after_synthesizer))) = Some a'
    /\ output_data a' = output_data a
    /\ agent_type a' = agent_type a
    /\ as_start_time a' = as_start_time a
    /\ (truthy_str None = false -> as_error a' = as_error a).
Proof.
  eexists.
  destruct (update_agent_state_keeps_output 9 "synthesizer_0" SYNTHESIZER RUNNING None
              (pstate after_synthesizer) _ ltac:(vm_compute; reflexivity) (Some [])
              ltac:(reflexivity)) as (a' & H).
  exists a'. split; [vm_compute; reflexivity|]. exact H.
Defined.

(** ** The context of the previous agents *)

Lemma elem_of_dict_set {K V} `{EqDecision K} (k k0 : K) (v v0 : V) d :
  (k, v) ∈ dict_set k0 v0 d -> (k = k0 /\ v = v0) \/ (k, v) ∈ d.
Proof.
  induction d as [|[k' v'] d IH]; cbn.
  - intros Hin. apply list_elem_of_singleton in Hin. injection Hin as -> ->.
    left. split; reflexivity.
  - destruct (decide (k0 = k')) as [->|Hne]; intros Hin;
      apply elem_of_cons in Hin as [Hin|Hin].
    + injection Hin as -> ->. left. split; reflexivity.
    + right. right. exact Hin.
    + right. rewrite Hin. left.
    + apply IH in Hin as [Hin|Hin]; [left; exact Hin|right; right; exact Hin].
Qed.

Lemma get_context_fold_sound (states : list (string * AgentState)) :
  forall ctx0 ty d,
    dict_get ty
      (fold_left
         (fun ctx entry =>
            let a := snd entry in
            if bool_decide (as_status a = COMPLETED) && truthy_dict (output_data a)
            then dict_set (agent_type a) (default [] (output_data a)) ctx
            else ctx) states ctx0) = Some d ->
    dict_get ty ctx0 = Some d
    \/ exists aid a, (aid, a) ∈ states /\ agent_type a = ty /\ as_status a = COMPLETED
         /\ output_data a = Some d /\ d <> [].
Proof.
  induction states as [|[aid a] states IH]; intros ctx0 ty d Hget; cbn in Hget.
  - left. exact Hget.
  - apply IH in Hget as [Hget|(aid' & a' & Hin & H)].
    + destruct (bool_decide (as_status a = COMPLETED) && truthy_dict (output_data a))
        eqn:Hc; [|left; exact Hget].
      apply andb_prop in Hc as [Hst Hout]. apply bool_decide_eq_true in Hst.
      destruct (decide (agent_type a = ty)) as [Hty|Hty].
      * subst ty. rewrite dict_get_set_eq in Hget. injection Hget as <-.
        right. exists aid, a. split; [left|].
        destruct (output_data a) as [[|x l]|]; try discriminate. cbn.
        repeat split; try assumption. discriminate.
      * rewrite dict_get_set_ne in Hget by exact Hty. left. exact Hget.
    + right. exists aid', a'. split; [right; exact Hin|exact H].
Qed.

(** X3.  Every entry of the context a stage reads is the output of an
    agent of that type whose status is COMPLETED and whose output is not
    empty: running, failed and skipped agents contribute nothing. *)
Theorem context_only_from_completed_agents s ty d :
  dict_get ty (get_context_from_previous_agents s) = Some d ->
  exists aid a, (aid, a) ∈ agent_states s /\ agent_type a = ty /\ as_status a = COMPLETED
    /\ output_data a = Some d /\ d <> [].
Proof.
  intros Hget. unfold get_context_from_previous_agents in Hget.
  apply get_context_fold_sound in Hget as [Hget|H]; [discriminate|exact H].
Qed.

Lemma context_only_from_completed_agents_witness :
  exists d aid a,
    dict_get SYNTHESIZER (get_context_from_previous_agents (pstate after_synthesizer))
    = Some d
    /\ (aid, a) ∈ agent_states (pstate after_synthesizer)
    /\ agent_type a = SYNTHESIZER /\ as_status a = COMPLETED
    /\ output_data a = Some d /\ d <> [].
Proof.
  eexists.
  destruct (context_only_from_completed_agents (pstate after_synthesizer) SYNTHESIZER _
              ltac:(vm_compute; reflexivity)) as (aid & a & H).
  exists aid, a. split; [vm_compute; reflexivity|]. exact H.
Defined.

Lemma get_context_fold_keeps (states : list (string * AgentState)) :
  forall ctx0 ty,
    is_Some (dict_get ty ctx0) ->
    is_Some (dict_get ty
      (fold_left
         (fun ctx entry =>
            let a := snd entry in
            if bool_decide (as_status a = COMPLETED) && truthy_dict (output_data a)
            then dict_set (agent_type a) (default [] (output_data a)) ctx
            else ctx) states ctx0)).
Proof.
  induction states as [|[aid a] states IH]; intros ctx0 ty Hsome; cbn; [exact Hsome|].
  apply IH. destruct (_ && _); [|exact Hsome].
  destruct (decide (agent_type a = ty)) as [<-|Hne].
  - rewrite dict_get_set_eq. eauto.
  - rewrite dict_get_set_ne by exact Hne. exact Hsome.
Qed.

(** X4.  Conversely, the context has an entry for the type of every agent
    that has completed with output. *)
Theorem context_has_every_completed_type s aid a :
  (aid, a) ∈ agent_states s ->
  as_status a = COMPLETED ->
  truthy_dict (output_data a) = true ->
  is_Some (dict_get (agent_type a) (get_context_from_previous_agents s)).
Proof.
  unfold get_context_from_previous_agents.
  generalize (@nil (AgentType * list (string * Payload))).
  induction (agent_states s) as [|[aid0 a0] states IH]; intros ctx0 Hin Hst Hout.
  - apply elem_of_nil in Hin. contradiction.
  - cbn. apply elem_of_cons in Hin as [[= <- <-]|Hin].
    + rewrite Hst, Hout. rewrite bool_decide_eq_true_2 by reflexivity. cbn.
      apply get_context_fold_keeps. rewrite dict_get_set_eq. eauto.
    + apply IH; assumption.
Qed.

Lemma context_has_every_completed_type_witness :
  exists a,
    ("synthesizer_0", a) ∈ agent_states (pstate after_synthesizer)
    /\ is_Some (dict_get (agent_type a)
                  (get_context_from_previous_agents (pstate after_synthesizer))).
Proof.
  eexists. split; [vm_compute; apply list_elem_of_here|].
  apply (context_has_every_completed_type (pstate after_synthesizer) "synthesizer_0");
    [vm_compute; apply list_elem_of_here|reflexivity|reflexivity].
Defined.

(** The context a stage reads after it has logged its start has no entry
    for a type none of whose agents had completed. *)
Lemma context_after_start_none now aid ty0 ty s :
  none_completed ty s ->
  dict_get ty (get_context_from_previous_agents
                 (update_agent_state now aid ty0 RUNNING None None s)) = None.
Proof.
  intros Hnone.
  destruct (dict_get ty _) as [d|] eqn:Hget; [|reflexivity]. exfalso.
  unfold get_context_from_previous_agents in Hget.
  apply get_context_fold_sound in Hget as [Hget|(aid' & a & Hin & Hty & Hst & Hout & Hd)];
    [discriminate|].
  cbn in Hin. apply elem_of_dict_set in Hin as [[-> ->]|Hin].
  - rewrite as_status_updated_entry in Hst. discriminate.
  - specialize (Hnone aid' a Hin Hty Hst). rewrite Hout in Hnone.
    destruct d; [congruence|discriminate].
Qed.

(** ** What no stage changes *)

Section StageInvariants.
Variable env : Collaborators.

Lemma execute_same_inputs self : respects (same_field run_inputs) (execute env self).
Proof.
  unfold_stage. destruct (self_type self); respects_any_stage.
  all: intros; unfold same_field; reflexivity.
Qed.

Lemma execute_same_completed_steps self :
  respects (same_field completed_steps) (execute env self).
Proof.
  unfold_stage. destruct (self_type self); respects_any_stage.
  all: intros; unfold same_field; reflexivity.
Qed.

Lemma execute_logs_extended self : respects logs_extended (execute env self).
Proof.
  unfold_stage. destruct (self_type self); respects_any_stage.
  all: intros; split; cbn; eauto; exists []; symmetry; apply app_nil_r.
Qed.

Lemma validator_retry_bounded self : respects retry_bounded (validator_execute env self).
Proof.
  intros w. unfold validator_execute. unfold_calls. simpl_state.
  destruct (llm env (llm_calls w)) as [text|msg]; simpl_state.
  - match goal with |- context [if (negb ?a && ?b) then _ else _] =>
      destruct (negb a && b) eqn:Hretry end; simpl_state.
    + apply andb_prop in Hretry as [_ Hlt]. apply Z.ltb_lt in Hlt.
      unfold retry_bounded, retry_limit. simpl_state. repeat split; lia.
    + unfold retry_bounded. simpl_state. repeat split; lia.
  - unfold_calls. unfold retry_bounded. simpl_state. repeat split; lia.
Qed.

Lemma execute_retry_bounded self : respects retry_bounded (execute env self).
Proof.
  destruct (self_type self) eqn:Ht.
  5: { unfold execute. rewrite Ht. apply validator_retry_bounded. }
  all: unfold_stage; rewrite Ht; respects_any_stage.
  all: intros; unfold retry_bounded, retry_limit; simpl_state; repeat split; lia.
Qed.

Lemma execute_keeps_retry_flag self : respects keeps_retry_flag (execute env self).
Proof.
  unfold_stage. destruct (self_type self); respects_any_stage.
  all: intros; intros Hflag; cbn; try exact Hflag.
  all: try (rewrite lookup_insert_ne by discriminate; exact Hflag).
  apply lookup_insert_eq.
Qed.

End StageInvariants.

(** ** Invariants of the walk *)

(** A relation every node respects holds between the state a walk starts
    in and the state it ends in, whether it returns or raises. *)
Lemma walk_respects o R `{!PreOrder R} :
  (forall t, respects R (agent_node o t)) ->
  (forall s, R s (set_messages (messages s ++ messages s) s)) ->
  forall fuel node visited w r,
    walk o fuel node visited w = Some r -> R (pstate w) (pstate (world_after r)).
Proof.
  intros Hnode Hupdate.
  assert (forall w, R (pstate w) (pstate (apply_update w))) as Hstep
    by (intros w; apply Hupdate).
  induction fuel as [|fuel IH]; intros node visited w r Hwalk;
    destruct node as [t| |]; cbn [walk] in Hwalk;
    try (injection Hwalk as <-; reflexivity).
  - specialize (Hnode t w). destruct (agent_node o t w) as [[] w1|e w1];
      cbn [world_after] in Hnode.
    + etransitivity; [exact Hnode|].
      etransitivity; [apply Hstep|exact (IH _ _ _ _ Hwalk)].
    + injection Hwalk as <-. exact Hnode.
  - unfold router, mret, M_ret in Hwalk. cbn zeta in Hwalk.
    destruct (conditional_edge _) as [next|].
    + etransitivity; [apply Hstep|exact (IH _ _ _ _ Hwalk)].
    + injection Hwalk as <-. apply Hstep.
Qed.

Section PipelineInvariants.
Variables (env : Collaborators) (built : AgentType -> string)
          (fault : MonitorCall -> option string) (cfg : Config).

(** X5.  A walk of the graph, from any node and whether it returns or
    raises, leaves the inputs of the run as they were: the task, the
    caller's context, the pipeline id, the start time and the
    configuration. *)
Theorem walk_keeps_run_inputs fuel node visited w r :
  walk (new_orchestrator env built fault cfg) fuel node visited w = Some r ->
  task (pstate (world_after r)) = task (pstate w)
  /\ context (pstate (world_after r)) = context (pstate w)
  /\ pipeline_id (pstate (world_after r)) = pipeline_id (pstate w)
  /\ start_time (pstate (world_after r)) = start_time (pstate w)
  /\ config (pstate (world_after r)) = config (pstate w).
Proof.
  intros Hwalk.
  assert (same_field run_inputs (pstate w) (pstate (world_after r))) as H.
  { apply (walk_respects (new_orchestrator env built fault cfg) _) with (1 := fun t =>
      agent_node_respects (new_orchestrator env built fault cfg) _ t
        (execute_same_inputs env (initialize_agent cfg built t))
        (fun _ _ => eq_refl) (fun _ _ => eq_refl) (fun _ _ => eq_refl) (fun _ _ => eq_refl))
      (2 := fun _ => eq_refl) (3 := Hwalk). }
  unfold same_field, run_inputs in H. injection H as -> -> -> -> ->. repeat split.
Qed.

Lemma agent_node_logs_extended t :
  respects logs_extended (agent_node (new_orchestrator env built fault cfg) t).
Proof.
  unfold agent_node.
  repeat first [respects_step
               | apply (execute_logs_extended env (initialize_agent cfg built t))].
  all: intros; split; cbn; eauto; exists []; symmetry; apply app_nil_r.
Qed.

(** X6.  Along a walk [messages] and [errors] are append-only: what the
    state held at the start is a prefix of what it holds at the end. *)
Theorem walk_extends_logs fuel node visited w r :
  walk (new_orchestrator env built fault cfg) fuel node visited w = Some r ->
  (exists l, messages (pstate (world_after r)) = messages (pstate w) ++ l)
  /\ (exists l, errors (pstate (world_after r)) = errors (pstate w) ++ l).
Proof.
  intros Hwalk.
  refine (walk_respects (new_orchestrator env built fault cfg) logs_extended
            agent_node_logs_extended _ _ _ _ _ _ Hwalk).
  intros s. split; cbn; [eauto|exists []; symmetry; apply app_nil_r].
Qed.

(** X7.  Along a walk the retry count never decreases, and it never
    passes the maximum the Validator reads (top-level "max_retries" of
    the run configuration, default 3) unless it started beyond it. *)
Theorem walk_bounds_retry_count fuel node visited w r :
  walk (new_orchestrator env built fault cfg) fuel node visited w = Some r ->
  (retry_count (pstate w) <= retry_count (pstate (world_after r)))%Z
  /\ (retry_count (pstate (world_after r))
      <= Z.max (retry_count (pstate w)) (retry_limit (pstate w)))%Z.
Proof.
  intros Hwalk.
  assert (retry_bounded (pstate w) (pstate (world_after r))) as (_ & H1 & H2).
  { apply (walk_respects (new_orchestrator env built fault cfg) retry_bounded)
      with (3 := Hwalk);
      [|intros s; unfold retry_bounded, retry_limit; simpl_state; repeat split; lia].
    intros t. apply agent_node_respects; try tc_solve.
    - apply (execute_retry_bounded env (initialize_agent cfg built t)).
    - intros v s. unfold retry_bounded, retry_limit. simpl_state. repeat split; lia.
    - intros v s. unfold retry_bounded, retry_limit. simpl_state. repeat split; lia.
    - intros v s. unfold retry_bounded, retry_limit. simpl_state. repeat split; lia.
    - intros v s. unfold retry_bounded, retry_limit. simpl_state. repeat split; lia. }
  split; assumption.
Qed.

(** X8.  No node clears the retry flag: once "needs_retry" is true it is
    true for the rest of the walk, also after a validation that passes. *)
Theorem walk_keeps_retry_flag fuel node visited w r :
  walk (new_orchestrator env built fault cfg) fuel node visited w = Some r ->
  intermediate_results (pstate w) !! "needs_retry" = Some (PBool true) ->
  intermediate_results (pstate (world_after r)) !! "needs_retry" = Some (PBool true).
Proof.
  intros Hwalk.
  apply (walk_respects (new_orchestrator env built fault cfg) keeps_retry_flag)
    with (3 := Hwalk); [|intros s H; exact H].
  intros t. apply agent_node_respects; try tc_solve.
  - apply (execute_keeps_retry_flag env (initialize_agent cfg built t)).
  - intros v s H. exact H.
  - intros v s H. exact H.
  - intros v s H. exact H.
  - intros v s H. exact H.
Qed.

End PipelineInvariants.

Lemma walk_keeps_run_inputs_witness :
  exists r,
    walk (sample_orchestrator (always_reply high_scores_text) empty_config) 20
      (AgentNode RESEARCHER) [] (sample_world empty_config) = Some r
    /\ task (pstate (world_after r)) = task (pstate (sample_world empty_config))
    /\ context (pstate (world_after r)) = context (pstate (sample_world empty_config))
    /\ pipeline_id (pstate (world_after r)) = pipeline_id (pstate (sample_world empty_config))
    /\ start_time (pstate (world_after r)) = start_time (pstate (sample_world empty_config))
    /\ config (pstate (world_after r)) = config (pstate (sample_world empty_config)).
Proof.
  eexists. split; [vm_compute; reflexivity|].
  apply (walk_keeps_run_inputs (sample_env (always_reply high_scores_text)) built_at_zero
           no_fault empty_config 20 (AgentNode RESEARCHER) []).
  vm_compute. reflexivity.
Defined.

Lemma walk_extends_logs_witness :
  exists r,
    walk (sample_orchestrator (always_reply high_scores_text) empty_config) 20
      (AgentNode RESEARCHER) [] (sample_world empty_config) = Some r
    /\ (exists l, messages (pstate (world_after r))
                  = messages (pstate (sample_world empty_config)) ++ l)
    /\ (exists l, errors (pstate (world_after r))
                  = errors (pstate (sample_world empty_config)) ++ l).
Proof.
  eexists. split; [vm_compute; reflexivity|].
  apply (walk_extends_logs (sample_env (always_reply high_scores_text)) built_at_zero
           no_fault empty_config 20 (AgentNode RESEARCHER) []).
  vm_compute. reflexivity.
Defined.

Lemma walk_bounds_retry_count_witness :
  exists r,
    walk (sample_orchestrator (always_reply low_scores_text) empty_config) 5
      (AgentNode RESEARCHER) [] (sample_world empty_config) = Some r
    /\ (retry_count (pstate (sample_world empty_config))
        <= retry_count (pstate (world_after r)))%Z
    /\ (retry_count (pstate (world_after r))
        <= Z.max (retry_count (pstate (sample_world empty_config)))
                 (retry_limit (pstate (sample_world empty_config))))%Z.
Proof.
  eexists. split; [vm_compute; reflexivity|].
  apply (walk_bounds_retry_count (sample_env (always_reply low_scores_text)) built_at_zero
           no_fault empty_config 5 (AgentNode RESEARCHER) []).
  vm_compute. reflexivity.
Defined.

Lemma walk_keeps_retry_flag_witness :
  exists r,
    walk (sample_orchestrator (always_reply high_scores_text) (with_max_retries 0)) 20
      (AgentNode VALIDATOR) [] (retrying_world (with_max_retries 0)) = Some r
    /\ intermediate_results (pstate (world_after r)) !! "needs_retry" = Some (PBool true).
Proof.
  eexists. split; [vm_compute; reflexivity|].
  apply (walk_keeps_retry_flag (sample_env (always_reply high_scores_text)) built_at_zero
           no_fault (with_max_retries 0) 20 (AgentNode VALIDATOR) []
           (retrying_world (with_max_retries 0))).
  - vm_compute. reflexivity.
  - vm_compute. reflexivity.
Defined.

(** ** The router *)

(** The router names one of its three branches. *)
Lemma route_after_validation_label o s :
  route_after_validation o s = "researcher"
  \/ route_after_validation o s = "executor"
  \/ route_after_validation o s = "end".
Proof.
  unfold route_after_validation.
  destruct (_ && _); [left; reflexivity|].
  destruct (_ && _); [right; left|right; right]; reflexivity.
Qed.


(** X9.  Whatever the state, the label the router returns is one the
    conditional edge maps, to the researcher, the executor or END: the
    walk never stops at the router on an unknown branch. *)
Theorem router_branch_is_mapped o s :
  exists next,
    conditional_edge (route_after_validation o s) = Some next
    /\ next ∈ [AgentNode RESEARCHER; AgentNode EXECUTOR; END].
Proof.
  destruct (route_after_validation_label o s) as [H|[H|H]]; rewrite H; cbn;
    eexists; (split; [reflexivity|]).
  - apply list_elem_of_here.
  - apply list_elem_of_further, list_elem_of_here.
  - apply list_elem_of_further, list_elem_of_further, list_elem_of_here.
Qed.

(** X10.  At or beyond the maximum the router reads (top-level
    "max_retries" of the orchestrator's configuration, default 3) the
    router does not go back to the researcher, whatever the retry flag
    says. *)
Theorem router_stops_retrying_at_limit o s :
  (default 3 (max_retries (orch_config o)) <= retry_count s)%Z ->
  route_after_validation o s <> "researcher"
  /\ conditional_edge (route_after_validation o s) <> Some (AgentNode RESEARCHER).
Proof.
  intros Hmax. rewrite (route_without_retry_eq o s (or_intror Hmax)).
  destruct (_ && _); cbn; split; discriminate.
Qed.

Lemma router_stops_retrying_at_limit_witness :
  route_after_validation (sample_orchestrator (always_reply "ok") empty_config)
    (pstate (with_retry_count 3 (retrying_world empty_config))) <> "researcher"
  /\ conditional_edge
       (route_after_validation (sample_orchestrator (always_reply "ok") empty_config)
          (pstate (with_retry_count 3 (retrying_world empty_config))))
     <> Some (AgentNode RESEARCHER).
Proof.
  apply (router_stops_retrying_at_limit
           (sample_orchestrator (always_reply "ok") empty_config)
           (pstate (with_retry_count 3 (retrying_world empty_config)))).
  vm_compute. discriminate.
Defined.

(** X11.  A validation that passes does not end the retries: when the
    retry flag is set and the count is below the maximum, the Validator
    on a response that scores at or above [min_score] leaves the count as
    it was, and the router sends the walk back to the researcher. *)
Theorem passing_validation_keeps_retrying env built fault cfg w text :
  llm env (llm_calls w) = Reply text ->
  intermediate_results (pstate w) !! "needs_retry" = Some (PBool true) ->
  (retry_count (pstate w) < default 3 (max_retries cfg))%Z ->
  exists w' v,
    validator_execute env (initialize_agent cfg built VALIDATOR) w = Returned tt w'
    /\ intermediate_results (pstate w') !! "validation" = Some (PValidation v)
    /\ (float_ge (overall_score v)
          (default 0.7%float (min_score (agent_config_of cfg "validator"))) = true ->
        retry_count (pstate w') = retry_count (pstate w)
        /\ route_after_validation (new_orchestrator env built fault cfg) (pstate w')
           = "researcher").
Proof.
  intros Hllm Hflag Hcount. unfold validator_execute. unfold_calls. simpl_state.
  rewrite Hllm. simpl_state.
  cbn [self_config initialize_agent agent_value].
  match goal with |- context [if (negb ?a && ?b) then _ else _] =>
    destruct a eqn:Hok end; cbn [negb andb]; simpl_state.
  - eexists _, _. split; [reflexivity|]. simpl_state.
    split; [apply lookup_insert_eq|]. simpl_state. intros _. split; [reflexivity|].
    unfold route_after_validation, get_truthy. simpl_state.
    rewrite lookup_insert_ne by discriminate. rewrite Hflag.
    cbn [payload_truthy orch_config new_orchestrator].
    apply Z.ltb_lt in Hcount. rewrite Hcount. reflexivity.
  - match goal with |- context [if ?b then _ else _] => destruct b end;
      eexists _, _; (split; [reflexivity|]); simpl_state;
      (split; [rewrite ?lookup_insert_ne by discriminate; apply lookup_insert_eq|]);
      simpl_state; intros Hpass; rewrite Hpass in Hok; discriminate.
Qed.

Lemma passing_validation_keeps_retrying_witness :
  exists w' v,
    validator_execute (sample_env (always_reply high_scores_text))
      (initialize_agent empty_config built_at_zero VALIDATOR)
      (retrying_world empty_config) = Returned tt w'
    /\ intermediate_results (pstate w') !! "validation" = Some (PValidation v)
    /\ (float_ge (overall_score v)
          (default 0.7%float (min_score (agent_config_of empty_config "validator"))) = true ->
        retry_count (pstate w') = retry_count (pstate (retrying_world empty_config))
        /\ route_after_validation
             (new_orchestrator (sample_env (always_reply high_scores_text)) built_at_zero
                no_fault empty_config) (pstate w')
           = "researcher").
Proof.
  apply (passing_validation_keeps_retrying (sample_env (always_reply high_scores_text))
           built_at_zero no_fault empty_config (retrying_world empty_config)
           high_scores_text).
  - reflexivity.
  - vm_compute. reflexivity.
  - vm_compute. reflexivity.
Defined.

(** ** Walks under a monitor whose recording calls return *)

Section QuietPipeline.
Variables (env : Collaborators) (built : AgentType -> string)
          (fault : MonitorCall -> option string) (cfg : Config).
Hypothesis Hquiet : forall c, quiet (orch_monitor (new_orchestrator env built fault cfg)) c.

Lemma quiet_agent_node t w :
  exists w1,
    execute env (initialize_agent cfg built t) w = Returned tt w1
    /\ agent_node (new_orchestrator env built fault cfg) t w
       = Returned tt
           {| pstate :=
                set_completed_steps (completed_steps (pstate w1) ++ [agent_value t])
                  (set_current_step (agent_value t) (pstate w1));
              clock := clock w1;
              llm_calls := llm_calls w1 |}.
Proof.
  destruct (execute_returns env (initialize_agent cfg built t) w) as [w1 Hrun].
  exists w1. split; [exact Hrun|].
  apply (agent_node_returned (new_orchestrator env built fault cfg) t w w1 Hrun);
    apply Hquiet.
Qed.



End QuietPipeline.


(** With the language model down and the retry flag set, the walk from
    the researcher is ended by the recursion limit, whatever the limit:
    the second case of the trace is real. *)
Lemma quiet_walk_can_hit_recursion_limit fuel :
  exists w',
    walk (sample_orchestrator always_down empty_config) fuel (AgentNode RESEARCHER) []
      (retrying_world empty_config)
    = Some (Raised GraphRecursionError w').
Proof.
  apply (retry_loop_hits_recursion_limit built_at_zero fuel).
  - right. exists RESEARCHER. repeat split; discriminate.
  - split; [vm_compute; reflexivity|vm_compute; reflexivity].
Qed.

(** ** A stage whose language model call fails *)



(** The walk of the witness, in full: after the researcher has failed the
    walk visits the analyzer, the synthesizer, the validator and the
    router, each stage failing in turn, and ends there. *)
Lemma failed_stages_do_not_stop_walk :
  exists w',
    walk (sample_orchestrator always_down empty_config) 5 (AgentNode RESEARCHER) []
      (sample_world empty_config)
    = Some (Returned [AgentNode RESEARCHER; AgentNode ANALYZER; AgentNode SYNTHESIZER;
                      AgentNode VALIDATOR; RouterNode] w')
    /\ status (pstate w') = PENDING
    /\ List.length (errors (pstate w')) = 4
    /\ completed_steps (pstate w') = ["researcher"; "analyzer"; "synthesizer"; "validator"].
Proof.
  eexists. split; [vm_compute; reflexivity|]. repeat split.
Qed.


(** ** Runs from the initial state *)

#[local] Instance agent_types_from_preorder ty : PreOrder (agent_types_from ty).
Proof.
  split.
  - intros s aid a Hin. right. eauto.
  - intros s1 s2 s3 H12 H23 aid a Hin.
    destruct (H23 aid a Hin) as [Hty|(a0 & Hin0 & Hty0)]; [left; exact Hty|].
    destruct (H12 aid a0 Hin0) as [Hty|(a1 & Hin1 & Hty1)].
    + left. congruence.
    + right. exists a1. split; [exact Hin1|congruence].
Qed.






Section RunFacts.
Variables (env : Collaborators) (built : AgentType -> string)
          (fault : MonitorCall -> option string) (cfg : Config).



Lemma finish_run_quiet visited w :
  (forall c, quiet (orch_monitor (new_orchestrator env built fault cfg)) c) ->
  exists w', finish_run (new_orchestrator env built fault cfg) (Returned visited w)
             = Returned visited w'.
Proof.
  intros Hquiet. unfold finish_run, try_except, mbind, M_bind, modify_state.
  rewrite (record_call_quiet _ _ _ (Hquiet _)). cbn. eauto.
Qed.

Lemma quiet_walk_from_empty_results fuel w :
  (forall c, quiet (orch_monitor (new_orchestrator env built fault cfg)) c) ->
  intermediate_results (pstate w) = ∅ ->
  exists w', ainvoke (new_orchestrator env built fault cfg) (3 + fuel) w
             = Some (Returned [AgentNode PLANNER; RouterNode] w').
Proof.
  intros Hquiet Hempty.
  destruct (walk_from_empty_results env built fault cfg fuel w Hempty)
    as [(e & w' & Hwalk)|H]; [|exact H].
  exfalso. unfold ainvoke in Hwalk. cbn [Nat.add walk edge] in Hwalk.
  pose proof (planner_node_same_outside env built fault cfg w) as Hframe.
  destruct (quiet_agent_node env built fault cfg Hquiet PLANNER w) as (w1 & _ & Hnode).
  rewrite Hnode in Hwalk, Hframe. cbn [world_after] in Hframe.
  unfold router, mret, M_ret in Hwalk. cbn zeta in Hwalk.
  rewrite !route_after_update, route_end_after_planner in Hwalk.
  - cbn in Hwalk. discriminate.
  - intros k Hk. rewrite (Hframe k Hk), Hempty. apply lookup_empty.
Qed.



End RunFacts.

(** With fuel for three node visits or more, [run] gives a result; when
    it returns, the walk has visited the planner and the router and
    nothing else; and it returns when the Monitor's recording calls do. *)
Lemma run_ends_after_router env built fault cfg fuel uuid task0 context0 config0 :
  let o := new_orchestrator env built fault cfg in
  exists r,
    run o (3 + fuel) uuid task0 context0 config0 = Some r
    /\ (forall visited w,
          r = Returned visited w -> visited = [AgentNode PLANNER; RouterNode])
    /\ ((forall c, quiet (orch_monitor o) c) ->
        exists w, r = Returned [AgentNode PLANNER; RouterNode] w).
Proof.
  intros o. unfold run.
  match goal with |- context [record_call ?m ?c ?w0] =>
    pose proof (record_call_world m c w0) as Hw;
    pose proof (record_call_quiet m c w0) as Hstart;
    destruct (record_call m c w0) as [[] w1|e w1] end.
  - cbn [world_after] in Hw. subst w1.
    match goal with |- context [ainvoke o _ ?w0] =>
      pose proof (fun Hquiet =>
                    quiet_walk_from_empty_results env built fault cfg fuel w0 Hquiet eq_refl)
        as Hreturns;
      destruct (walk_from_empty_results env built fault cfg fuel w0 eq_refl)
        as [(e & w' & Hwalk)|(w' & Hwalk)] end;
      fold o in Hwalk, Hreturns; rewrite Hwalk; cbn [fmap option_fmap option_map];
      eexists; (split; [reflexivity|]); split.
    + intros visited w Hr. apply finish_run_returned in Hr as (w2 & Hr & _). congruence.
    + intros Hquiet. destruct (Hreturns Hquiet) as [w2 Hwalk2]. congruence.
    + intros visited w Hr. apply finish_run_returned in Hr as (w2 & Hr & _). congruence.
    + intros Hquiet. apply (finish_run_quiet env built fault cfg _ _ Hquiet).
  - eexists. split; [reflexivity|]. split; [discriminate|].
    intros Hquiet. specialize (Hstart (Hquiet _)). discriminate.
Qed.

(** C1.  Every run ends, and ends at END when the Monitor's recording
    calls return: with the recursion limit at three node visits or more,
    [run] gives a result; when it returns, the walk has visited the
    planner and the router and nothing else, so the edge back to the
    researcher is never taken; and when no recording call of the Monitor
    raises, [run] does return, the walk having reached END after these
    two nodes.  A run can end by raising only from a recording call of
    the Monitor. *)
Theorem run_walk_terminates env built fault cfg fuel uuid task0 context0 config0 :
  let o := new_orchestrator env built fault cfg in
  exists r,
    run o (3 + fuel) uuid task0 context0 config0 = Some r
    /\ (forall visited w,
          r = Returned visited w -> visited = [AgentNode PLANNER; RouterNode])
    /\ ((forall c, quiet (orch_monitor o) c) ->
        exists w, r = Returned [AgentNode PLANNER; RouterNode] w).
Proof. apply run_ends_after_router. Qed.

Lemma run_walk_terminates_witness :
  exists w,
    run (sample_orchestrator (always_reply "ok") empty_config) 3 "run-1"
      "summarise the report" None None
    = Some (Returned [AgentNode PLANNER; RouterNode] w).
Proof.
  destruct (run_walk_terminates (sample_env (always_reply "ok")) built_at_zero no_fault
              empty_config 0 "run-1" "summarise the report" None None)
    as (r & Hrun & _ & Hreturns).
  destruct (Hreturns (fun c => or_intror eq_refl)) as [w ->].
  exists w. exact Hrun.
Defined.



(** ** The Validator *)

Lemma py_min_at_most_one x : PrimFloat.ltb 1 (py_min x 1) = false.
Proof.
  unfold py_min. destruct (PrimFloat.ltb 1 x) eqn:Hx; [reflexivity|exact Hx].
Qed.

(** X14.  Whatever the response and whatever [float] makes of the matched
    text, the Validator scores exactly the five criteria, in their order,
    and no score is above 1. *)
Theorem criterion_scores_at_most_one env text :
  map fst (extract_criteria_scores env text) = criteria
  /\ forall c x, (c, x) ∈ extract_criteria_scores env text -> PrimFloat.ltb 1 x = false.
Proof.
  split.
  - unfold extract_criteria_scores. rewrite map_map. unfold criteria. cbn [map].
    repeat (destruct (re_search_score _ text); cbn [fst]); reflexivity.
  - intros c x Hin. unfold extract_criteria_scores in Hin.
    apply list_elem_of_fmap in Hin as (crit & Heq & _).
    destruct (re_search_score crit text); injection Heq as -> ->;
      [apply py_min_at_most_one|reflexivity].
Qed.

(** X15.  The Validator moves the retry count and the retry flag
    together or not at all: either both are as they were, or the count
    was below the maximum, went up by one and the flag is true. *)
Theorem validator_moves_retry_count_with_flag env self w :
  let w' := world_after (validator_execute env self w) in
  (retry_count (pstate w') = retry_count (pstate w)
   /\ intermediate_results (pstate w') !! "needs_retry"
      = intermediate_results (pstate w) !! "needs_retry")
  \/ ((retry_count (pstate w) < retry_limit (pstate w))%Z
      /\ retry_count (pstate w') = (retry_count (pstate w) + 1)%Z
      /\ intermediate_results (pstate w') !! "needs_retry" = Some (PBool true)).
Proof.
  unfold validator_execute. unfold_calls. simpl_state.
  destruct (llm env (llm_calls w)) as [text|msg]; simpl_state.
  - match goal with |- context [if (negb ?a && ?b) then _ else _] =>
      destruct (negb a && b) eqn:Hretry end; simpl_state.
    + right. apply andb_prop in Hretry as [_ Hlt]. apply Z.ltb_lt in Hlt.
      split; [exact Hlt|]. split; [reflexivity|]. apply lookup_insert_eq.
    + left. split; [reflexivity|]. apply lookup_insert_ne. discriminate.
  - left. unfold_calls. simpl_state. split; reflexivity.
Qed.

(** X16.  The recorded [passed] flag and the retry decision use different
    thresholds: with [min_score] configured above 0.7, a response in which
    no score can be read is recorded as passed (every criterion defaults
    to 0.7) and yet counts as a failed attempt, so the retry count goes up
    and the retry flag is set. *)
Theorem unparseable_validation_retries_above_default env self w text m :
  llm env (llm_calls w) = Reply text ->
  (forall c, c ∈ criteria -> re_search_score c text = None) ->
  min_score (self_config self) = Some m ->
  float_ge 0.7 m = false ->
  (retry_count (pstate w) < retry_limit (pstate w))%Z ->
  exists w' v,
    validator_execute env self w = Returned tt w'
    /\ intermediate_results (pstate w') !! "validation" = Some (PValidation v)
    /\ passed v = true
    /\ retry_count (pstate w') = (retry_count (pstate w) + 1)%Z
    /\ intermediate_results (pstate w') !! "needs_retry" = Some (PBool true).
Proof.
  intros Hllm Hnone Hmin Hm Hlimit. unfold validator_execute. unfold_calls. simpl_state.
  rewrite Hllm. simpl_state. rewrite Hmin. change (default 0.7%float (Some m)) with m.
  rewrite (extract_criteria_scores_default env text Hnone).
  repeat match goal with |- context [float_ge ?x m] =>
    progress change x with 0.7%float end.
  rewrite Hm. unfold retry_limit in Hlimit. apply Z.ltb_lt in Hlimit. rewrite Hlimit.
  cbn [negb andb]. simpl_state.
  eexists _, _. split; [reflexivity|]. simpl_state.
  split; [rewrite lookup_insert_ne by discriminate; apply lookup_insert_eq|].
  simpl_state. split; [vm_compute; reflexivity|]. split; [reflexivity|].
  apply lookup_insert_eq.
Qed.

Lemma unparseable_validation_retries_above_default_witness :
  exists w' v,
    validator_execute (sample_env (always_reply "ok")) (sample_validator custom_config)
      (sample_world custom_config) = Returned tt w'
    /\ intermediate_results (pstate w') !! "validation" = Some (PValidation v)
    /\ passed v = true
    /\ retry_count (pstate w') = (retry_count (pstate (sample_world custom_config)) + 1)%Z
    /\ intermediate_results (pstate w') !! "needs_retry" = Some (PBool true).
Proof.
  apply (unparseable_validation_retries_above_default (sample_env (always_reply "ok"))
           (sample_validator custom_config) (sample_world custom_config) "ok"
           0.75%float).
  - reflexivity.
  - intros c Hc. unfold criteria in Hc.
    repeat (apply elem_of_cons in Hc as [->|Hc]; [vm_compute; reflexivity|]).
    apply elem_of_nil in Hc. contradiction.
  - reflexivity.
  - vm_compute. reflexivity.
  - vm_compute. reflexivity.
Defined.

(** ** The Executor *)

(** X17.  The Executor's handler for a failed action is never reached:
    executing the actions returns one result per action, in order, each
    with status "completed" and no error, and leaves the state as it
    was. *)
Theorem execute_actions_all_completed env actions w :
  exists rs w',
    execute_actions env actions w = Returned rs w'
    /\ pstate w' = pstate w
    /\ map ar_action rs = map act_description actions
    /\ Forall (fun r => ar_status r = "completed" /\ ar_error r = None) rs.
Proof.
  revert w. induction actions as [|action rest IH]; intros w; cbn [execute_actions].
  - exists [], w. repeat split. constructor.
  - unfold execute_single_action. unfold_calls. simpl_state.
    destruct (IH {| pstate := pstate w; clock := S (clock w); llm_calls := llm_calls w |})
      as (rs & w' & Hrs & Hstate & Hmap & Hall).
    rewrite Hrs. eexists _, _. split; [reflexivity|].
    split; [exact Hstate|]. split; [cbn; f_equal; exact Hmap|].
    constructor; [split; reflexivity|exact Hall].
Qed.

(** X18.  With no completed synthesizer and no completed validator to
    take actions from, the Executor records the execution as skipped,
    appends no message and no error, and leaves its agent state SKIPPED. *)
Theorem executor_skips_without_actions env self w :
  none_completed SYNTHESIZER (pstate w) ->
  none_completed VALIDATOR (pstate w) ->
  exists w' a,
    executor_execute env self w = Returned tt w'
    /\ intermediate_results (pstate w') !! "execution"
       = Some (PExecution (ExecSkipped "No actions identified"))
    /\ messages (pstate w') = messages (pstate w)
    /\ errors (pstate w') = errors (pstate w)
    /\ dict_get (self_id self) (agent_states (pstate w')) = Some a
    /\ as_status a = SKIPPED.
Proof.
  intros Hsyn Hval. unfold executor_execute. unfold_calls. simpl_state.
  unfold identify_actions, context_synthesis, context_validation, context_get.
  rewrite (context_after_start_none _ _ _ SYNTHESIZER _ Hsyn).
  rewrite (context_after_start_none _ _ _ VALIDATOR _ Hval).
  cbn [map app]. simpl_state.
  eexists _, _. split; [reflexivity|]. simpl_state.
  split; [apply lookup_insert_eq|]. split; [reflexivity|]. split; [reflexivity|].
  split; [apply dict_get_set_eq|].
  apply as_status_updated_entry.
Qed.

Lemma executor_skips_without_actions_witness :
  exists w' a,
    executor_execute (sample_env (always_reply "ok"))
      (initialize_agent empty_config built_at_zero EXECUTOR) (sample_world empty_config)
    = Returned tt w'
    /\ intermediate_results (pstate w') !! "execution"
       = Some (PExecution (ExecSkipped "No actions identified"))
    /\ messages (pstate w') = messages (pstate (sample_world empty_config))
    /\ errors (pstate w') = errors (pstate (sample_world empty_config))
    /\ dict_get "executor_0" (agent_states (pstate w')) = Some a
    /\ as_status a = SKIPPED.
Proof.
  apply (executor_skips_without_actions (sample_env (always_reply "ok"))
           (initialize_agent empty_config built_at_zero EXECUTOR)
           (sample_world empty_config)).
  - intros aid a Hin. apply elem_of_nil in Hin. contradiction.
  - intros aid a Hin. apply elem_of_nil in Hin. contradiction.
Defined.

(** ** The Reviewer *)

(** X19.  When no synthesizer has completed, the Reviewer still sets
    [final_result]: with the summary "Task completed", no takeaways and an
    empty detailed output, and with the quality score and the
    recommendations of the review it stores under "review". *)
Theorem reviewer_defaults_without_synthesis env self w text :
  llm env (llm_calls w) = Reply text ->
  none_completed SYNTHESIZER (pstate w) ->
  exists w' fr review,
    reviewer_execute env self w = Returned tt w'
    /\ final_result (pstate w') = Some fr
    /\ intermediate_results (pstate w') !! "review" = Some (PReview review)
    /\ fr_summary fr = "Task completed"
    /\ fr_key_takeaways fr = []
    /\ fr_detailed_output fr = ""
    /\ fr_quality_score fr = quality_score review
    /\ fr_recommendations fr = r_recommendations review.
Proof.
  intros Hllm Hnone. unfold reviewer_execute. unfold_calls. simpl_state.
  rewrite Hllm. simpl_state.
  unfold context_synthesis, context_get.
  rewrite (context_after_start_none _ _ _ SYNTHESIZER _ Hnone).
  eexists _, _, _. split; [reflexivity|]. simpl_state.
  split; [reflexivity|]. split; [apply lookup_insert_eq|].
  repeat split.
Qed.

Lemma reviewer_defaults_without_synthesis_witness :
  exists w' fr review,
    reviewer_execute (sample_env (always_reply "ok"))
      (initialize_agent empty_config built_at_zero REVIEWER) (sample_world empty_config)
    = Returned tt w'
    /\ final_result (pstate w') = Some fr
    /\ intermediate_results (pstate w') !! "review" = Some (PReview review)
    /\ fr_summary fr = "Task completed"
    /\ fr_key_takeaways fr = []
    /\ fr_detailed_output fr = ""
    /\ fr_quality_score fr = quality_score review
    /\ fr_recommendations fr = r_recommendations review.
Proof.
  apply (reviewer_defaults_without_synthesis (sample_env (always_reply "ok"))
           (initialize_agent empty_config built_at_zero REVIEWER)
           (sample_world empty_config) "ok").
  - reflexivity.
  - intros aid a Hin. apply elem_of_nil in Hin. contradiction.
Defined.

(** ** The Planner *)

(** X20.  A plan whose "agent_sequence" has no length (a number, a
    boolean, null) fails the Planner half-way: the plan is stored and
    [next_steps] is overwritten with that value before [len] raises, so
    the state keeps both, with no message, one more error and the
    Planner's agent state FAILED. *)
Theorem planner_plan_without_length env self w text plan v :
  llm env (llm_calls w) = Reply text ->
  json_object_in env text = Some (Some plan) ->
  dict_get "agent_sequence" plan = Some v ->
  py_len v = None ->
  exists w' e a,
    planner_execute env self w = Returned tt w'
    /\ intermediate_results (pstate w') !! "execution_plan" = Some (PPlan plan)
    /\ next_steps (pstate w') = v
    /\ messages (pstate w') = messages (pstate w)
    /\ errors (pstate w') = errors (pstate w) ++ [e]
    /\ dict_get (self_id self) (agent_states (pstate w')) = Some a
    /\ as_status a = FAILED.
Proof.
  intros Hllm Hjson Hseq Hlen. unfold planner_execute. unfold_calls. simpl_state.
  rewrite Hllm. simpl_state. unfold parse_plan. rewrite Hjson, Hseq.
  cbn [default from_option]. unfold id. rewrite Hlen. unfold_calls. simpl_state.
  eexists _, _, _. split; [reflexivity|]. simpl_state.
  split; [apply lookup_insert_eq|]. split; [reflexivity|]. split; [reflexivity|].
  split; [reflexivity|]. split; [apply dict_get_set_eq|].
  apply as_status_updated_entry.
Qed.

Lemma planner_plan_without_length_witness :
  exists w' e a,
    planner_execute sample_env_with_plan
      (initialize_agent empty_config built_at_zero PLANNER) (sample_world empty_config)
    = Returned tt w'
    /\ intermediate_results (pstate w') !! "execution_plan" = Some (PPlan numbered_plan)
    /\ next_steps (pstate w') = JInt 4
    /\ messages (pstate w') = messages (pstate (sample_world empty_config))
    /\ errors (pstate w') = errors (pstate (sample_world empty_config)) ++ [e]
    /\ dict_get "planner_0" (agent_states (pstate w')) = Some a
    /\ as_status a = FAILED.
Proof.
  apply (planner_plan_without_length sample_env_with_plan
           (initialize_agent empty_config built_at_zero PLANNER)
           (sample_world empty_config) numbered_plan_text numbered_plan (JInt 4));
    reflexivity.
Defined.

(** ** The pipeline *)

Lemma finish_run_raised o e w : exists e' w', finish_run o (Raised e w) = Raised e' w'.
Proof.
  unfold finish_run. unfold_calls.
  destruct (monitor_enabled (orch_monitor o)); [|eauto].
  destruct (monitor_fault (orch_monitor o) (RecordPipelineCompletion false)); eauto.
Qed.

(** X21.  [AgenticPipeline.run] raises on every call: the walk ends at
    the router's first decision, before the reviewer, so the state the
    orchestrator returns has a null [final_result], and [_extract_result]
    calls [.get] on it. *)
Theorem pipeline_run_always_raises env built fault cfg fuel uuid task0 context0 kwargs :
  exists e w,
    pipeline_run (new_orchestrator env built fault cfg) (3 + fuel) uuid task0 context0 kwargs
    = Some (Raised e w).
Proof.
  set (o := new_orchestrator env built fault cfg).
  unfold pipeline_run, run.
  match goal with |- context [record_call ?m ?c ?w0] =>
    pose proof (record_call_world m c w0) as Hw;
    destruct (record_call m c w0) as [[] w1|e w1] end; [|eauto].
  cbn [world_after] in Hw. subst w1.
  match goal with |- context [ainvoke o _ ?w0] =>
    destruct (walk_from_empty_results env built fault cfg fuel w0 eq_refl)
      as [(e & w' & Hwalk)|(w' & Hwalk)] end;
    fold o in Hwalk; rewrite Hwalk; cbn [fmap option_fmap option_map].
  - destruct (finish_run_raised o e w') as (e' & w2 & ->). eauto.
  - destruct (finish_run o _) as [visited w2|e w2] eqn:Hfinish; [|eauto].
    apply finish_run_returned in Hfinish as (w3 & Heq & Hstate).
    injection Heq as Hv Hw3. subst w3.
    assert (final_result (pstate w2) = None) as Hnone.
    { rewrite Hstate. simpl_state.
      assert (forall t, t <> REVIEWER ->
                respects (same_field final_result) (orch_agents o t)) as Hagents.
      { intros t Ht.
        apply (execute_same_final_result env (initialize_agent cfg built t)), Ht. }
      unfold ainvoke in Hwalk.
      rewrite (walk_keeps_final_result o Hagents _ _ _ _ _ _ Hwalk); [reflexivity|].
      intros Hin.
      apply elem_of_cons in Hin as [Hin|Hin]; [discriminate|].
      apply elem_of_cons in Hin as [Hin|Hin]; [discriminate|].
      apply elem_of_nil in Hin. exact Hin. }
    unfold extract_result. rewrite Hnone. unfold raise. eauto.
Qed.

(** ** The metrics store *)

Lemma record_keeps_enabled m c : mm_enabled (apply_recording m c) = mm_enabled m.
Proof.
  destruct c; cbn; unfold record_pipeline_start, record_pipeline_completion,
    record_agent_start, record_agent_completion, record_agent_error;
    destruct (mm_enabled m) eqn:He; cbn; try exact He;
    repeat (match goal with |- context [match ?x with _ => _ end] => destruct x end;
            cbn; try exact He); reflexivity.
Qed.

(** X22.  A disabled monitor records nothing: whatever the sequence of
    recording calls, the store and the clock are as they were. *)
Theorem disabled_monitor_records_nothing cs m :
  mm_enabled m = false -> record_all cs m = m.
Proof.
  intros Hoff. unfold record_all. induction cs as [|c cs IH]; [reflexivity|].
  cbn [fold_left].
  assert (apply_recording m c = m) as ->; [|exact IH].
  destruct c; cbn; unfold record_pipeline_start, record_pipeline_completion,
    record_agent_start, record_agent_completion, record_agent_error;
    rewrite Hoff; reflexivity.
Qed.

Lemma disabled_monitor_records_nothing_witness :
  record_all sample_recordings (sample_monitor false) = sample_monitor false.
Proof.
  apply (disabled_monitor_records_nothing sample_recordings (sample_monitor false)).
  reflexivity.
Defined.

Lemma agent_totals_update_eq name f ms :
  agent_totals name (update_totals name f ms) = f (agent_totals name ms).
Proof. unfold agent_totals at 1. cbn. rewrite dict_get_set_eq. reflexivity. Qed.

Lemma agent_totals_update_ne name name' f ms :
  name <> name' -> agent_totals name (update_totals name' f ms) = agent_totals name ms.
Proof.
  intros Hne. unfold agent_totals. cbn. rewrite dict_get_set_ne by congruence. reflexivity.
Qed.

Lemma agent_totals_set_pipeline name pid p ms :
  agent_totals name (set_pipeline pid p ms) = agent_totals name ms.
Proof. reflexivity. Qed.

Lemma totals_after_update name name' f ms :
  agent_totals name (update_totals name' f ms)
  = if String.eqb name' name then f (agent_totals name ms) else agent_totals name ms.
Proof.
  destruct (String.eqb_spec name' name) as [->|Hne].
  - apply agent_totals_update_eq.
  - apply agent_totals_update_ne. congruence.
Qed.

Lemma record_counters name m c :
  mm_enabled m = true ->
  counters name (apply_recording m c)
  = let '(p, e, s, f) := counters name m in
    (p + (if is_pipeline_start c then 1 else 0),
     e + (if is_agent_start name c then 1 else 0),
     s + (if is_agent_completion name c then 1 else 0),
     f + (if is_agent_error name c then 1 else 0)).
Proof.
  intros Hon. unfold counters.
  destruct c as [pid|pid success error|n pid|n pid|n pid error]; cbn [apply_recording];
    unfold record_pipeline_start, record_pipeline_completion, record_agent_start,
      record_agent_completion, record_agent_error; rewrite Hon; cbn [negb];
    cbn [is_pipeline_start is_agent_start is_agent_completion is_agent_error].
  - cbn. rewrite !Nat.add_0_r. reflexivity.
  - destruct (dict_get pid _); cbn; rewrite !Nat.add_0_r; reflexivity.
  - destruct (dict_get pid _); cbn [mm_metrics]; rewrite !totals_after_update;
      rewrite ?agent_totals_set_pipeline; cbn [total_pipelines update_totals set_pipeline];
      destruct (String.eqb n name); cbn; rewrite !Nat.add_0_r; reflexivity.
  - destruct (dict_get pid _) as [p|]; [destruct (dict_get n (pr_agents p))|];
      cbn [mm_metrics]; rewrite !totals_after_update;
      rewrite ?agent_totals_set_pipeline; cbn [total_pipelines update_totals set_pipeline];
      destruct (String.eqb n name); cbn; rewrite !Nat.add_0_r; reflexivity.
  - destruct (dict_get pid _) as [p|]; [destruct (dict_get n (pr_agents p))|];
      cbn [mm_metrics]; rewrite !totals_after_update;
      rewrite ?agent_totals_set_pipeline; cbn [total_pipelines update_totals set_pipeline];
      destruct (String.eqb n name); cbn; rewrite !Nat.add_0_r; reflexivity.
Qed.

(** X23.  An enabled monitor counts calls, not runs: after any sequence
    of recording calls [total_pipelines] has grown by the number of
    pipeline starts, and for every agent [executions], [successes] and
    [failures] have grown by the number of its start, completion and error
    calls, whether or not the pipeline they name was ever started. *)
Theorem monitor_counts_calls cs m name :
  mm_enabled m = true ->
  let ms := mm_metrics m in
  let ms' := mm_metrics (record_all cs m) in
  total_pipelines ms' = total_pipelines ms + count_calls is_pipeline_start cs
  /\ executions (agent_totals name ms')
     = executions (agent_totals name ms) + count_calls (is_agent_start name) cs
  /\ successes (agent_totals name ms')
     = successes (agent_totals name ms) + count_calls (is_agent_completion name) cs
  /\ failures (agent_totals name ms')
     = failures (agent_totals name ms) + count_calls (is_agent_error name) cs.
Proof.
  cbn zeta. unfold record_all, count_calls. revert m.
  induction cs as [|c cs IH]; intros m Hon.
  - cbn. rewrite !Nat.add_0_r. repeat split.
  - cbn [fold_left].
    destruct (IH (apply_recording m c)) as (Hp & He & Hs & Hf);
      [rewrite record_keeps_enabled; exact Hon|].
    pose proof (record_counters name m c Hon) as Hc. unfold counters in Hc.
    cbn zeta in Hc. injection Hc as Hp1 He1 Hs1 Hf1.
    rewrite Hp, He, Hs, Hf, Hp1, He1, Hs1, Hf1. cbn [List.filter].
    destruct (is_pipeline_start c), (is_agent_start name c),
      (is_agent_completion name c), (is_agent_error name c); cbn [List.length];
      repeat split; lia.
Qed.

Lemma monitor_counts_calls_witness :
  total_pipelines (mm_metrics (record_all sample_recordings (sample_monitor true))) = 0 + 1
  /\ executions (agent_totals "planner"
                   (mm_metrics (record_all sample_recordings (sample_monitor true)))) = 0 + 1
  /\ successes (agent_totals "planner"
                  (mm_metrics (record_all sample_recordings (sample_monitor true)))) = 0 + 1
  /\ failures (agent_totals "planner"
                 (mm_metrics (record_all sample_recordings (sample_monitor true)))) = 0 + 0.
Proof.
  apply (monitor_counts_calls sample_recordings (sample_monitor true) "planner").
  reflexivity.
Defined.

Lemma dict_get_set_is_Some {K V} `{EqDecision K} (k k' : K) (v : V) d :
  is_Some (dict_get k (dict_set k' v d)) -> k = k' \/ is_Some (dict_get k d).
Proof.
  destruct (decide (k = k')) as [->|Hne]; [left; reflexivity|].
  rewrite dict_get_set_ne by congruence. right. assumption.
Qed.

Lemma dict_get_set_same {K V} `{EqDecision K} (k k' : K) (v : V) d :
  is_Some (dict_get k' d) ->
  is_Some (dict_get k (dict_set k' v d)) -> is_Some (dict_get k d).
Proof.
  intros Hk' H. apply dict_get_set_is_Some in H as [->|H]; assumption.
Qed.

Lemma record_pipeline_provenance m c pid :
  is_Some (get_pipeline_metrics pid (apply_recording m c)) ->
  is_Some (get_pipeline_metrics pid m) \/ c = PipelineStart pid.
Proof.
  unfold get_pipeline_metrics.
  destruct c as [p|p success error|n p|n p|n p error]; cbn [apply_recording];
    unfold record_pipeline_start, record_pipeline_completion, record_agent_start,
      record_agent_completion, record_agent_error;
    destruct (mm_enabled m); cbn [negb]; try (left; assumption).
  - cbn. intros H. apply dict_get_set_is_Some in H as [->|H]; [right|left]; auto.
  - destruct (dict_get p (m_pipelines (mm_metrics m))) as [r|] eqn:Hp;
      [|left; assumption].
    cbn. intros H. left. apply dict_get_set_same in H; [exact H|rewrite Hp; eauto].
  - destruct (dict_get p (m_pipelines (mm_metrics m))) as [r|] eqn:Hp;
      [|left; assumption].
    cbn. intros H. left. apply dict_get_set_same in H; [exact H|rewrite Hp; eauto].
  - destruct (dict_get p (m_pipelines (mm_metrics m))) as [r|] eqn:Hp;
      [destruct (dict_get n (pr_agents r))|]; try (left; assumption).
    cbn. intros H. left. apply dict_get_set_same in H; [exact H|rewrite Hp; eauto].
  - destruct (dict_get p (m_pipelines (mm_metrics m))) as [r|] eqn:Hp;
      [destruct (dict_get n (pr_agents r))|]; try (left; assumption).
    cbn. intros H. left. apply dict_get_set_same in H; [exact H|rewrite Hp; eauto].
Qed.

(** X24.  A pipeline has a record in the store only if it had one before
    or [record_pipeline_start] was called for it: no completion and no
    agent call creates one. *)
Theorem pipeline_record_needs_start cs m pid :
  is_Some (get_pipeline_metrics pid (record_all cs m)) ->
  is_Some (get_pipeline_metrics pid m) \/ PipelineStart pid ∈ cs.
Proof.
  unfold record_all. revert m. induction cs as [|c cs IH]; intros m H; [left; exact H|].
  cbn [fold_left] in H. apply IH in H as [H|H].
  - apply record_pipeline_provenance in H as [H| ->]; [left; exact H|right; left].
  - right. right. exact H.
Qed.

Lemma pipeline_record_needs_start_witness :
  is_Some (get_pipeline_metrics "run-1" (record_all sample_recordings (sample_monitor true)))
  /\ (is_Some (get_pipeline_metrics "run-1" (sample_monitor true))
      \/ PipelineStart "run-1" ∈ sample_recordings).
Proof.
  split; [vm_compute; eauto|].
  apply (pipeline_record_needs_start sample_recordings (sample_monitor true) "run-1").
  vm_compute. eauto.
Defined.

(** X25.  A recording call, other than a pipeline start, that names a
    pipeline without a record leaves no trace of the pipeline: the
    pipeline records, the pipeline success and failure totals and the
    clock are as they were, and a pipeline completion changes nothing at
    all. *)
Theorem unknown_pipeline_leaves_no_record m c :
  get_pipeline_metrics (recording_pipeline c) m = None ->
  is_pipeline_start c = false ->
  let ms := mm_metrics m in
  let ms' := mm_metrics (apply_recording m c) in
  m_pipelines ms' = m_pipelines ms
  /\ total_successes ms' = total_successes ms
  /\ total_failures ms' = total_failures ms
  /\ mm_clock (apply_recording m c) = mm_clock m
  /\ (is_pipeline_completion c = true -> apply_recording m c = m).
Proof.
  unfold get_pipeline_metrics.
  destruct c as [p|p success error|n p|n p|n p error];
    cbn [apply_recording recording_pipeline];
    intros Hnone Hstart; try discriminate;
    unfold record_pipeline_completion, record_agent_start,
      record_agent_completion, record_agent_error;
    destruct (mm_enabled m); cbn [negb]; rewrite ?Hnone; cbn; repeat split;
    discriminate.
Qed.

Lemma unknown_pipeline_leaves_no_record_witness :
  m_pipelines (mm_metrics (apply_recording (sample_monitor true)
                             (PipelineCompletion "run-9" true None)))
  = m_pipelines (mm_metrics (sample_monitor true))
  /\ total_successes (mm_metrics (apply_recording (sample_monitor true)
                                    (PipelineCompletion "run-9" true None)))
     = total_successes (mm_metrics (sample_monitor true))
  /\ total_failures (mm_metrics (apply_recording (sample_monitor true)
                                   (PipelineCompletion "run-9" true None)))
     = total_failures (mm_metrics (sample_monitor true))
  /\ mm_clock (apply_recording (sample_monitor true) (PipelineCompletion "run-9" true None))
     = mm_clock (sample_monitor true)
  /\ (is_pipeline_completion (PipelineCompletion "run-9" true None) = true ->
      apply_recording (sample_monitor true) (PipelineCompletion "run-9" true None)
      = sample_monitor true).
Proof.
  apply (unknown_pipeline_leaves_no_record (sample_monitor true)
           (PipelineCompletion "run-9" true None)); reflexivity.
Defined.

Lemma omap_summarise_set name t (d : list (string * AgentTotals)) :
  summarise (name, t) = summarise (name, default default_totals (dict_get name d)) ->
  omap summarise (dict_set name t d) = omap summarise d.
Proof.
  induction d as [|[k v] d IH]; intros Heq.
  - cbn in *. rewrite Heq. reflexivity.
  - cbn [dict_set]. cbn [dict_get] in Heq. destruct (decide (name = k)) as [->|Hne].
    + cbn [omap list_omap] in *. cbn in Heq. rewrite Heq. reflexivity.
    + cbn [omap list_omap]. rewrite (IH Heq). reflexivity.
Qed.

(** X26.  [get_agent_metrics] writes to the store (it adds the two rates
    to the agent's entry, and makes the entry when the agent was never
    recorded), yet the summary is the same before and after it: an agent
    that was only asked about is not listed.  The counters it returns are
    the stored ones. *)
Theorem get_agent_metrics_keeps_summary name m :
  let '(t, m') := get_agent_metrics name m in
  get_summary m' = get_summary m
  /\ executions t = executions (agent_totals name (mm_metrics m))
  /\ successes t = successes (agent_totals name (mm_metrics m))
  /\ failures t = failures (agent_totals name (mm_metrics m))
  /\ dict_get name (m_agents (mm_metrics m')) = Some t.
Proof.
  unfold get_agent_metrics. rewrite agent_totals_update_eq. cbn [with_rates].
  split; [|repeat split; cbn; apply dict_get_set_eq].
  unfold get_summary. cbn. f_equal. apply omap_summarise_set. reflexivity.
Qed.

(** X27.  Starting a pipeline that already has a record replaces the
    record by a fresh one (running, no agents, no errors, no end time);
    the records of the other pipelines and the agent totals are as they
    were. *)
Theorem pipeline_start_resets_record pid m :
  mm_enabled m = true ->
  let m' := record_pipeline_start pid m in
  get_pipeline_metrics pid m'
  = Some {| pr_start_time := mm_clock m; pr_end_time := None; pr_status := "running";
            pr_agents := []; pr_errors := []; pr_duration := None |}
  /\ (forall other, other <> pid ->
        get_pipeline_metrics other m' = get_pipeline_metrics other m)
  /\ m_agents (mm_metrics m') = m_agents (mm_metrics m).
Proof.
  intros Hon. unfold record_pipeline_start, get_pipeline_metrics. rewrite Hon. cbn.
  split; [apply dict_get_set_eq|]. split; [|reflexivity].
  intros other Hne. apply dict_get_set_ne. congruence.
Qed.

Lemma pipeline_start_resets_record_witness :
  get_pipeline_metrics "run-1"
    (record_pipeline_start "run-1" (record_all sample_recordings (sample_monitor true)))
  = Some {| pr_start_time := mm_clock (record_all sample_recordings (sample_monitor true));
            pr_end_time := None; pr_status := "running";
            pr_agents := []; pr_errors := []; pr_duration := None |}
  /\ (forall other, other <> "run-1" ->
        get_pipeline_metrics other
          (record_pipeline_start "run-1" (record_all sample_recordings (sample_monitor true)))
        = get_pipeline_metrics other (record_all sample_recordings (sample_monitor true)))
  /\ m_agents (mm_metrics
                 (record_pipeline_start "run-1"
                    (record_all sample_recordings (sample_monitor true))))
     = m_agents (mm_metrics (record_all sample_recordings (sample_monitor true))).
Proof.
  apply (pipeline_start_resets_record "run-1"
           (record_all sample_recordings (sample_monitor true))).
  reflexivity.
Defined.

(** ** What a run returns *)

(** Only the Validator moves the retry count. *)
Lemma execute_same_retry_count env self :
  self_type self <> VALIDATOR -> respects (same_field retry_count) (execute env self).
Proof.
  intros Ht. unfold_stage. destruct (self_type self); try contradiction;
    respects_any_stage.
  all: intros; unfold same_field; reflexivity.
Qed.

(** When the node function of a shipped stage returns, the stage is in
    [completed_steps], whether the stage failed inside or the monitor's
    completion call raised. *)
Lemma agent_node_completes_step env built fault cfg t w w' :
  agent_node (new_orchestrator env built fault cfg) t w = Returned tt w' ->
  completed_steps (pstate w') = completed_steps (pstate w) ++ [agent_value t].
Proof.
  pose proof (execute_same_completed_steps env (initialize_agent cfg built t) w) as Hsteps.
  destruct (execute_returns env (initialize_agent cfg built t) w) as [w1 Hrun].
  rewrite Hrun in Hsteps. unfold same_field in Hsteps. cbn [world_after] in Hsteps.
  unfold agent_node. cbn [orch_agents orch_monitor new_orchestrator].
  unfold_calls. unfold_calls. cbn [monitor_enabled monitor_fault].
  destruct (monitoring_enabled cfg).
  - destruct (fault (RecordAgentStart (agent_value t))); [intros H; discriminate H|].
    rewrite Hrun. simpl_state.
    destruct (fault (RecordAgentCompletion (agent_value t))).
    + destruct (fault (RecordAgentError (agent_value t))); [intros H; discriminate H|].
      intros [= <-]. simpl_state. rewrite Hsteps. reflexivity.
    + intros [= <-]. simpl_state. rewrite Hsteps. reflexivity.
  - rewrite Hrun. simpl_state. intros [= <-]. simpl_state. rewrite Hsteps. reflexivity.
Qed.

(** X28.  What a run that returns has done: exactly one step, the
    planner, is in [completed_steps] (also when the planner failed); no
    key of [intermediate_results] other than "execution_plan" is set; the
    retry count is 0 and [final_result] is null. *)
Theorem run_completes_planner_only env built fault cfg fuel uuid task0 context0 config0
    visited w :
  run (new_orchestrator env built fault cfg) (3 + fuel) uuid task0 context0 config0
    = Some (Returned visited w) ->
  completed_steps (pstate w) = ["planner"]
  /\ (forall k, k <> "execution_plan" -> intermediate_results (pstate w) !! k = None)
  /\ retry_count (pstate w) = 0%Z
  /\ final_result (pstate w) = None.
Proof.
  set (o := new_orchestrator env built fault cfg). unfold run.
  match goal with |- context [record_call ?m ?c ?w0] =>
    pose proof (record_call_world m c w0) as Hw;
    destruct (record_call m c w0) as [[] w1|e w1] end; [|discriminate].
  cbn [world_after] in Hw. subst w1.
  unfold ainvoke. cbn [Nat.add walk edge].
  match goal with |- context [agent_node o PLANNER ?w0] =>
    set (w0' := w0);
    pose proof (agent_node_completes_step env built fault cfg PLANNER w0') as Hstep;
    pose proof (planner_node_same_outside env built fault cfg w0') as Hframe;
    pose proof (agent_node_respects o (same_field retry_count) PLANNER
                  (execute_same_retry_count env (initialize_agent cfg built PLANNER)
                     ltac:(discriminate))
                  (fun _ _ => eq_refl) (fun _ _ => eq_refl) (fun _ _ => eq_refl)
                  (fun _ _ => eq_refl) w0') as Hcount;
    pose proof (agent_node_respects o (same_field final_result) PLANNER
                  (execute_same_final_result env (initialize_agent cfg built PLANNER)
                     ltac:(discriminate))
                  (fun _ _ => eq_refl) (fun _ _ => eq_refl) (fun _ _ => eq_refl)
                  (fun _ _ => eq_refl) w0') as Hfinal
  end.
  fold o in Hstep, Hframe.
  destruct (agent_node o PLANNER w0') as [[] w1|e w1];
    [|destruct (finish_run_raised o e w1) as (e' & w2 & Heq);
      unfold fmap, option_fmap, option_map; rewrite Heq; discriminate].
  specialize (Hstep w1 eq_refl) as Hsteps.
  cbn [world_after] in Hframe, Hcount, Hfinal. unfold same_field in Hcount, Hfinal.
  unfold router, mret, M_ret. cbn zeta.
  rewrite !route_after_update, (route_end_after_planner o (pstate w1)).
  2: { intros k Hk. rewrite (Hframe k Hk). apply lookup_empty. }
  change (conditional_edge "end") with (Some END). cbn [app walk].
  unfold fmap, option_fmap, option_map. intros Hfinish.
  match type of Hfinish with Some ?a = Some ?b =>
    assert (a = b) as Hf by congruence end.
  apply finish_run_returned in Hf as (w2 & Hr & ->). injection Hr as _ <-.
  unfold apply_update. simpl_state.
  rewrite Hsteps, Hcount, Hfinal. repeat split.
  intros k Hk. rewrite (Hframe k); [apply lookup_empty|].
  rewrite list_elem_of_singleton. exact Hk.
Qed.

Lemma run_completes_planner_only_witness :
  exists visited w,
    run (sample_orchestrator always_down empty_config) 3 "run-1" "summarise the report"
      None None = Some (Returned visited w)
    /\ completed_steps (pstate w) = ["planner"]
    /\ (forall k, k <> "execution_plan" -> intermediate_results (pstate w) !! k = None)
    /\ retry_count (pstate w) = 0%Z
    /\ final_result (pstate w) = None.
Proof.
  eexists _, _. split; [vm_compute; reflexivity|].
  apply (run_completes_planner_only (sample_env always_down) built_at_zero no_fault
           empty_config 0 "run-1" "summarise the report" None None
           [AgentNode PLANNER; RouterNode]).
  vm_compute. reflexivity.
Defined.

(** ** The Planner's fallback *)

(** X29.  When the response holds no JSON object, or one that does not
    decode, the Planner does not fail: it stores the fallback plan, sets
    [next_steps] to researcher, analyzer, synthesizer, validator, and
    reports a plan of 4 steps in one message, with no error. *)
Theorem planner_falls_back env self w text :
  llm env (llm_calls w) = Reply text ->
  (forall plan, json_object_in env text <> Some (Some plan)) ->
  exists w' analysis m,
    planner_execute env self w = Returned tt w'
    /\ intermediate_results (pstate w') !! "execution_plan"
       = Some (PPlan (fallback_plan analysis))
    /\ next_steps (pstate w')
       = JArr [JStr "researcher"; JStr "analyzer"; JStr "synthesizer"; JStr "validator"]
    /\ messages (pstate w') = messages (pstate w) ++ [m]
    /\ content m = "Created execution plan with 4 steps"
    /\ errors (pstate w') = errors (pstate w).
Proof.
  intros Hllm Hjson. unfold planner_execute. unfold_calls. simpl_state.
  rewrite Hllm. simpl_state. unfold parse_plan.
  destruct (json_object_in env text) as [[plan|]|] eqn:Hparse;
    [exfalso; exact (Hjson plan eq_refl)|..];
    cbn [fallback_plan dict_get default from_option]; unfold id; cbn [py_len List.length];
    simpl_state;
    eexists _, _, _; (split; [reflexivity|]); simpl_state;
    (split; [apply lookup_insert_eq|]); repeat split.
Qed.

Lemma planner_falls_back_witness :
  exists w' analysis m,
    planner_execute (sample_env (always_reply "ok"))
      (initialize_agent empty_config built_at_zero PLANNER) (sample_world empty_config)
    = Returned tt w'
    /\ intermediate_results (pstate w') !! "execution_plan"
       = Some (PPlan (fallback_plan analysis))
    /\ next_steps (pstate w')
       = JArr [JStr "researcher"; JStr "analyzer"; JStr "synthesizer"; JStr "validator"]
    /\ messages (pstate w') = messages (pstate (sample_world empty_config)) ++ [m]
    /\ content m = "Created execution plan with 4 steps"
    /\ errors (pstate w') = errors (pstate (sample_world empty_config)).
Proof.
  apply (planner_falls_back (sample_env (always_reply "ok"))
           (initialize_agent empty_config built_at_zero PLANNER)
           (sample_world empty_config) "ok").
  - reflexivity.
  - intros plan. discriminate.
Defined.
